(** * Logistixai: the report generation pipeline

    A shallow embedding of the multi-agent pipeline of
    [backend/services/report_service.py] and of the agents it drives
    ([backend/agents/search_agent.py], [report_agent.py],
    [validator_agent.py], and the constructor of [search_agent_mcp.py]),
    with the properties of the construction of the agents, of the
    generate/validate loop, of the agents' fallbacks and of the final commit
    steps.

    Python values that travel as JSON are values of [json]; dictionaries are
    association lists in insertion order; the calls that leave the process
    (the three Anthropic clients, the web search client, the clock, the file
    system, the vector store, the PDF renderer) are answered by an [env] of
    oracles, indexed by how often each was called so far; the constructors
    of the agents are the repository's own and are embedded with the rest.
    A computation is a function from the event log to an outcome and a new
    log: an exception keeps the log, as in Python. *)

From Stdlib Require Import String Ascii List ZArith Lia Bool Arith.
From Stdlib Require Import SpecFloat.
Import ListNotations.
Local Open Scope string_scope.
Set Warnings "-register-all".

(* ------------------------------------------------------------------ *)
(** ** Python strings *)

Module PyStr.

(** Strings are sequences of characters with codes below 256.
    [str.isspace] on them: *)
Definition isspace (c : ascii) : bool :=
  let n := nat_of_ascii c in
  (((9 <=? n) && (n <=? 13)) || ((28 <=? n) && (n <=? 32))
   || (n =? 133) || (n =? 160))%nat.

Fixpoint lstrip (s : string) : string :=
  match s with
  | EmptyString => EmptyString
  | String c s' => if isspace c then lstrip s' else s
  end.

Fixpoint rstrip (s : string) : string :=
  match s with
  | EmptyString => EmptyString
  | String c s' =>
      match rstrip s' with
      | EmptyString => if isspace c then EmptyString else String c EmptyString
      | r => String c r
      end
  end.

(** [s.strip()] *)
Definition strip (s : string) : string := rstrip (lstrip s).

(** [s.startswith(p)] *)
Definition startswith (s p : string) : bool := String.prefix p s.

(** [s[n:]] *)
Fixpoint slice_from (n : nat) (s : string) : string :=
  match n, s with
  | O, _ => s
  | S _, EmptyString => EmptyString
  | S n', String _ s' => slice_from n' s'
  end.

(** [s.endswith(p)] *)
Definition endswith (s p : string) : bool :=
  (String.length p <=? String.length s)%nat &&
  String.eqb (slice_from (String.length s - String.length p) s) p.

Fixpoint rev_string (acc : list ascii) (out : string) : string :=
  match acc with
  | [] => out
  | c :: acc' => rev_string acc' (String c out)
  end.

(** [s.split(sep)] for a non-empty [sep]: [skip] counts the characters of a
    separator still to be passed over, [cur] is the piece being read,
    last character first. *)
Fixpoint split_aux (sep : string) (skip : nat) (cur : list ascii) (s : string)
  : list string :=
  match s with
  | EmptyString => [rev_string cur EmptyString]
  | String c s' =>
      match skip with
      | S k => split_aux sep k cur s'
      | O =>
          if String.prefix sep s
          then rev_string cur EmptyString
               :: split_aux sep (String.length sep - 1) [] s'
          else split_aux sep 0 (c :: cur) s'
      end
  end.

Definition split (s sep : string) : list string := split_aux sep 0 [] s.

End PyStr.

(* ------------------------------------------------------------------ *)
(** ** JSON values and Python dictionaries *)

(** What [json.loads] builds: [None], [bool], [int], [float], [str], [list]
    and [dict] (keys in insertion order). *)
Inductive json : Type :=
| JNull
| JBool (b : bool)
| JInt (z : Z)
| JFloat (f : spec_float)
| JStr (s : string)
| JArr (items : list json)
| JObj (fields : list (string * json)).

Definition pydict : Type := list (string * json).

(** [type(v).__name__] *)
Definition type_name (v : json) : string :=
  match v with
  | JNull => "NoneType"
  | JBool _ => "bool"
  | JInt _ => "int"
  | JFloat _ => "float"
  | JStr _ => "str"
  | JArr _ => "list"
  | JObj _ => "dict"
  end.

(** [str(e)] for the [AttributeError] of [v.attribute]. *)
Definition no_attribute (v : json) (attribute : string) : string :=
  "'" ++ type_name v ++ "' object has no attribute '" ++ attribute ++ "'".

(** [str(e)] for the [TypeError] of [for x in v]. *)
Definition not_iterable (v : json) : string :=
  "'" ++ type_name v ++ "' object is not iterable".

(** [str(e)] for the [TypeError] of [v[:100]]; on a dictionary the slice is
    taken as a key (this is the message up to CPython 3.11, later versions
    raise [KeyError]). *)
Definition not_subscriptable (v : json) : string :=
  match v with
  | JObj _ => "unhashable type: 'slice'"
  | _ => "'" ++ type_name v ++ "' object is not subscriptable"
  end.

(** [bool(v)]: Python truthiness. *)
Definition truthy (v : json) : bool :=
  match v with
  | JNull => false
  | JBool b => b
  | JInt z => negb (z =? 0)%Z
  | JFloat (S754_zero _) => false
  | JFloat _ => true
  | JStr s => negb (String.eqb s "")
  | JArr l => match l with [] => false | _ => true end
  | JObj d => match d with [] => false | _ => true end
  end.

Module Dict.

(** [d.get(k)], [None] of Python being [None] of [option]. *)
Fixpoint lookup (k : string) (d : pydict) : option json :=
  match d with
  | [] => None
  | (k', v) :: d' => if String.eqb k k' then Some v else lookup k d'
  end.

(** [d.get(k, default)] *)
Definition get (k : string) (default : json) (d : pydict) : json :=
  match lookup k d with Some v => v | None => default end.

(** [d[k] = v]: an existing key keeps its place. *)
Fixpoint set (k : string) (v : json) (d : pydict) : pydict :=
  match d with
  | [] => [(k, v)]
  | (k', v') :: d' =>
      if String.eqb k k' then (k', v) :: d' else (k', v') :: set k v d'
  end.

(** [d.setdefault(k, v)] *)
Definition setdefault (k : string) (v : json) (d : pydict) : pydict :=
  match lookup k d with Some _ => d | None => set k v d end.

(** [{**d1, **d2}]: the items of [d2] written into [d1] in order. *)
Definition update (d1 d2 : pydict) : pydict :=
  fold_left (fun acc kv => set (fst kv) (snd kv) acc) d2 d1.

(** The keys in iteration order, each once. *)
Fixpoint keys (d : pydict) : list string :=
  match d with
  | [] => []
  | (k, _) :: d' =>
      k :: filter (fun k' => negb (String.eqb k k')) (keys d')
  end.

End Dict.

(* ------------------------------------------------------------------ *)
(** ** The world outside the repository *)

(** An exception, as far as the code looks at it: [str(e)]. *)
Definition exn : Type := string.

(** [json.loads(text)]: the value, [json.JSONDecodeError], or another
    exception (a [RecursionError] on very deep nesting). *)
Inductive loads_result : Type :=
| Loaded (v : json)
| JSONDecodeError (msg : string)
| LoadsRaised (e : exn).

(** [client.messages.create(...)] followed by [response.content[0].text]:
    the text of the first block, or the exception of either step. *)
Inductive llm_reply : Type :=
| LlmText (text : string)
| LlmRaises (e : exn).

(** One search hit, taken at its declared type [Dict[str, str]]: the key
    ["url"] may be missing, its value is a string. *)
Definition hit : Type := list (string * string).

Fixpoint hit_get (k : string) (h : hit) : option string :=
  match h with
  | [] => None
  | (k', v) :: h' => if String.eqb k k' then Some v else hit_get k h'
  end.

(** [mcp_client.search_web(query, max_results=5)]: the hits the client
    hands back (from the configured server, or its built-in list), or the
    exception of the call, which lines 126-128 skip. *)
Inductive web_reply : Type :=
| WebHits (hits : list hit)
| WebRaises (e : exn).

(** The dictionary a search agent's [execute] returns; a key that a branch
    leaves out is [None]. *)
Record search_result : Type := {
  sr_success : bool;
  sr_error : option string;
  sr_search_results : list hit;
  sr_queries_used : option (list json)
}.

(** The dictionary [ReportGeneratorAgent.execute] returns. *)
Record report_result : Type := {
  rr_success : bool;
  rr_error : option string;
  rr_report : json
}.

Record env : Type := {
  (* settings *)
  MAX_VALIDATION_ITERATIONS : Z;
  REPORTS_DIR : string;
  USE_MCP_AGENTS : bool;
  ANTHROPIC_API_KEY : option string;
  (* module flags *)
  MCP_AGENT_AVAILABLE : bool;
  CLAUDE_SDK_AVAILABLE : bool;
  is_mcp_configured : bool;
  (* the argument [api_key] of the call of [generate_report] *)
  api_key : option string;
  (* library functions *)
  json_loads : string -> loads_result;
  str : json -> string;
  (** [Anthropic(api_key=key)]: the exception of the library, if it raises *)
  anthropic_client : option string -> option exn;
  (* the outside world *)
  uuid4 : string;
  utcnow : nat -> string;
  (** [MCPSearchAgent.execute], not embedded here *)
  mcp_execute : search_result + exn;
  search_llm : nat -> llm_reply;
  search_web : nat -> web_reply;
  report_llm : nat -> llm_reply;
  validator_llm : nat -> llm_reply;
  add_search_results : option exn;
  file_write : nat -> option exn;
  add_report : option exn;
  generate_pdf : option exn;
  add_pdf : option exn
}.

(** What the run did to the outside, most recent first. *)
Inductive event : Type :=
| QueryLlm
| RankLlm
| WebSearch (query : json)
| McpSearch
| GenerateLlm (previous_feedback : json)
| ValidateLlm (report : json)
| Utcnow
| AddSearchResults (report_id : string)
| WriteReport (path : string) (record : json)
| WriteFailed (path : string)
| AddReport (report_id : string) (report_content : json) (overall_risk : json)
| PdfGenerated (path : string)
| AddPdf (report_id : string).

(** The log, and the two local variables of [generate_report] that its
    exception handler reads. *)
Record store : Type := {
  log : list event;
  iteration_count : Z;
  validation_history : list json
}.

Definition initial_store : store :=
  {| log := []; iteration_count := 0; validation_history := [] |}.

Definition emit (ev : event) (s : store) : store :=
  {| log := ev :: log s;
     iteration_count := iteration_count s;
     validation_history := validation_history s |}.

Definition count (p : event -> bool) (s : store) : nat :=
  List.length (filter p (log s)).

Definition is_search_llm (ev : event) : bool :=
  match ev with QueryLlm | RankLlm => true | _ => false end.
Definition is_web (ev : event) : bool :=
  match ev with WebSearch _ => true | _ => false end.
Definition is_generate (ev : event) : bool :=
  match ev with GenerateLlm _ => true | _ => false end.
Definition is_validate (ev : event) : bool :=
  match ev with ValidateLlm _ => true | _ => false end.
Definition is_utcnow (ev : event) : bool :=
  match ev with Utcnow => true | _ => false end.
Definition is_write (ev : event) : bool :=
  match ev with WriteReport _ _ | WriteFailed _ => true | _ => false end.

(* ------------------------------------------------------------------ *)
(** ** Computations *)

Inductive outcome (A : Type) : Type :=
| Returned (a : A)
| Raised (e : exn)
| OutOfFuel.
Arguments Returned {A} a.
Arguments Raised {A} e.
Arguments OutOfFuel {A}.

Definition M (A : Type) : Type := store -> outcome A * store.

Definition ret {A : Type} (a : A) : M A := fun s => (Returned a, s).

Definition bind {A B : Type} (m : M A) (k : A -> M B) : M B :=
  fun s =>
    match m s with
    | (Returned a, s') => k a s'
    | (Raised e, s') => (Raised e, s')
    | (OutOfFuel, s') => (OutOfFuel, s')
    end.

Definition raise {A : Type} (e : exn) : M A := fun s => (Raised e, s).

(** [try: body except Exception as e: handler(e)] *)
Definition try_except {A : Type} (body : M A) (handler : exn -> M A) : M A :=
  fun s =>
    match body s with
    | (Raised e, s') => handler e s'
    | r => r
    end.

Definition get_store : M store := fun s => (Returned s, s).
Definition put_store (s : store) : M unit := fun _ => (Returned tt, s).
Definition tell (ev : event) : M unit := fun s => (Returned tt, emit ev s).

Declare Scope py_scope.
Delimit Scope py_scope with py.
Notation "x <- m ;; k" := (bind m (fun x => k))
  (at level 61, m at next level, right associativity) : py_scope.
Notation "m ;;; k" := (bind m (fun _ => k))
  (at level 61, right associativity) : py_scope.
Local Open Scope py_scope.

(** An optional failure of an outside call. *)
Definition may_raise (r : option exn) : M unit :=
  match r with
  | Some e => raise e
  | None => ret tt
  end.

(** A step without effects that returns or raises. *)
Definition lift {A : Type} (r : A + exn) : M A :=
  match r with
  | inl a => ret a
  | inr e => raise e
  end.

(** A call on one of the three clients: the reply is the oracle's, at the
    number of calls this client has answered before. *)
Definition llm_call (replies : nat -> llm_reply) (mine : event -> bool)
  (ev : event) : M string :=
  s <- get_store ;;
  tell ev ;;;
  match replies (count mine s) with
  | LlmText text => ret text
  | LlmRaises e => raise e
  end.

(** [datetime.utcnow().isoformat()] *)
Definition now (E : env) : M string :=
  s <- get_store ;;
  tell Utcnow ;;;
  ret (utcnow E (count is_utcnow s)).

(** [os.path.join(a, b)] of [posixpath]. *)
Definition path_join (a b : string) : string :=
  if PyStr.startswith b "/" then b
  else if String.eqb a "" || PyStr.endswith a "/" then a ++ b
  else a ++ "/" ++ b.

(** Lines 143-147 of [validator_agent.py] and 214-218 of [report_agent.py]:
    the text between the first two code fences, without a leading [json]. *)
Definition strip_code_fence (content : string) : string + exn :=
  if PyStr.startswith content "```" then
    match nth_error (PyStr.split content "```") 1 with
    | None => inr "list index out of range"
    | Some inner =>
        let inner :=
          if PyStr.startswith inner "json" then PyStr.slice_from 4 inner
          else inner in
        inl (PyStr.strip inner)
    end
  else inl content.

(* ------------------------------------------------------------------ *)
(** ** Constructor calls *)

(** [str(e)] for the [TypeError] of a call that passes a keyword the
    function does not declare (CPython 3.10 and later name the class). *)
Definition unexpected_keyword (class keyword : string) : exn :=
  class ++ ".__init__() got an unexpected keyword argument '" ++ keyword ++ "'".

(** [Class(k1=..., k2=...)] for a class whose [__init__] declares the
    parameters [parameters] besides [self]: the arguments are bound before
    the body runs, and a keyword that is not declared raises [TypeError]. *)
Definition bind_keywords (class : string) (parameters keywords : list string)
  : option exn :=
  match filter (fun k => negb (existsb (String.eqb k) parameters)) keywords with
  | [] => None
  | k :: _ => Some (unexpected_keyword class k)
  end.

(** [api_key or settings.ANTHROPIC_API_KEY] *)
Definition effective_api_key (E : env) (api_key : option string)
  : option string :=
  match api_key with
  | Some k => if String.eqb k "" then ANTHROPIC_API_KEY E else Some k
  | None => ANTHROPIC_API_KEY E
  end.

(** Lines 22-32 of [validator_agent.py], and the same lines 47-57 of
    [search_agent_mcp.py]: the key the agent keeps, or the [ValueError]. *)
Definition check_api_key (E : env) (api_key : option string) : string + exn :=
  match effective_api_key E api_key with
  | None =>
      inr "API key is required. Either provide it or set ANTHROPIC_API_KEY in .env"
  | Some k =>
      if String.eqb k "" || String.eqb (PyStr.strip k) "" then
        inr "API key is required. Either provide it or set ANTHROPIC_API_KEY in .env"
      else if negb (PyStr.startswith (PyStr.strip k) "sk-ant-") then
        inr "Invalid API key format. Anthropic API keys should start with 'sk-ant-'"
      else inl (PyStr.strip k)
  end.

(* ------------------------------------------------------------------ *)
(** ** [agents/search_agent.py] *)

Module SearchAgent.

(** Line 16, [def __init__(self)]. *)
Definition init_parameters : list string := [].

(** [SearchAgent(...)] with the given keywords; lines 18-20 build the
    client from the key of the settings and take the search client of
    [mcp_client.py]. *)
Definition init (E : env) (keywords : list string) : option exn :=
  match bind_keywords "SearchAgent" init_parameters keywords with
  | Some e => Some e
  | None => anthropic_client E (ANTHROPIC_API_KEY E)
  end.

(** Lines 107-111. *)
Definition fallback_queries (E : env) (company_profile : pydict) : list json :=
  [ JStr ("logistics regulations "
          ++ str E (Dict.get "company_name" JNull company_profile)
          ++ " 2024");
    JStr "EU transport law changes 2024";
    JStr "cross-border cargo requirements Europe" ].

(** Lines 96-113: the queries read from the model's text. *)
Definition decode_queries (E : env) (company_profile : pydict) (text : string)
  : list json + exn :=
  let content := PyStr.strip text in
  match json_loads E content with
  | Loaded (JArr queries) => inl (firstn 10 queries)
  | Loaded _ => inl (fallback_queries E company_profile)
  | JSONDecodeError _ => inl (fallback_queries E company_profile)
  | LoadsRaised e => inr e
  end.

Definition _generate_search_queries (E : env) (company_profile : pydict)
  : M (list json) :=
  text <- llm_call (search_llm E) is_search_llm QueryLlm ;;
  lift (decode_queries E company_profile text).

(** Lines 119-128: one search per query, a failing one skipped. *)
Fixpoint run_queries (E : env) (queries : list json) (all_results : list hit)
  : M (list hit) :=
  match queries with
  | [] => ret all_results
  | query :: rest =>
      s <- get_store ;;
      tell (WebSearch query) ;;;
      match search_web E (count is_web s) with
      | WebHits results => run_queries E rest (all_results ++ results)
      | WebRaises _ => run_queries E rest all_results
      end
  end.

(** Lines 131-136; [result["url"]] raises [KeyError] on a hit without it. *)
Fixpoint deduplicate (seen_urls : list string) (all_results : list hit)
  : list hit + exn :=
  match all_results with
  | [] => inl []
  | result :: rest =>
      match hit_get "url" result with
      | None => inr "'url'"
      | Some u =>
          if existsb (String.eqb u) seen_urls then deduplicate seen_urls rest
          else
            match deduplicate (u :: seen_urls) rest with
            | inl unique_results => inl (result :: unique_results)
            | inr e => inr e
            end
      end
  end.

Definition _execute_searches (E : env) (queries : list json) : M (list hit) :=
  all_results <- run_queries E queries [] ;;
  match deduplicate [] all_results with
  | inl unique_results => ret unique_results
  | inr e => raise e
  end.

(** [{r["url"]: r for r in search_results}]: a later hit replaces an
    earlier one with the same URL. *)
Fixpoint url_to_result (search_results : list hit)
  : (list (string * hit)) + exn :=
  match search_results with
  | [] => inl []
  | r :: rest =>
      match hit_get "url" r, url_to_result rest with
      | None, _ => inr "'url'"
      | _, inr e => inr e
      | Some u, inl table =>
          inl (if existsb (fun kv => String.eqb u (fst kv)) table
               then table else (u, r) :: table)
      end
  end.

Fixpoint table_get (u : string) (table : list (string * hit)) : option hit :=
  match table with
  | [] => None
  | (k, r) :: table' => if String.eqb u k then Some r else table_get u table'
  end.

(** [for url in ranked_urls]: what iterating a decoded value yields, [None]
    when it is not iterable. *)
Definition iterate (v : json) : option (list json) :=
  match v with
  | JArr items => Some items
  | JObj fields => Some (map JStr (Dict.keys fields))
  | JStr s => Some (map (fun c => JStr (String c "")) (list_ascii_of_string s))
  | _ => None
  end.

(** Lines 174-177; [url in url_to_result] raises [TypeError] on a list or a
    dictionary, which are not hashable. *)
Fixpoint reorder (table : list (string * hit)) (ranked_urls : list json)
  : list hit + exn :=
  match ranked_urls with
  | [] => inl []
  | url :: rest =>
      match url with
      | JArr _ => inr "unhashable type: 'list'"
      | JObj _ => inr "unhashable type: 'dict'"
      | JStr u =>
          match reorder table rest with
          | inl filtered =>
              inl (match table_get u table with
                   | Some r => r :: filtered
                   | None => filtered
                   end)
          | inr e => inr e
          end
      | _ => reorder table rest
      end
  end.

(** Lines 169-179: the selection read from the model's text. *)
Definition decode_ranking (E : env) (search_results : list hit) (text : string)
  : list hit + exn :=
  let content := PyStr.strip text in
  match json_loads E content with
  | JSONDecodeError msg => inr msg
  | LoadsRaised e => inr e
  | Loaded ranked_urls =>
      match url_to_result search_results with
      | inr e => inr e
      | inl table =>
          match iterate ranked_urls with
          | None => inr (not_iterable ranked_urls)
          | Some urls =>
              match reorder table urls with
              | inr e => inr e
              | inl filtered => inl (firstn 15 filtered)
              end
          end
      end
  end.

Definition _filter_results (E : env) (search_results : list hit)
  (company_profile : pydict) : M (list hit) :=
  if (List.length search_results <=? 15)%nat then ret search_results
  else
    try_except
      (text <- llm_call (search_llm E) is_search_llm RankLlm ;;
       lift (decode_ranking E search_results text))
      (fun _ => ret (firstn 15 search_results)).

Definition execute (E : env) (company_profile : pydict) : M search_result :=
  try_except
    (queries <- _generate_search_queries E company_profile ;;
     search_results <- _execute_searches E queries ;;
     filtered_results <- _filter_results E search_results company_profile ;;
     ret {| sr_success := true;
            sr_error := None;
            sr_search_results := filtered_results;
            sr_queries_used := Some queries |})
    (fun e =>
       ret {| sr_success := false;
              sr_error := Some e;
              sr_search_results := [];
              sr_queries_used := None |}).

End SearchAgent.

(* ------------------------------------------------------------------ *)
(** ** [agents/report_agent.py] *)

Module ReportGeneratorAgent.

(** Line 15, [def __init__(self)]. *)
Definition init_parameters : list string := [].

(** [ReportGeneratorAgent(...)] with the given keywords; lines 17-18 build
    the client from the key of the settings. *)
Definition init (E : env) (keywords : list string) : option exn :=
  match bind_keywords "ReportGeneratorAgent" init_parameters keywords with
  | Some e => Some e
  | None => anthropic_client E (ANTHROPIC_API_KEY E)
  end.

(** Lines 228-237: the minimal valid report. *)
Definition minimal_report : json :=
  JObj [ ("summary",
          JObj [ ("total_changes", JInt 0);
                 ("overall_risk", JStr "medium");
                 ("key_takeaways", JArr [JStr "Report generation in progress"]) ]);
         ("legal_changes", JArr []);
         ("route_impacts", JArr []);
         ("recommended_actions", JArr []) ].

(** The feedback the prompt carries: lines 69-77 add the section only when
    [previous_feedback] is truthy. *)
Definition feedback_section (previous_feedback : json) : json :=
  if truthy previous_feedback then previous_feedback else JNull.

(** Lines 209-237: the report read from the model's text. *)
Definition decode_report (E : env) (text : string) : json + exn :=
  let content := PyStr.strip text in
  match strip_code_fence content with
  | inr e => inr e
  | inl content =>
      match json_loads E content with
      | Loaded report => inl report
      | JSONDecodeError _ => inl minimal_report
      | LoadsRaised e => inr e
      end
  end.

Definition _generate_report (E : env) (company_profile : pydict)
  (search_results : list hit) (previous_feedback : json) : M json :=
  text <- llm_call (report_llm E) is_generate
            (GenerateLlm (feedback_section previous_feedback)) ;;
  lift (decode_report E text).

Definition execute (E : env) (company_profile : pydict)
  (search_results : list hit) (previous_feedback : json) : M report_result :=
  try_except
    (report_content <-
       _generate_report E company_profile search_results previous_feedback ;;
     ret {| rr_success := true; rr_error := None; rr_report := report_content |})
    (fun e =>
       ret {| rr_success := false; rr_error := Some e; rr_report := JNull |}).

(** What [execute] returns on a reply of the model. *)
Definition result_of (E : env) (reply : llm_reply) : report_result :=
  match reply with
  | LlmRaises e =>
      {| rr_success := false; rr_error := Some e; rr_report := JNull |}
  | LlmText text =>
      match decode_report E text with
      | inl report =>
          {| rr_success := true; rr_error := None; rr_report := report |}
      | inr e =>
          {| rr_success := false; rr_error := Some e; rr_report := JNull |}
      end
  end.

End ReportGeneratorAgent.

(* ------------------------------------------------------------------ *)
(** ** [agents/validator_agent.py] *)

Module ValidatorAgent.

(** Line 15, [def __init__(self, api_key: Optional[str] = None)]. *)
Definition init_parameters : list string := ["api_key"].

(** [ValidatorAgent(api_key=api_key)], lines 22-33: the key is checked,
    then the client is built from it. *)
Definition init (E : env) (keywords : list string) (api_key : option string)
  : option exn :=
  match bind_keywords "ValidatorAgent" init_parameters keywords with
  | Some e => Some e
  | None =>
      match check_api_key E api_key with
      | inr e => Some e
      | inl key => anthropic_client E (Some key)
      end
  end.

(** Lines 162-167: the verdict when the judge's text does not parse. *)
Definition unparsed_verdict : pydict :=
  [ ("is_approved", JBool true);
    ("quality_score", JInt 80);
    ("feedback", JStr "Report meets quality standards");
    ("issues", JArr []) ].

(** Lines 75-80: the verdict when validation raised. *)
Definition error_verdict : pydict :=
  [ ("success", JBool true);
    ("is_approved", JBool true);
    ("feedback", JStr "Validation skipped due to error");
    ("quality_score", JInt 0) ].

(** Lines 139-167: the verdict read from the judge's text. *)
Definition decode_verdict (E : env) (text : string) : pydict + exn :=
  let content := PyStr.strip text in
  match strip_code_fence content with
  | inr e => inr e
  | inl content =>
      match json_loads E content with
      | Loaded (JObj validation) =>
          inl (Dict.setdefault "issues" (JArr [])
                 (Dict.setdefault "feedback" (JStr "Validation incomplete")
                    (Dict.setdefault "quality_score" (JInt 0)
                       (Dict.setdefault "is_approved" (JBool false)
                          validation))))
      | Loaded v => inr (no_attribute v "setdefault")
      | JSONDecodeError _ => inl unparsed_verdict
      | LoadsRaised e => inr e
      end
  end.

Definition _validate_report (E : env) (report : json)
  (company_profile : pydict) (search_results : list hit) : M pydict :=
  text <- llm_call (validator_llm E) is_validate (ValidateLlm report) ;;
  lift (decode_verdict E text).

(** [v[:100]] is defined on strings and lists only. *)
Definition sliceable (v : json) : bool :=
  match v with
  | JStr _ | JArr _ => true
  | _ => false
  end.

(** Lines 61-70: the verdict is reported on the console, line 65 printing
    [validation_result['feedback'][:100]], and returned under
    ["success": True]. *)
Definition report_verdict (validation_result : pydict) : pydict + exn :=
  match Dict.lookup "is_approved" validation_result with
  | None => inr "'is_approved'"
  | Some is_approved =>
      let result := Dict.update [("success", JBool true)] validation_result in
      if truthy is_approved then inl result
      else
        match Dict.lookup "feedback" validation_result with
        | None => inr "'feedback'"
        | Some feedback =>
            if sliceable feedback then inl result
            else inr (not_subscriptable feedback)
        end
  end.

Definition execute (E : env) (report : json) (company_profile : pydict)
  (search_results : list hit) : M pydict :=
  try_except
    (validation_result <-
       _validate_report E report company_profile search_results ;;
     lift (report_verdict validation_result))
    (fun _ => ret error_verdict).

(** What [execute] returns on a reply of the judge. *)
Definition verdict_of (E : env) (reply : llm_reply) : pydict :=
  match reply with
  | LlmRaises _ => error_verdict
  | LlmText text =>
      match decode_verdict E text with
      | inr _ => error_verdict
      | inl validation_result =>
          match report_verdict validation_result with
          | inr _ => error_verdict
          | inl result => result
          end
      end
  end.

(** [validation_result.get("is_approved", False)] as the Controller tests it. *)
Definition approved (validation_result : pydict) : bool :=
  truthy (Dict.get "is_approved" (JBool false) validation_result).

End ValidatorAgent.

(* ------------------------------------------------------------------ *)
(** ** [agents/search_agent_mcp.py] *)

Module MCPSearchAgent.

(** Line 37, [def __init__(self, api_key: Optional[str] = None)]. *)
Definition init_parameters : list string := ["api_key"].

(** [MCPSearchAgent(api_key=api_key)], lines 43-58: the SDK must have been
    imported and the key is checked; no client is built here. *)
Definition init (E : env) (keywords : list string) (api_key : option string)
  : option exn :=
  match bind_keywords "MCPSearchAgent" init_parameters keywords with
  | Some e => Some e
  | None =>
      if negb (CLAUDE_SDK_AVAILABLE E) then
        Some "claude-agent-sdk is required. Install with: pip install claude-agent-sdk"
      else
        match check_api_key E api_key with
        | inr e => Some e
        | inl _ => None
        end
  end.

End MCPSearchAgent.

(* ------------------------------------------------------------------ *)
(** ** [services/report_service.py] *)

Module ReportService.

Definition set_iteration_count (n : Z) : M unit :=
  fun s => (Returned tt,
            {| log := log s;
               iteration_count := n;
               validation_history := validation_history s |}).

(** [validation_history.append(entry)] *)
Definition append_history (entry : json) : M unit :=
  fun s => (Returned tt,
            {| log := log s;
               iteration_count := iteration_count s;
               validation_history := validation_history s ++ [entry] |}).

(** [open(report_path, "w")] and [json.dump]. *)
Definition write_report (E : env) (report_path : string) (record : json)
  : M unit :=
  s <- get_store ;;
  match file_write E (count is_write s) with
  | None => tell (WriteReport report_path record)
  | Some e => tell (WriteFailed report_path) ;;; raise e
  end.

Definition report_path (E : env) (report_id : string) : string :=
  path_join (REPORTS_DIR E) (report_id ++ ".json").

Definition pdf_path (E : env) (report_id : string) : string :=
  path_join (path_join (REPORTS_DIR E) "pdfs") (report_id ++ ".pdf").

(** [search_result.get('error')] inside an f-string. *)
Definition format_error (error : option string) : string :=
  match error with
  | Some e => e
  | None => "None"
  end.

(** Lines 117-124. *)
Definition validation_entry (iteration : Z) (validation_result : pydict)
  (validated_at : string) : json :=
  JObj [ ("iteration", JInt iteration);
         ("is_approved", Dict.get "is_approved" (JBool false) validation_result);
         ("quality_score", Dict.get "quality_score" (JInt 0) validation_result);
         ("feedback", Dict.get "feedback" (JStr "") validation_result);
         ("issues", Dict.get "issues" (JArr []) validation_result);
         ("validated_at", JStr validated_at) ].

(** Lines 92-139.  [fuel] bounds the number of rounds; the loop asks for it
    only when its condition holds. *)
Fixpoint validation_loop (E : env) (fuel : nat) (company_profile : pydict)
  (search_results : list hit) (report_content previous_feedback : json)
  : M json :=
  s <- get_store ;;
  if (iteration_count s <? MAX_VALIDATION_ITERATIONS E)%Z then
    match fuel with
    | O => fun s => (OutOfFuel, s)
    | S fuel' =>
        set_iteration_count (iteration_count s + 1) ;;;
        report_result <-
          ReportGeneratorAgent.execute E company_profile search_results
            previous_feedback ;;
        if negb (rr_success report_result) then
          raise ("Report generation failed: "
                 ++ format_error (rr_error report_result))
        else
          let report_content := rr_report report_result in
          validation_result <-
            ValidatorAgent.execute E report_content company_profile
              search_results ;;
          validated_at <- now E ;;
          append_history
            (validation_entry (iteration_count s + 1) validation_result
               validated_at) ;;;
          if ValidatorAgent.approved validation_result
          then ret report_content
          else
            let previous_feedback :=
              Dict.get "feedback" (JStr "") validation_result in
            if (iteration_count s + 1 >=? MAX_VALIDATION_ITERATIONS E)%Z
            then ret report_content
            else
              validation_loop E fuel' company_profile search_results
                report_content previous_feedback
    end
  else ret report_content.

(** Lines 142-154. *)
Definition final_report (report_id : string) (company_profile : pydict)
  (report_content : json) (generated_at : string)
  (validation_history : list json) (iteration_count : Z)
  (search_results : list hit) (search_result : search_result) : pydict :=
  [ ("id", JStr report_id);
    ("company_name", Dict.get "company_name" (JStr "Unknown") company_profile);
    ("status", JStr "approved");
    ("content", report_content);
    ("generated_at", JStr generated_at);
    ("validation_history", JArr validation_history);
    ("iteration_count", JInt iteration_count);
    ("search_metadata",
     JObj [ ("total_sources", JInt (Z.of_nat (List.length search_results)));
            ("queries_used",
             JArr (match sr_queries_used search_result with
                   | Some queries => queries
                   | None => []
                   end)) ]) ].

(** Lines 249-257. *)
Definition failed_report (report_id : string) (company_profile : pydict)
  (error : string) (generated_at : string) (iteration_count : Z)
  (validation_history : list json) : pydict :=
  [ ("id", JStr report_id);
    ("company_name", Dict.get "company_name" (JStr "Unknown") company_profile);
    ("status", JStr "failed");
    ("error", JStr error);
    ("generated_at", JStr generated_at);
    ("iteration_count", JInt iteration_count);
    ("validation_history", JArr validation_history) ].

(** Line 173: [report_content.get("summary", {}).get("overall_risk", "medium")];
    [.get] exists on dictionaries only. *)
Definition overall_risk (report_content : json) : json + exn :=
  match report_content with
  | JObj content =>
      match Dict.get "summary" (JObj []) content with
      | JObj summary => inl (Dict.get "overall_risk" (JStr "medium") summary)
      | summary => inr (no_attribute summary "get")
      end
  | _ => inr (no_attribute report_content "get")
  end.

(** Lines 180-227: the PDF and its metadata; a failure only marks the
    report. *)
Definition pdf_step (E : env) (report_id : string) (final_report : pydict)
  : M pydict :=
  try_except
    (may_raise (generate_pdf E) ;;;
     tell (PdfGenerated (pdf_path E report_id)) ;;;
     may_raise (add_pdf E) ;;;
     tell (AddPdf report_id) ;;;
     ret (Dict.set "has_pdf" (JBool true)
            (Dict.set "pdf_path" (JStr (pdf_path E report_id)) final_report)))
    (fun _ =>
       ret (Dict.set "has_pdf" (JBool false)
              (Dict.set "pdf_path" JNull final_report))).

(** Lines 156-240: save, index, render, return. *)
Definition commit (E : env) (report_id : string) (report_content : json)
  (final_report : pydict) : M pydict :=
  write_report E (report_path E report_id) (JObj final_report) ;;;
  match overall_risk report_content with
  | inr e => raise e
  | inl risk =>
      may_raise (add_report E) ;;;
      tell (AddReport report_id report_content risk) ;;;
      final_report <- pdf_step E report_id final_report ;;
      ret [ ("success", JBool true); ("report", JObj final_report) ]
  end.

Definition use_mcp (E : env) : bool :=
  USE_MCP_AGENTS E && MCP_AGENT_AVAILABLE E && is_mcp_configured E.

(** [search_agent.execute(company_profile)] for the agent lines 63-68 chose. *)
Definition search_phase (E : env) (company_profile : pydict) : M search_result :=
  if use_mcp E then
    tell McpSearch ;;;
    match mcp_execute E with
    | inl r => ret r
    | inr e => raise e
    end
  else SearchAgent.execute E company_profile.

(** Lines 63-71: the three agents are constructed, each with the keyword
    [api_key]. *)
Definition create_agents (E : env) : option exn :=
  match (if use_mcp E then MCPSearchAgent.init E ["api_key"] (api_key E)
         else SearchAgent.init E ["api_key"]) with
  | Some e => Some e
  | None =>
      match ReportGeneratorAgent.init E ["api_key"] with
      | Some e => Some e
      | None => ValidatorAgent.init E ["api_key"] (api_key E)
      end
  end.

(** Lines 73-240: the search, the loop and the commit. *)
Definition stages (E : env) (report_id : string) (company_profile : pydict)
  : M pydict :=
  search_result <- search_phase E company_profile ;;
  if negb (sr_success search_result) then
    raise ("Search failed: " ++ format_error (sr_error search_result))
  else
    let search_results := sr_search_results search_result in
    may_raise (add_search_results E) ;;;
    tell (AddSearchResults report_id) ;;;
    report_content <-
      validation_loop E (Z.to_nat (MAX_VALIDATION_ITERATIONS E))
        company_profile search_results JNull JNull ;;
    s <- get_store ;;
    generated_at <- now E ;;
    commit E report_id report_content
      (final_report report_id company_profile report_content generated_at
         (validation_history s) (iteration_count s) search_results
         search_result).

(** Lines 61-240, the body of the [try]. *)
Definition pipeline (E : env) (report_id : string) (company_profile : pydict)
  : M pydict :=
  may_raise (create_agents E) ;;;
  stages E report_id company_profile.

(** Lines 242-267, the handler. *)
Definition on_failure (E : env) (report_id : string) (company_profile : pydict)
  (e : exn) : M pydict :=
  s <- get_store ;;
  generated_at <- now E ;;
  let failed :=
    failed_report report_id company_profile e generated_at
      (iteration_count s) (validation_history s) in
  write_report E (report_path E report_id) (JObj failed) ;;;
  ret [ ("success", JBool false); ("error", JStr e); ("report", JObj failed) ].

Definition generate_report (E : env) (company_profile : pydict) : M pydict :=
  let report_id := uuid4 E in
  try_except (pipeline E report_id company_profile)
    (on_failure E report_id company_profile).

(** One call of [generate_report] on a fresh log. *)
Definition run (E : env) (company_profile : pydict) : outcome pydict * store :=
  generate_report E company_profile initial_store.

End ReportService.

(* ------------------------------------------------------------------ *)
(** ** A decoder and a formatter to run the model on

    [json.loads] and [str] are Python's; the properties below hold for
    whatever they compute.  To evaluate the model on concrete texts, this
    module decodes JSON as [json.loads] does: the literals [NaN], [Infinity]
    and [-Infinity] are accepted, a number with a fraction or an exponent is
    the nearest binary64 float, a repeated key keeps its place and takes the
    last value.  The strings of this model hold characters below 256: a
    text whose [\u] escape names a character above 255 has no value here
    and is rejected.  The limits of the interpreter on the depth of nesting
    and on the number of digits of an integer are not modelled.  The
    formatter writes [None], booleans, integers and strings as [str]
    does. *)

Module Fragment.

Definition quote : ascii := ascii_of_nat 34.
Definition backslash : ascii := ascii_of_nat 92.

(** A JSON string literal for [s] (no character of [s] needs escaping). *)
Definition lit (s : string) : string :=
  String quote (s ++ String quote "").

Definition is_ws (c : ascii) : bool :=
  let n := nat_of_ascii c in
  ((n =? 32) || (n =? 9) || (n =? 10) || (n =? 13))%nat.

Fixpoint skip_ws (s : string) : string :=
  match s with
  | String c s' => if is_ws c then skip_ws s' else s
  | EmptyString => EmptyString
  end.

Definition digit (c : ascii) : option Z :=
  let n := nat_of_ascii c in
  if ((48 <=? n) && (n <=? 57))%nat then Some (Z.of_nat (n - 48)) else None.

Fixpoint digits (acc : Z) (s : string) : Z * string :=
  match s with
  | String c s' =>
      match digit c with
      | Some d => digits (10 * acc + d) s'
      | None => (acc, s)
      end
  | EmptyString => (acc, s)
  end.

(** [0] or a digit sequence that does not start with [0]. *)
Definition natural (s : string) : option (Z * string) :=
  match s with
  | String c s' =>
      match digit c with
      | Some 0%Z => Some (0%Z, s')
      | Some d => Some (digits d s')
      | None => None
      end
  | EmptyString => None
  end.

(** The digits at the head of [s], added to [acc], with their number. *)
Fixpoint counted_digits (acc : Z) (n : Z) (s : string) : Z * Z * string :=
  match s with
  | String c s' =>
      match digit c with
      | Some d => counted_digits (10 * acc + d) (n + 1) s'
      | None => (acc, n, s)
      end
  | EmptyString => (acc, n, s)
  end.

(** [float(text)] for the decimal [m * 10 ^ e10]: the nearest binary64
    number, ties to even. *)
Definition binary64 (negative : bool) (m e10 : Z) : spec_float :=
  match m with
  | Zpos p =>
      if (0 <=? e10)%Z then
        binary_normalize 53 1024
          (if negative then - (m * 10 ^ e10) else m * 10 ^ e10)%Z 0 false
      else
        SFdiv 53 1024 (S754_finite negative p 0)
          (S754_finite false (Z.to_pos (10 ^ (- e10))) 0)
  | _ => S754_zero negative
  end.

(** A fraction [.ddd] at the head of [s], if there is one: the mantissa
    with its digits, and their number. *)
Definition fraction (int_part : Z) (s : string) : option (Z * Z * string) :=
  match s with
  | String c s' =>
      if Ascii.eqb c "." then
        match counted_digits int_part 0 s' with
        | (_, 0%Z, _) => None
        | r => Some r
        end
      else None
  | EmptyString => None
  end.

(** An exponent [e+dd] at the head of [s], if there is one. *)
Definition exponent (s : string) : option (Z * string) :=
  match s with
  | String c s' =>
      if Ascii.eqb c "e" || Ascii.eqb c "E" then
        let '(negative, s1) :=
          match s' with
          | String sign s'' =>
              if Ascii.eqb sign "-" then (true, s'')
              else if Ascii.eqb sign "+" then (false, s'')
              else (false, s')
          | EmptyString => (false, s')
          end in
        match counted_digits 0 0 s1 with
        | (_, 0%Z, _) => None
        | (e, _, rest) => Some (if negative then (- e)%Z else e, rest)
        end
      else None
  | EmptyString => None
  end.

(** A number without its sign: an [int] when it has neither a fraction nor
    an exponent, a [float] otherwise. *)
Definition number (negative : bool) (s : string) : option (json * string) :=
  match natural s with
  | None => None
  | Some (int_part, s1) =>
      let '(m, scale, s2, has_fraction) :=
        match fraction int_part s1 with
        | Some (m, scale, s2) => (m, scale, s2, true)
        | None => (int_part, 0%Z, s1, false)
        end in
      let '(e, s3, has_exponent) :=
        match exponent s2 with
        | Some (e, s3) => (e, s3, true)
        | None => (0%Z, s2, false)
        end in
      if has_fraction || has_exponent
      then Some (JFloat (binary64 negative m (e - scale)), s3)
      else Some (JInt (if negative then (- int_part)%Z else int_part), s3)
  end.

Definition hex_digit (c : ascii) : option nat :=
  let n := nat_of_ascii c in
  if ((48 <=? n) && (n <=? 57))%nat then Some (n - 48)%nat
  else if ((65 <=? n) && (n <=? 70))%nat then Some (n - 55)%nat
  else if ((97 <=? n) && (n <=? 102))%nat then Some (n - 87)%nat
  else None.

Definition unescape (c : ascii) : option ascii :=
  let n := nat_of_ascii c in
  if (n =? 34)%nat then Some quote
  else if (n =? 92)%nat then Some backslash
  else if (n =? 47)%nat then Some (ascii_of_nat 47)
  else if (n =? 110)%nat then Some (ascii_of_nat 10)
  else if (n =? 116)%nat then Some (ascii_of_nat 9)
  else if (n =? 114)%nat then Some (ascii_of_nat 13)
  else if (n =? 98)%nat then Some (ascii_of_nat 8)
  else if (n =? 102)%nat then Some (ascii_of_nat 12)
  else None.

(** The rest of a string literal, after its opening quote. *)
Fixpoint string_body (acc : list ascii) (s : string) : option (string * string) :=
  match s with
  | EmptyString => None
  | String c rest =>
      if Ascii.eqb c quote then Some (PyStr.rev_string acc "", rest)
      else if Ascii.eqb c backslash then
        match rest with
        | String e rest' =>
            match unescape e with
            | Some ch => string_body (ch :: acc) rest'
            | None =>
                if Ascii.eqb e "u" then
                  match rest' with
                  | String a (String b (String c (String d rest''))) =>
                      match hex_digit a, hex_digit b,
                            hex_digit c, hex_digit d with
                      | Some 0%nat, Some 0%nat, Some h, Some l =>
                          string_body (ascii_of_nat (16 * h + l) :: acc) rest''
                      | _, _, _, _ => None
                      end
                  | _ => None
                  end
                else None
            end
        | EmptyString => None
        end
      else if (nat_of_ascii c <? 32)%nat then None
      else string_body (c :: acc) rest
  end.

Definition keyword (word : string) (v : json) (s : string)
  : option (json * string) :=
  if PyStr.startswith s word
  then Some (v, PyStr.slice_from (String.length word) s)
  else None.

Fixpoint value (fuel : nat) (s : string) {struct fuel} : option (json * string) :=
  match fuel with
  | O => None
  | S fuel' =>
      let items :=
        fix items (n : nat) (acc : list json) (s : string) {struct n}
          : option (json * string) :=
          match n with
          | O => None
          | S n' =>
              match value fuel' s with
              | None => None
              | Some (v, s1) =>
                  match skip_ws s1 with
                  | String c s2 =>
                      if Ascii.eqb c "," then items n' (v :: acc) s2
                      else if Ascii.eqb c "]"
                           then Some (JArr (rev (v :: acc)), s2)
                           else None
                  | EmptyString => None
                  end
              end
          end in
      let members :=
        fix members (n : nat) (acc : pydict) (s : string) {struct n}
          : option (json * string) :=
          match n with
          | O => None
          | S n' =>
              match skip_ws s with
              | String c s0 =>
                  if Ascii.eqb c quote then
                    match string_body [] s0 with
                    | None => None
                    | Some (k, s1) =>
                        match skip_ws s1 with
                        | String c1 s2 =>
                            if Ascii.eqb c1 ":" then
                              match value fuel' s2 with
                              | None => None
                              | Some (v, s3) =>
                                  match skip_ws s3 with
                                  | String c3 s4 =>
                                      if Ascii.eqb c3 ","
                                      then members n' (Dict.set k v acc) s4
                                      else if Ascii.eqb c3 "}"
                                           then Some (JObj (Dict.set k v acc), s4)
                                           else None
                                  | EmptyString => None
                                  end
                              end
                            else None
                        | EmptyString => None
                        end
                    end
                  else None
              | EmptyString => None
              end
          end in
      match skip_ws s with
      | EmptyString => None
      | String c rest =>
          if Ascii.eqb c "n" then keyword "null" JNull (String c rest)
          else if Ascii.eqb c "t" then keyword "true" (JBool true) (String c rest)
          else if Ascii.eqb c "f" then keyword "false" (JBool false) (String c rest)
          else if Ascii.eqb c quote then
            match string_body [] rest with
            | Some (str, rest') => Some (JStr str, rest')
            | None => None
            end
          else if Ascii.eqb c "-" then
            match number true rest with
            | Some r => Some r
            | None =>
                keyword "-Infinity" (JFloat (S754_infinity true)) (String c rest)
            end
          else if Ascii.eqb c "[" then
            match skip_ws rest with
            | String c' rest' =>
                if Ascii.eqb c' "]" then Some (JArr [], rest')
                else items fuel' [] rest
            | EmptyString => None
            end
          else if Ascii.eqb c "{" then
            match skip_ws rest with
            | String c' rest' =>
                if Ascii.eqb c' "}" then Some (JObj [], rest')
                else members fuel' [] rest
            | EmptyString => None
            end
          else if Ascii.eqb c "N" then
            keyword "NaN" (JFloat S754_nan) (String c rest)
          else if Ascii.eqb c "I" then
            keyword "Infinity" (JFloat (S754_infinity false)) (String c rest)
          else number false (String c rest)
      end
  end.

Definition loads (text : string) : loads_result :=
  match value (S (String.length text)) text with
  | Some (v, rest) =>
      match skip_ws rest with
      | EmptyString => Loaded v
      | _ => JSONDecodeError "Extra data"
      end
  | None => JSONDecodeError "Expecting value"
  end.

Fixpoint decimal (fuel : nat) (n : Z) (acc : string) : string :=
  match fuel with
  | O => acc
  | S fuel' =>
      let acc := String (ascii_of_nat (48 + Z.to_nat (n mod 10))) acc in
      if (n <? 10)%Z then acc else decimal fuel' (n / 10) acc
  end.

Definition format (v : json) : string :=
  match v with
  | JStr s => s
  | JNull => "None"
  | JBool true => "True"
  | JBool false => "False"
  | JInt z =>
      if (z <? 0)%Z then "-" ++ decimal (S (Z.to_nat (Z.log2 (- z)))) (- z) ""
      else decimal (S (Z.to_nat (Z.log2 z))) z ""
  | _ => "<object>"
  end.

End Fragment.

(* ------------------------------------------------------------------ *)
(** ** Concrete worlds *)

Module Example.

Import Fragment.

Definition company_profile : pydict :=
  [ ("company_name", JStr "Acme Freight");
    ("routes", JArr [JObj [("origin", JStr "DE"); ("destination", JStr "FR")]]);
    ("cargo_categories", JArr [JStr "standard"]) ].

(** A hit with the URL [u]. *)
Definition page (u : string) : hit :=
  [ ("url", u); ("title", "Title of " ++ u); ("snippet", "About " ++ u) ].

(** The judge's text with the given flag and score. *)
Definition verdict_text (is_approved : bool) (quality_score : string) : string :=
  "{" ++ lit "is_approved" ++ ": " ++ (if is_approved then "true" else "false")
  ++ ", " ++ lit "quality_score" ++ ": " ++ quality_score
  ++ ", " ++ lit "feedback" ++ ": " ++ lit "Add deadlines to the actions"
  ++ ", " ++ lit "issues" ++ ": []}".

(** A report text whose summary names the risk [risk]. *)
Definition report_text (risk : string) : string :=
  "{" ++ lit "summary" ++ ": {" ++ lit "total_changes" ++ ": 1, "
  ++ lit "overall_risk" ++ ": " ++ lit risk ++ ", "
  ++ lit "key_takeaways" ++ ": []}, "
  ++ lit "legal_changes" ++ ": [], " ++ lit "route_impacts" ++ ": [], "
  ++ lit "recommended_actions" ++ ": []}".

Definition queries_text : string :=
  "[" ++ lit "EU mobility package 2024" ++ ", " ++ lit "DE FR customs" ++ "]".

(** A world with the standard search agent, a call that passes a key of
    the expected form, and the replies as given. *)
Definition world (max_iterations : Z)
  (queries : nat -> llm_reply) (web : nat -> web_reply)
  (generator judge : nat -> llm_reply)
  (writes : nat -> option exn) (index pdf : option exn) : env :=
  {| MAX_VALIDATION_ITERATIONS := max_iterations;
     REPORTS_DIR := "./data/reports";
     USE_MCP_AGENTS := true;
     ANTHROPIC_API_KEY := None;
     MCP_AGENT_AVAILABLE := false;
     CLAUDE_SDK_AVAILABLE := false;
     is_mcp_configured := false;
     api_key := Some "sk-ant-api03-example";
     json_loads := loads;
     str := format;
     anthropic_client := fun _ => None;
     uuid4 := "3f2b8c1e-0000-4000-8000-000000000001";
     utcnow := fun n => "2024-03-01T12:00:0" ++ format (JInt (Z.of_nat n));
     mcp_execute := inr "claude-agent-sdk is required";
     search_llm := queries;
     search_web := web;
     report_llm := generator;
     validator_llm := judge;
     add_search_results := None;
     file_write := writes;
     add_report := index;
     generate_pdf := pdf;
     add_pdf := None |}.

Definition three_pages (n : nat) : web_reply :=
  WebHits [ page "https://example.com/a"; page "https://example.com/b";
            page "https://example.com/c" ].

(** The judge rejects on the first [rejections] attempts and approves then. *)
Definition judge_after (rejections : nat) (n : nat) : llm_reply :=
  LlmText (verdict_text (rejections <=? n)%nat
             (if (rejections <=? n)%nat then "85" else "30")).

Definition quiet (max_iterations : Z) (generator judge : nat -> llm_reply) : env :=
  world max_iterations (fun _ => LlmText queries_text) three_pages
    generator judge (fun _ => None) None None.

(** Judge verdicts [false, false, true], limit 3. *)
Definition third_time : env :=
  quiet 3 (fun _ => LlmText (report_text "low")) (judge_after 2).

(** The judge never approves, limit 3. *)
Definition never_approved : env :=
  quiet 3 (fun _ => LlmText (report_text "high")) (judge_after 10).

(** The judge never approves, limit 1. *)
Definition single_round : env :=
  quiet 1 (fun _ => LlmText (report_text "high")) (judge_after 10).

(** The judge's call raises. *)
Definition judge_down : env :=
  quiet 3 (fun _ => LlmText (report_text "low"))
    (fun _ => LlmRaises "Connection error.").


(** The judge's object carries a key of its own named [success]. *)
Definition judge_success_key : env :=
  quiet 3 (fun _ => LlmText (report_text "low"))
    (fun _ => LlmText ("{" ++ lit "success" ++ ": false, "
                       ++ lit "is_approved" ++ ": true}")).


(** The generator answers with an empty object. *)
Definition generator_empty_object : env :=
  quiet 3 (fun _ => LlmText "{}") (judge_after 0).

(** The generator answers in prose. *)
Definition generator_prose : env :=
  quiet 3 (fun _ => LlmText "I cannot produce the report.") (judge_after 0).



(** The query model's call raises. *)
Definition queries_down : env :=
  world 3 (fun _ => LlmRaises "Connection error.") three_pages
    (fun _ => LlmText (report_text "low")) (judge_after 0)
    (fun _ => None) None None.

(** The query model answers with an empty list. *)
Definition queries_empty : env :=
  world 3 (fun _ => LlmText "[]") three_pages
    (fun _ => LlmText (report_text "low")) (judge_after 0)
    (fun _ => None) None None.

(** The query model answers in prose. *)
Definition queries_prose : env :=
  world 3 (fun _ => LlmText "Here are some queries.") three_pages
    (fun _ => LlmText (report_text "low")) (judge_after 0)
    (fun _ => None) None None.

(** Five pages per search, with URLs that never repeat. *)
Definition five_new_pages (n : nat) : web_reply :=
  WebHits (map (fun i => page ("https://example.com/"
                               ++ format (JInt (Z.of_nat (5 * n + i)))))
             (seq 0 5)).

Definition four_queries_text : string :=
  "[" ++ lit "q1" ++ ", " ++ lit "q2" ++ ", " ++ lit "q3" ++ ", " ++ lit "q4"
  ++ "]".

(** Four queries bring twenty pages, and the ranking model names the same
    URL twice. *)
Definition ranking_repeats : env :=
  world 3
    (fun n =>
       match n with
       | O => LlmText four_queries_text
       | _ => LlmText ("[" ++ lit "https://example.com/0" ++ ", "
                       ++ lit "https://example.com/0" ++ "]")
       end)
    five_new_pages
    (fun _ => LlmText (report_text "low")) (judge_after 0)
    (fun _ => None) None None.

End Example.

(* ------------------------------------------------------------------ *)
(** ** Expected values *)

Module Expected.

(** The draft of the attempt numbered [k] from zero. *)
Definition draft (E : env) (k : nat) : json :=
  rr_report (ReportGeneratorAgent.result_of E (report_llm E k)).

(** The generator's [execute] reports success on attempt [k]. *)
Definition generator_succeeds (E : env) (k : nat) : Prop :=
  rr_success (ReportGeneratorAgent.result_of E (report_llm E k)) = true.

(** The verdict of the attempt numbered [k] from zero. *)
Definition verdict (E : env) (k : nat) : pydict :=
  ValidatorAgent.verdict_of E (validator_llm E k).

(** The history entry of attempt [k]. *)
Definition entry (E : env) (k : nat) : json :=
  ReportService.validation_entry (Z.of_nat (S k)) (verdict E k) (utcnow E k).

(** The history after [n] completed rounds. *)
Definition history (E : env) (n : nat) : list json :=
  map (entry E) (seq 0 n).

(** The store is at the boundary after [k] full rounds. *)
Definition at_round (E : env) (k : nat) (s : store) : Prop :=
  iteration_count s = Z.of_nat k /\
  count is_generate s = k /\
  count is_validate s = k /\
  count is_utcnow s = k /\
  validation_history s = history E k.

(** The dictionary [generate_report] returns carries [success] and the
    report [r]. *)
Definition returns_report (d : pydict) (success : bool) (r : pydict) : Prop :=
  Dict.lookup "success" d = Some (JBool success) /\
  Dict.lookup "report" d = Some (JObj r).

(** The store after a full round that started in [s]: the generator was
    called with [previous_feedback], its draft [report] judged [vr]. *)
Definition after_round (E : env) (previous_feedback report : json)
  (vr : pydict) (s : store) : store :=
  {| log := Utcnow :: ValidateLlm report
            :: GenerateLlm (ReportGeneratorAgent.feedback_section previous_feedback)
            :: log s;
     iteration_count := iteration_count s + 1;
     validation_history :=
       validation_history s
       ++ [ReportService.validation_entry (iteration_count s + 1) vr
             (utcnow E (count is_utcnow s))] |}.

(** The store after a round whose generation failed. *)
Definition after_failed_generation (previous_feedback : json) (s : store)
  : store :=
  {| log := GenerateLlm (ReportGeneratorAgent.feedback_section previous_feedback)
            :: log s;
     iteration_count := iteration_count s + 1;
     validation_history := validation_history s |}.

(** The events of the search phase. *)
Definition search_event (ev : event) : bool :=
  match ev with
  | QueryLlm | RankLlm | WebSearch _ | McpSearch => true
  | _ => false
  end.

(** [s'] is [s] with more events, all of the kind [p], in front; the
    variables of [generate_report] are as in [s]. *)
Definition extends_by (p : event -> bool) (s s' : store) : Prop :=
  exists evs,
    forallb p evs = true /\
    s' = {| log := (evs ++ log s)%list;
            iteration_count := iteration_count s;
            validation_history := validation_history s |}.

(** [m] returns or raises, and only adds events of the kind [p]. *)
Definition frames {A : Type} (p : event -> bool) (m : M A) : Prop :=
  forall s out s', m s = (out, s') -> extends_by p s s' /\ out <> OutOfFuel.

(** What the PDF step adds to the log and to the report. *)
Definition pdf_events (E : env) (report_id : string) : list event :=
  match generate_pdf E, add_pdf E with
  | None, None =>
      [AddPdf report_id; PdfGenerated (ReportService.pdf_path E report_id)]
  | None, Some _ => [PdfGenerated (ReportService.pdf_path E report_id)]
  | Some _, _ => []
  end.

Definition with_pdf (E : env) (report_id : string) (final_report : pydict)
  : pydict :=
  match generate_pdf E, add_pdf E with
  | None, None =>
      Dict.set "has_pdf" (JBool true)
        (Dict.set "pdf_path" (JStr (ReportService.pdf_path E report_id))
           final_report)
  | _, _ =>
      Dict.set "has_pdf" (JBool false) (Dict.set "pdf_path" JNull final_report)
  end.

(** The report built after [n] rounds, before the PDF step. *)
Definition accepted_report (E : env) (company_profile : pydict)
  (sr : search_result) (n : nat) : pydict :=
  ReportService.final_report (uuid4 E) company_profile (draft E (n - 1))
    (utcnow E n) (history E n) (Z.of_nat n) (sr_search_results sr) sr.



(** The four risk levels of the report schema. *)
Definition risk_levels : list string := ["critical"; "high"; "medium"; "low"].

Definition is_level (v : json) : bool :=
  match v with
  | JStr s => existsb (String.eqb s) risk_levels
  | _ => false
  end.

(** Every item of the list [v] is an object whose [key] is a risk level. *)
Definition levels_in (key : string) (v : json) : bool :=
  match v with
  | JArr items =>
      forallb (fun item =>
                 match item with
                 | JObj fields =>
                     match Dict.lookup key fields with
                     | Some level => is_level level
                     | None => false
                     end
                 | _ => false
                 end) items
  | _ => false
  end.

(** The minimum schema of a report: the four sections are there, and every
    risk level and priority is one of the four levels. *)
Definition minimum_schema (report : json) : bool :=
  match report with
  | JObj fields =>
      match Dict.lookup "summary" fields, Dict.lookup "legal_changes" fields,
            Dict.lookup "route_impacts" fields,
            Dict.lookup "recommended_actions" fields with
      | Some (JObj summary), Some legal_changes, Some route_impacts,
        Some recommended_actions =>
          match Dict.lookup "overall_risk" summary with
          | Some level => is_level level
          | None => false
          end
          && levels_in "risk_level" legal_changes
          && levels_in "risk_level" route_impacts
          && levels_in "priority" recommended_actions
      | _, _, _, _ => false
      end
  | _ => false
  end.

(** The URLs of a list of hits. *)
Definition urls (hits : list hit) : list (option string) :=
  map (hit_get "url") hits.

(** The text of the query model is not JSON, or is JSON but not a list. *)
Definition unusable_queries (E : env) (text : string) : Prop :=
  match json_loads E (PyStr.strip text) with
  | JSONDecodeError _ => True
  | Loaded (JArr _) => False
  | Loaded _ => True
  | LoadsRaised _ => False
  end.

(** The events that are neither a call of the Generator nor of the
    Validator. *)
Definition bookkeeping (ev : event) : bool :=
  negb (is_generate ev || is_validate ev).

(** The variables of [generate_report] between two rounds: one history
    entry per iteration and per call of the Validator, within the limit. *)
Definition boundary (E : env) (s : store) : Prop :=
  (0 <= iteration_count s <= MAX_VALIDATION_ITERATIONS E)%Z /\
  Z.of_nat (List.length (validation_history s)) = iteration_count s /\
  List.length (validation_history s) = count is_validate s.

(** The variables of [generate_report] at any point. *)
Definition bounded (E : env) (s : store) : Prop :=
  (0 <= iteration_count s <= MAX_VALIDATION_ITERATIONS E)%Z /\
  (Z.of_nat (List.length (validation_history s)) <= iteration_count s)%Z /\
  List.length (validation_history s) = count is_validate s.

(** The log of [s'] is the log of [s] with more events in front. *)
Definition grows (s s' : store) : Prop :=
  exists evs, log s' = (evs ++ log s)%list.

(** The record most recently written to disk. *)
Fixpoint persisted (l : list event) : option json :=
  match l with
  | [] => None
  | WriteReport _ record :: _ => Some record
  | _ :: l' => persisted l'
  end.


End Expected.

(* ------------------------------------------------------------------ *)
(** ** Reading the Gatherer's run *)

Module Searches.

(** What one search adds to [all_results]: nothing when it raised. *)
Definition hits_of (r : web_reply) : list hit :=
  match r with
  | WebHits hits => hits
  | WebRaises _ => []
  end.

(** The hits of [n] searches in a row, the first one answered by the reply
    numbered [first]. *)
Fixpoint gathered (E : env) (first n : nat) : list hit :=
  match n with
  | O => []
  | S n' => (hits_of (search_web E first) ++ gathered E (S first) n')%list
  end.

(** The store after one search for each of [queries]. *)
Definition searched (queries : list json) (s : store) : store :=
  {| log := (rev (map WebSearch queries) ++ log s)%list;
     iteration_count := iteration_count s;
     validation_history := validation_history s |}.

(** The hit has the URL [u]. *)
Definition has_url (u : string) (h : hit) : bool :=
  match hit_get "url" h with
  | Some u' => String.eqb u u'
  | None => false
  end.

(** [l1] is [l2] with some elements left out. *)
Inductive subsequence {A : Type} : list A -> list A -> Prop :=
| subsequence_nil : subsequence [] []
| subsequence_keep x l1 l2 : subsequence l1 l2 -> subsequence (x :: l1) (x :: l2)
| subsequence_drop x l1 l2 : subsequence l1 l2 -> subsequence l1 (x :: l2).

(** The value is a list or a dictionary, which Python cannot hash. *)
Definition unhashable (v : json) : bool :=
  match v with
  | JArr _ | JObj _ => true
  | _ => false
  end.

(** The text of the ranking model cannot be used: it does not decode, or
    not to something iterable, or it names a list or a dictionary. *)
Definition ranking_unusable (E : env) (text : string) : Prop :=
  match json_loads E (PyStr.strip text) with
  | JSONDecodeError _ => True
  | LoadsRaised _ => True
  | Loaded v =>
      match SearchAgent.iterate v with
      | None => True
      | Some urls => existsb unhashable urls = true
      end
  end.

(** The hit that [url_to_result] holds under the URL [u]: the last one of
    [results] with this URL, as a list of one hit or none. *)
Definition last_with_url (results : list hit) (u : string) : list hit :=
  match find (has_url u) (rev results) with
  | Some r => [r]
  | None => []
  end.

(** When the text of the ranking model decodes to something iterable, it
    names nothing twice. *)
Definition ranking_distinct (E : env) (text : string) : Prop :=
  match json_loads E (PyStr.strip text) with
  | Loaded v =>
      match SearchAgent.iterate v with
      | Some ranked => NoDup ranked
      | None => True
      end
  | _ => True
  end.

End Searches.

(* ------------------------------------------------------------------ *)
(** ** More worlds *)

Module Scenario.

Import Fragment.

(** A hit that carries no [url] key. *)
Definition page_without_url : hit :=
  [ ("title", "Untitled"); ("snippet", "No link") ].

(** Every search brings one good page and one without a URL. *)
Definition hit_lacks_url : env :=
  Example.world 3 (fun _ => LlmText Example.queries_text)
    (fun _ => WebHits [ Example.page "https://example.com/a"; page_without_url ])
    (fun _ => LlmText (Example.report_text "low")) (Example.judge_after 0)
    (fun _ => None) None None.

(** Twenty pages with twenty URLs. *)
Definition twenty_pages : list hit :=
  map (fun i => Example.page ("https://example.com/"
                              ++ format (JInt (Z.of_nat i))))
    (seq 0 20).

(** The ranking model names three known pages and one unknown. *)
Definition ranking_text : string :=
  "[" ++ lit "https://example.com/7" ++ ", " ++ lit "https://example.com/3"
  ++ ", " ++ lit "https://example.com/none" ++ ", "
  ++ lit "https://example.com/12" ++ "]".

(** Four queries bring twenty pages, and the ranking model answers with
    [ranking_text]. *)
Definition ranking_in_order : env :=
  Example.world 3
    (fun n =>
       match n with
       | O => LlmText Example.four_queries_text
       | _ => LlmText ranking_text
       end)
    Example.five_new_pages
    (fun _ => LlmText (Example.report_text "low")) (Example.judge_after 0)
    (fun _ => None) None None.



End Scenario.


(* ------------------------------------------------------------------ *)
(** ** Reading the Validator's verdict *)

Module Verdicts.

(** A dictionary holds each key once. *)
Definition proper (d : pydict) : Prop := NoDup (map fst d).

(** The keys [execute] adds to the judge's object when it lacks them: line
    68 and lines 152-155. *)
Definition defaults : pydict :=
  [ ("success", JBool true);
    ("is_approved", JBool false);
    ("quality_score", JInt 0);
    ("feedback", JStr "Validation incomplete");
    ("issues", JArr []) ].

(** The judge's text decodes, behind its fence if any, to the object
    [validation]. *)
Definition judged (E : env) (reply : llm_reply) (validation : pydict) : Prop :=
  exists text content,
    reply = LlmText text /\
    strip_code_fence (PyStr.strip text) = inl content /\
    json_loads E content = Loaded (JObj validation).

(** The object rejects the report in a way line 65 can print: its
    [is_approved] is missing or falsy, and its [feedback] is missing, a
    string or a list. *)
Definition rejection (validation : pydict) : bool :=
  negb (truthy (Dict.get "is_approved" (JBool false) validation))
  && ValidatorAgent.sliceable
       (Dict.get "feedback" (JStr "Validation incomplete") validation).

End Verdicts.
(* ------------------------------------------------------------------ *)
(** ** Reading the calls of the two agents of the loop *)

Module Rounds.

Import Expected.

(** Lines 73-267: the search, the loop and the commit inside the [try],
    with its handler; what [generate_report] goes on with once the agents
    exist. *)
Definition after_construction (E : env) (company_profile : pydict)
  : M pydict :=
  try_except (ReportService.stages E (uuid4 E) company_profile)
    (ReportService.on_failure E (uuid4 E) company_profile).

(** The calls of the Generator and of the Validator. *)
Definition agent_event (ev : event) : bool := is_generate ev || is_validate ev.

(** [previous_feedback] on the attempt numbered [k] from zero: [None] on
    the first one (line 89), the feedback of the verdict before on the
    others (line 133). *)
Definition feedback_for (E : env) (k : nat) : json :=
  match k with
  | O => JNull
  | S i => Dict.get "feedback" (JStr "") (verdict E i)
  end.

(** The call of the Generator on attempt [k]. *)
Definition generation (E : env) (k : nat) : event :=
  GenerateLlm (ReportGeneratorAgent.feedback_section (feedback_for E k)).

(** The calls of the two agents in [k] full rounds, the latest first. *)
Fixpoint dialogue (E : env) (k : nat) : list event :=
  match k with
  | O => []
  | S i => ValidateLlm (draft E i) :: generation E i :: dialogue E i
  end.

(** The calls of the two agents that a store has logged. *)
Definition calls (s : store) : list event := filter agent_event (log s).

(** The store has seen [n] full rounds and nothing else of the loop. *)
Definition after_rounds (E : env) (n : nat) (s : store) : Prop :=
  calls s = dialogue E n /\
  iteration_count s = Z.of_nat n /\
  (n = 0%nat \/ (Z.of_nat n <= MAX_VALIDATION_ITERATIONS E)%Z).

(** The store has seen [n] full rounds and a failed generation. *)
Definition after_failed_attempt (E : env) (n : nat) (s : store) : Prop :=
  calls s = generation E n :: dialogue E n /\
  iteration_count s = Z.of_nat (S n) /\
  (Z.of_nat (S n) <= MAX_VALIDATION_ITERATIONS E)%Z /\
  ~ generator_succeeds E n.

End Rounds.

(* ------------------------------------------------------------------ *)
(** ** Computations: basic facts *)

Local Open Scope py_scope.
Local Open Scope list_scope.
Import Expected.

Lemma count_emit (p : event -> bool) (ev : event) (s : store) :
  count p (emit ev s) = if p ev then S (count p s) else count p s.
Proof. unfold count, emit; simpl. destruct (p ev); reflexivity. Qed.

Lemma bind_returned {A B : Type} (m : M A) (k : A -> M B) s a s1 :
  m s = (Returned a, s1) -> bind m k s = k a s1.
Proof. intros H; unfold bind; rewrite H; reflexivity. Qed.

Lemma bind_raised {A B : Type} (m : M A) (k : A -> M B) s e s1 :
  m s = (Raised e, s1) -> bind m k s = (Raised e, s1).
Proof. intros H; unfold bind; rewrite H; reflexivity. Qed.

Lemma bind_inv {A B : Type} (m : M A) (k : A -> M B) s out s' :
  bind m k s = (out, s') ->
  (exists a s1, m s = (Returned a, s1) /\ k a s1 = (out, s')) \/
  (exists e, m s = (Raised e, s') /\ out = Raised e) \/
  (m s = (OutOfFuel, s') /\ out = OutOfFuel).
Proof.
  unfold bind. destruct (m s) as [[a | e | ] s1]; intros H.
  - left; eauto.
  - right; left; inversion H; subst; eauto.
  - right; right; inversion H; subst; eauto.
Qed.

Lemma try_except_inv {A : Type} (body : M A) (handler : exn -> M A) s out s' :
  try_except body handler s = (out, s') ->
  (exists e s1, body s = (Raised e, s1) /\ handler e s1 = (out, s')) \/
  (body s = (out, s') /\ forall e, out <> Raised e).
Proof.
  unfold try_except. destruct (body s) as [[a | e | ] s1]; intros H.
  - right; inversion H; subst; split; [reflexivity | discriminate].
  - left; eauto.
  - right; inversion H; subst; split; [reflexivity | discriminate].
Qed.

(** The validator's [execute] always returns: the verdict of the judge's
    reply, after one call of the judge. *)
Lemma validator_execute (E : env) report company_profile search_results s :
  ValidatorAgent.execute E report company_profile search_results s =
  (Returned (ValidatorAgent.verdict_of E (validator_llm E (count is_validate s))),
   emit (ValidateLlm report) s).
Proof.
  unfold ValidatorAgent.execute, try_except, ValidatorAgent._validate_report,
    llm_call, bind, get_store, tell, ValidatorAgent.verdict_of.
  destruct (validator_llm E (count is_validate s)) as [text | e]; simpl;
    [ | reflexivity ].
  destruct (ValidatorAgent.decode_verdict E text) as [d | e]; simpl;
    [ | reflexivity ].
  destruct (ValidatorAgent.report_verdict d); reflexivity.
Qed.

(** The generator's [execute] always returns: the result of the model's
    reply, after one call of the model. *)
Lemma generator_execute (E : env) company_profile search_results fb s :
  ReportGeneratorAgent.execute E company_profile search_results fb s =
  (Returned (ReportGeneratorAgent.result_of E (report_llm E (count is_generate s))),
   emit (GenerateLlm (ReportGeneratorAgent.feedback_section fb)) s).
Proof.
  unfold ReportGeneratorAgent.execute, try_except,
    ReportGeneratorAgent._generate_report, llm_call, bind, get_store, tell,
    ReportGeneratorAgent.result_of.
  destruct (report_llm E (count is_generate s)) as [text | e]; simpl;
    [ | reflexivity ].
  destruct (ReportGeneratorAgent.decode_report E text); reflexivity.
Qed.

(* ------------------------------------------------------------------ *)
(** ** What a computation leaves untouched *)

Lemma extends_refl p s : extends_by p s s.
Proof. exists []. split; [ reflexivity | destruct s; reflexivity ]. Qed.

Lemma extends_trans p s1 s2 s3 :
  extends_by p s1 s2 -> extends_by p s2 s3 -> extends_by p s1 s3.
Proof.
  intros (e1 & H1 & ->) (e2 & H2 & ->). exists (e2 ++ e1). split.
  - rewrite forallb_app, H1, H2. reflexivity.
  - cbn. rewrite app_assoc. reflexivity.
Qed.

Lemma extends_emit p ev s : p ev = true -> extends_by p s (emit ev s).
Proof. intros H. exists [ev]. split; [ cbn; rewrite H | ]; reflexivity. Qed.

Lemma extends_weaken (p q : event -> bool) s s' :
  (forall ev, p ev = true -> q ev = true) ->
  extends_by p s s' -> extends_by q s s'.
Proof.
  intros Hpq (evs & Hevs & ->). exists evs. split; [ | reflexivity ].
  rewrite forallb_forall in *. intros ev Hin. apply Hpq, Hevs, Hin.
Qed.

Lemma extends_count p q s s' :
  extends_by p s s' ->
  (forall ev, p ev = true -> q ev = false) ->
  count q s' = count q s.
Proof.
  intros (evs & Hevs & ->) Hpq. unfold count; cbn.
  induction evs as [ | ev evs IH]; cbn in *; [ reflexivity | ].
  apply andb_prop in Hevs as [Hev Hevs].
  rewrite (Hpq ev Hev). apply IH, Hevs.
Qed.

Lemma extends_locals p s s' :
  extends_by p s s' ->
  iteration_count s' = iteration_count s /\
  validation_history s' = validation_history s.
Proof. intros (evs & _ & ->). split; reflexivity. Qed.

Lemma extends_grows p s s' : extends_by p s s' -> grows s s'.
Proof. intros (evs & _ & ->). exists evs. reflexivity. Qed.

Lemma grows_refl s : grows s s.
Proof. exists []. reflexivity. Qed.

Lemma grows_trans s1 s2 s3 : grows s1 s2 -> grows s2 s3 -> grows s1 s3.
Proof.
  intros (e1 & H1) (e2 & H2). exists (e2 ++ e1).
  rewrite H2, H1, app_assoc. reflexivity.
Qed.

Lemma grows_in ev s s' : grows s s' -> In ev (log s) -> In ev (log s').
Proof. intros (evs & ->) Hin. apply in_or_app. right. exact Hin. Qed.

Lemma search_is_bookkeeping ev : search_event ev = true -> bookkeeping ev = true.
Proof. destruct ev; cbn; congruence. Qed.

Lemma frames_ret {A} p (a : A) : frames p (ret a).
Proof.
  intros s out s' H; inversion H. split; [ apply extends_refl | discriminate ].
Qed.

Lemma frames_raise {A} p e : frames p (@raise A e).
Proof.
  intros s out s' H; inversion H. split; [ apply extends_refl | discriminate ].
Qed.

Lemma frames_lift {A} p (r : A + exn) : frames p (lift r).
Proof. destruct r; [ apply frames_ret | apply frames_raise ]. Qed.

Lemma frames_may_raise p r : frames p (may_raise r).
Proof. destruct r; [ apply frames_raise | apply frames_ret ]. Qed.

Lemma frames_get p : frames p get_store.
Proof.
  intros s out s' H; inversion H. split; [ apply extends_refl | discriminate ].
Qed.

Lemma frames_tell p ev : p ev = true -> frames p (tell ev).
Proof.
  intros Hp s out s' H; inversion H.
  split; [ apply extends_emit, Hp | discriminate ].
Qed.

Lemma frames_bind {A B} p (m : M A) (k : A -> M B) :
  frames p m -> (forall a, frames p (k a)) -> frames p (bind m k).
Proof.
  intros Hm Hk s out s' H.
  apply bind_inv in H as [(a & s1 & H1 & H2) | [(e & H1 & ->) | (H1 & _)]].
  - destruct (Hm _ _ _ H1) as [E1 _]. destruct (Hk _ _ _ _ H2) as [E2 N2].
    split; [ eapply extends_trans; eassumption | exact N2 ].
  - destruct (Hm _ _ _ H1) as [E1 _]. split; [ exact E1 | discriminate ].
  - destruct (Hm _ _ _ H1) as [_ N1]. contradiction.
Qed.

Lemma frames_try {A} p (body : M A) handler :
  frames p body -> (forall e, frames p (handler e)) ->
  frames p (try_except body handler).
Proof.
  intros Hb Hh s out s' H.
  apply try_except_inv in H as [(e & s1 & H1 & H2) | (H1 & _)].
  - destruct (Hb _ _ _ H1) as [E1 _]. destruct (Hh _ _ _ _ H2) as [E2 N2].
    split; [ eapply extends_trans; eassumption | exact N2 ].
  - eapply Hb; eassumption.
Qed.

Lemma frames_weaken {A} (p q : event -> bool) (m : M A) :
  (forall ev, p ev = true -> q ev = true) -> frames p m -> frames q m.
Proof.
  intros Hpq Hm s out s' H. destruct (Hm _ _ _ H) as [(evs & Hevs & ->) N].
  split; [ | exact N ]. exists evs. split; [ | reflexivity ].
  rewrite forallb_forall in *. intros ev Hin. apply Hpq, Hevs, Hin.
Qed.

Lemma frames_llm_call p replies mine ev :
  p ev = true -> frames p (llm_call replies mine ev).
Proof.
  intros Hp. unfold llm_call.
  apply frames_bind; [ apply frames_get | intros s0 ].
  apply frames_bind; [ apply frames_tell, Hp | intros _ ].
  destruct (replies _); [ apply frames_ret | apply frames_raise ].
Qed.

Create HintDb frames.

#[local] Hint Resolve frames_ret frames_raise frames_lift frames_may_raise
  frames_get frames_tell frames_llm_call : frames.

Lemma frames_now (E : env) : frames bookkeeping (now E).
Proof.
  unfold now. apply frames_bind; [ apply frames_get | intros s0 ].
  apply frames_bind; [ apply frames_tell; reflexivity | intros _ ].
  apply frames_ret.
Qed.

Lemma frames_run_queries (E : env) queries :
  forall all_results,
    frames search_event (SearchAgent.run_queries E queries all_results).
Proof.
  induction queries as [ | q rest IH]; intros all_results; cbn.
  - apply frames_ret.
  - apply frames_bind; [ apply frames_get | intros s0 ].
    apply frames_bind; [ apply frames_tell; reflexivity | intros _ ].
    destruct (search_web E _); apply IH.
Qed.

Lemma frames_search_execute (E : env) company_profile :
  frames search_event (SearchAgent.execute E company_profile).
Proof.
  unfold SearchAgent.execute.
  apply frames_try; [ | intros e; apply frames_ret ].
  apply frames_bind.
  { unfold SearchAgent._generate_search_queries.
    apply frames_bind; [ apply frames_llm_call; reflexivity | intros text ].
    apply frames_lift. }
  intros queries. apply frames_bind.
  { unfold SearchAgent._execute_searches.
    apply frames_bind; [ apply frames_run_queries | intros rs ].
    destruct (SearchAgent.deduplicate [] rs); auto with frames. }
  intros rs. apply frames_bind; [ | intros; apply frames_ret ].
  unfold SearchAgent._filter_results.
  destruct (_ <=? _)%nat; [ apply frames_ret | ].
  apply frames_try; [ | intros; apply frames_ret ].
  apply frames_bind; [ apply frames_llm_call; reflexivity | intros text ].
  apply frames_lift.
Qed.

Lemma frames_search_phase (E : env) company_profile :
  frames search_event (ReportService.search_phase E company_profile).
Proof.
  unfold ReportService.search_phase. destruct (ReportService.use_mcp E).
  - apply frames_bind; [ apply frames_tell; reflexivity | intros _ ].
    destruct (mcp_execute E); auto with frames.
  - apply frames_search_execute.
Qed.

(* ------------------------------------------------------------------ *)
(** ** The validation loop, one round at a time *)

Lemma loop_no_fuel (E : env) p r content fb s :
  ReportService.validation_loop E 0 p r content fb s =
  if (iteration_count s <? MAX_VALIDATION_ITERATIONS E)%Z
  then (OutOfFuel, s) else (Returned content, s).
Proof.
  simpl. unfold bind, get_store.
  destruct (iteration_count s <? MAX_VALIDATION_ITERATIONS E)%Z; reflexivity.
Qed.

Lemma loop_round (E : env) fuel p r content fb s :
  ReportService.validation_loop E (S fuel) p r content fb s =
  if (iteration_count s <? MAX_VALIDATION_ITERATIONS E)%Z then
    let rr := ReportGeneratorAgent.result_of E (report_llm E (count is_generate s)) in
    if negb (rr_success rr) then
      (Raised ("Report generation failed: "
               ++ ReportService.format_error (rr_error rr))%string,
       Expected.after_failed_generation fb s)
    else
      let vr := ValidatorAgent.verdict_of E (validator_llm E (count is_validate s)) in
      let s' := Expected.after_round E fb (rr_report rr) vr s in
      if ValidatorAgent.approved vr then (Returned (rr_report rr), s')
      else if (iteration_count s + 1 >=? MAX_VALIDATION_ITERATIONS E)%Z
           then (Returned (rr_report rr), s')
           else ReportService.validation_loop E fuel p r (rr_report rr)
                  (Dict.get "feedback" (JStr "") vr) s'
  else (Returned content, s).
Proof.
  cbn [ReportService.validation_loop].
  unfold bind at 1. unfold get_store at 1.
  destruct (iteration_count s <? MAX_VALIDATION_ITERATIONS E)%Z; [ | reflexivity ].
  unfold bind at 1. unfold ReportService.set_iteration_count at 1.
  unfold bind at 1. rewrite generator_execute.
  cbv zeta.
  replace (count is_generate _) with (count is_generate s) by reflexivity.
  destruct (rr_success _) eqn:Hok; cbn [negb].
  2: reflexivity.
  unfold bind at 1. rewrite validator_execute.
  rewrite count_emit. cbn [is_validate].
  replace (count is_validate _) with (count is_validate s) by reflexivity.
  unfold bind at 1. unfold now at 1. unfold bind at 1, get_store at 1.
  unfold bind at 1, tell at 1. unfold ret at 1.
  unfold bind at 1. unfold ReportService.append_history at 1.
  rewrite !count_emit. cbn [is_utcnow].
  replace (count is_utcnow _) with (count is_utcnow s) by reflexivity.
  destruct (ValidatorAgent.approved _); [ reflexivity | ].
  destruct (iteration_count s + 1 >=? MAX_VALIDATION_ITERATIONS E)%Z; reflexivity.
Qed.

Lemma history_succ (E : env) (k : nat) :
  Expected.history E (S k) = Expected.history E k ++ [Expected.entry E k].
Proof.
  unfold Expected.history. rewrite seq_S, map_app. reflexivity.
Qed.

Lemma history_length (E : env) (k : nat) :
  List.length (Expected.history E k) = k.
Proof. unfold Expected.history. rewrite length_map, length_seq. reflexivity. Qed.

Lemma history_nth (E : env) (n i : nat) :
  (i < n)%nat -> nth_error (history E n) i = Some (entry E i).
Proof.
  intros Hi. unfold history.
  rewrite nth_error_map, nth_error_seq.
  destruct (Nat.ltb_spec i n); [ reflexivity | lia ].
Qed.

Lemma at_round_initial (E : env) : Expected.at_round E 0 initial_store.
Proof. repeat split. Qed.

Lemma at_round_step (E : env) (k : nat) fb s :
  Expected.at_round E k s ->
  Expected.at_round E (S k)
    (Expected.after_round E fb (Expected.draft E k) (Expected.verdict E k) s).
Proof.
  intros (Hic & Hg & Hv & Hu & Hh).
  unfold Expected.at_round.
  repeat split.
  - cbn [Expected.after_round iteration_count]. lia.
  - unfold count in *; cbn. congruence.
  - unfold count in *; cbn. congruence.
  - unfold count in *; cbn. congruence.
  - cbn [Expected.after_round validation_history].
    rewrite Hic, Hu, Hh, history_succ. unfold Expected.entry.
    do 3 f_equal. lia.
Qed.

Lemma search_keeps_round (E : env) (k : nat) s s' :
  extends_by search_event s s' -> at_round E k s -> at_round E k s'.
Proof.
  intros Hext (Hic & Hg & Hv & Hu & Hh).
  destruct (extends_locals _ _ _ Hext) as [Hic' Hh'].
  unfold at_round.
  rewrite Hic', Hh'.
  rewrite !(extends_count _ _ _ _ Hext)
    by (intros ev; destruct ev; cbn; congruence).
  repeat split; assumption.
Qed.

(** Rounds [k], ..., [k + j] succeed in generating, the first [j] of them
    are rejected, and round [k + j] is approved or is the last one allowed:
    the loop returns the draft of round [k + j] after exactly these rounds. *)
Lemma loop_accepts (E : env) p r :
  forall j k fuel content fb s,
    Expected.at_round E k s ->
    (Z.of_nat (k + j) < MAX_VALIDATION_ITERATIONS E)%Z ->
    (j < fuel)%nat ->
    (forall i, (k <= i <= k + j)%nat -> Expected.generator_succeeds E i) ->
    (forall i, (k <= i < k + j)%nat ->
               ValidatorAgent.approved (Expected.verdict E i) = false) ->
    (ValidatorAgent.approved (Expected.verdict E (k + j)) = true \/
     Z.of_nat (S (k + j)) = MAX_VALIDATION_ITERATIONS E) ->
    exists s',
      ReportService.validation_loop E fuel p r content fb s =
        (Returned (Expected.draft E (k + j)), s') /\
      Expected.at_round E (S (k + j)) s' /\
      count is_write s' = count is_write s.
Proof.
  induction j as [ | j IH]; intros k fuel content fb s Hs Hlt Hfuel Hgen Hrej Hend.
  - destruct fuel as [ | fuel]; [ lia | ].
    rewrite Nat.add_0_r in *.
    pose proof Hs as (Hic & Hg & Hv & _).
    rewrite loop_round, Hic, Hg, Hv.
    replace (Z.of_nat k <? MAX_VALIDATION_ITERATIONS E)%Z with true
      by (symmetry; apply Z.ltb_lt; lia).
    cbv zeta. rewrite (Hgen k) by lia. cbn [negb].
    fold (Expected.draft E k) (Expected.verdict E k).
    exists (Expected.after_round E fb (Expected.draft E k) (Expected.verdict E k) s).
    split; [ | split; [ apply at_round_step; assumption | reflexivity ] ].
    destruct (ValidatorAgent.approved (Expected.verdict E k)) eqn:Ha;
      [ reflexivity | ].
    destruct Hend as [Hend | Hend]; [ discriminate | ].
    replace (Z.of_nat k + 1 >=? MAX_VALIDATION_ITERATIONS E)%Z with true
      by (symmetry; rewrite Z.geb_leb; apply Z.leb_le; lia).
    reflexivity.
  - destruct fuel as [ | fuel]; [ lia | ].
    pose proof Hs as (Hic & Hg & Hv & _).
    rewrite loop_round, Hic, Hg, Hv.
    replace (Z.of_nat k <? MAX_VALIDATION_ITERATIONS E)%Z with true
      by (symmetry; apply Z.ltb_lt; lia).
    cbv zeta. rewrite (Hgen k) by lia. cbn [negb].
    fold (Expected.draft E k) (Expected.verdict E k).
    rewrite (Hrej k) by lia.
    replace (Z.of_nat k + 1 >=? MAX_VALIDATION_ITERATIONS E)%Z with false
      by (symmetry; rewrite Z.geb_leb; apply Z.leb_gt; lia).
    replace (k + S j)%nat with (S k + j)%nat in * by lia.
    destruct (IH (S k) fuel (Expected.draft E k)
                (Dict.get "feedback" (JStr "") (Expected.verdict E k))
                (Expected.after_round E fb (Expected.draft E k)
                   (Expected.verdict E k) s))
      as (s' & Hrun & Hs' & Hw).
    + apply at_round_step; assumption.
    + assumption.
    + lia.
    + intros i Hi; apply Hgen; lia.
    + intros i Hi; apply Hrej; lia.
    + assumption.
    + exists s'. split; [ assumption | split; [ assumption | ] ].
      rewrite Hw. reflexivity.
Qed.

Lemma bounded_of_boundary (E : env) s : boundary E s -> bounded E s.
Proof. intros (H1 & H2 & H3). repeat split; try apply H1; try lia; exact H3. Qed.

Lemma bookkeeping_keeps_bounded (E : env) s s' :
  extends_by bookkeeping s s' -> bounded E s -> bounded E s'.
Proof.
  intros Hext (H1 & H2 & H3).
  destruct (extends_locals _ _ _ Hext) as [Hic Hh].
  unfold bounded. rewrite Hic, Hh.
  rewrite (extends_count _ is_validate _ _ Hext).
  - repeat split; try apply H1; assumption.
  - intros ev. destruct ev; cbn; congruence.
Qed.

Lemma bookkeeping_keeps_boundary (E : env) s s' :
  extends_by bookkeeping s s' -> boundary E s -> boundary E s'.
Proof.
  intros Hext (H1 & H2 & H3).
  destruct (extends_locals _ _ _ Hext) as [Hic Hh].
  unfold boundary. rewrite Hic, Hh.
  rewrite (extends_count _ is_validate _ _ Hext).
  - repeat split; try apply H1; assumption.
  - intros ev. destruct ev; cbn; congruence.
Qed.

Lemma boundary_initial (E : env) :
  (0 <= MAX_VALIDATION_ITERATIONS E)%Z -> boundary E initial_store.
Proof. intros H. repeat split; cbn; try lia. Qed.

Lemma boundary_after_round (E : env) fb report vr s :
  boundary E s ->
  (iteration_count s < MAX_VALIDATION_ITERATIONS E)%Z ->
  boundary E (after_round E fb report vr s).
Proof.
  intros (H1 & H2 & H3) Hlt. unfold boundary, after_round, count in *. cbn.
  rewrite length_app. cbn. repeat split; lia.
Qed.

Lemma bounded_after_failed_generation (E : env) fb s :
  boundary E s ->
  (iteration_count s < MAX_VALIDATION_ITERATIONS E)%Z ->
  bounded E (after_failed_generation fb s).
Proof.
  intros (H1 & H2 & H3) Hlt. unfold bounded, after_failed_generation, count in *.
  cbn. repeat split; lia.
Qed.

(** Whatever the agents answer, the loop leaves the variables bounded, and
    at a boundary when it returns; it only adds to the log. *)
Lemma loop_bounded (E : env) p r :
  forall fuel content fb s out s',
    boundary E s ->
    ReportService.validation_loop E fuel p r content fb s = (out, s') ->
    bounded E s' /\ grows s s' /\
    (forall c, out = Returned c -> boundary E s').
Proof.
  induction fuel as [ | fuel IH]; intros content fb s out s' Hs Hrun.
  - rewrite loop_no_fuel in Hrun.
    destruct (iteration_count s <? MAX_VALIDATION_ITERATIONS E)%Z;
      inversion Hrun; subst;
      (split; [ apply bounded_of_boundary, Hs | ]);
      (split; [ apply grows_refl | ]); intros c Hc;
      [ discriminate | exact Hs ].
  - rewrite loop_round in Hrun.
    destruct (iteration_count s <? MAX_VALIDATION_ITERATIONS E)%Z eqn:Hlt.
    2:{ inversion Hrun; subst.
        split; [ apply bounded_of_boundary, Hs | ].
        split; [ apply grows_refl | intros; exact Hs ]. }
    apply Z.ltb_lt in Hlt. cbv zeta in Hrun.
    destruct (rr_success _); cbn [negb] in Hrun.
    2:{ inversion Hrun; subst.
        split; [ apply bounded_after_failed_generation; assumption | ].
        split; [ exists [GenerateLlm (ReportGeneratorAgent.feedback_section fb)];
                 reflexivity | intros; discriminate ]. }
    match type of Hrun with
    | context [after_round E fb ?rep ?vr s] =>
        pose proof (boundary_after_round E fb rep vr s Hs Hlt) as Hb;
        assert (Hg : grows s (after_round E fb rep vr s))
          by (exists [Utcnow; ValidateLlm rep;
                      GenerateLlm (ReportGeneratorAgent.feedback_section fb)];
              reflexivity)
    end.
    destruct (ValidatorAgent.approved _).
    { inversion Hrun; subst.
      split; [ apply bounded_of_boundary, Hb | ].
      split; [ exact Hg | intros; exact Hb ]. }
    destruct (_ >=? _)%Z.
    { inversion Hrun; subst.
      split; [ apply bounded_of_boundary, Hb | ].
      split; [ exact Hg | intros; exact Hb ]. }
    destruct (IH _ _ _ _ _ Hb Hrun) as (H1 & H2 & H3).
    split; [ exact H1 | ]. split; [ eapply grows_trans; eassumption | exact H3 ].
Qed.

(** The loop never asks for more fuel than the rounds that are left. *)
Lemma loop_has_fuel (E : env) p r :
  forall fuel content fb s,
    (MAX_VALIDATION_ITERATIONS E - iteration_count s <= Z.of_nat fuel)%Z ->
    fst (ReportService.validation_loop E fuel p r content fb s) <> OutOfFuel.
Proof.
  induction fuel as [ | fuel IH]; intros content fb s Hfuel.
  - rewrite loop_no_fuel.
    destruct (Z.ltb_spec (iteration_count s) (MAX_VALIDATION_ITERATIONS E));
      [ lia | discriminate ].
  - rewrite loop_round.
    destruct (iteration_count s <? MAX_VALIDATION_ITERATIONS E)%Z;
      [ | discriminate ].
    cbv zeta. destruct (rr_success _); cbn [negb]; [ | discriminate ].
    destruct (ValidatorAgent.approved _); [ discriminate | ].
    destruct (_ >=? _)%Z; [ discriminate | ].
    apply IH. cbn [after_round iteration_count]. lia.
Qed.

(** A round whose generation succeeds hands the draft to the Validator,
    whatever follows. *)
Lemma round_validates_draft (E : env) p r fuel content fb s out s' :
  boundary E s ->
  (iteration_count s < MAX_VALIDATION_ITERATIONS E)%Z ->
  generator_succeeds E (count is_generate s) ->
  ReportService.validation_loop E (S fuel) p r content fb s = (out, s') ->
  In (ValidateLlm (draft E (count is_generate s))) (log s').
Proof.
  intros Hb Hlt Hgen Hrun. rewrite loop_round in Hrun.
  replace (iteration_count s <? MAX_VALIDATION_ITERATIONS E)%Z with true in Hrun
    by (symmetry; apply Z.ltb_lt; exact Hlt).
  cbv zeta in Hrun. unfold generator_succeeds in Hgen. rewrite Hgen in Hrun.
  cbn [negb] in Hrun. fold (draft E (count is_generate s)) in Hrun.
  match type of Hrun with
  | context [after_round E fb ?rep ?vr s] =>
      pose proof (boundary_after_round E fb rep vr s Hb Hlt) as Hb';
      assert (Hin : In (ValidateLlm rep) (log (after_round E fb rep vr s)))
        by (right; left; reflexivity)
  end.
  destruct (ValidatorAgent.approved _); [ inversion Hrun; subst; exact Hin | ].
  destruct (_ >=? _)%Z; [ inversion Hrun; subst; exact Hin | ].
  destruct (loop_bounded E _ _ _ _ _ _ _ _ Hb' Hrun) as (_ & Hg & _).
  eapply grows_in; eassumption.
Qed.

(* ------------------------------------------------------------------ *)
(** ** The run around the loop *)

Lemma pdf_step_run (E : env) report_id final_report s :
  ReportService.pdf_step E report_id final_report s =
  (Returned (with_pdf E report_id final_report),
   {| log := pdf_events E report_id ++ log s;
      iteration_count := iteration_count s;
      validation_history := validation_history s |}).
Proof.
  unfold ReportService.pdf_step, try_except, bind, may_raise, tell, ret, raise,
    with_pdf, pdf_events, emit.
  destruct s as [l ic h].
  destruct (generate_pdf E); [ reflexivity | ].
  destruct (add_pdf E); reflexivity.
Qed.

Lemma commit_run (E : env) report_id report_content final_report s :
  ReportService.commit E report_id report_content final_report s =
  match file_write E (count is_write s) with
  | Some e => (Raised e, emit (WriteFailed (ReportService.report_path E report_id)) s)
  | None =>
      let s1 := emit (WriteReport (ReportService.report_path E report_id)
                        (JObj final_report)) s in
      match ReportService.overall_risk report_content with
      | inr e => (Raised e, s1)
      | inl risk =>
          match add_report E with
          | Some e => (Raised e, s1)
          | None =>
              (Returned [ ("success", JBool true);
                          ("report", JObj (with_pdf E report_id final_report)) ],
               {| log := pdf_events E report_id
                         ++ AddReport report_id report_content risk :: log s1;
                  iteration_count := iteration_count s;
                  validation_history := validation_history s |})
          end
      end
  end.
Proof.
  unfold ReportService.commit, ReportService.write_report.
  unfold bind at 1. unfold bind at 1. unfold get_store at 1.
  destruct (file_write E (count is_write s)) as [e | ].
  { reflexivity. }
  unfold tell at 1. cbv zeta.
  destruct (ReportService.overall_risk report_content) as [risk | e];
    [ | reflexivity ].
  destruct (add_report E) as [e | ]; [ reflexivity | ].
  cbn [may_raise]. unfold bind at 1. unfold ret at 1.
  unfold bind at 1. unfold tell at 1.
  unfold bind at 1. rewrite pdf_step_run. reflexivity.
Qed.

Lemma on_failure_run (E : env) report_id company_profile e s :
  ReportService.on_failure E report_id company_profile e s =
  let failed :=
    ReportService.failed_report report_id company_profile e
      (utcnow E (count is_utcnow s)) (iteration_count s)
      (validation_history s) in
  match file_write E (count is_write s) with
  | Some e' =>
      (Raised e',
       emit (WriteFailed (ReportService.report_path E report_id)) (emit Utcnow s))
  | None =>
      (Returned [ ("success", JBool false); ("error", JStr e);
                  ("report", JObj failed) ],
       emit (WriteReport (ReportService.report_path E report_id) (JObj failed))
         (emit Utcnow s))
  end.
Proof.
  unfold ReportService.on_failure, ReportService.write_report, now.
  unfold bind, get_store, tell, ret. cbn [iteration_count validation_history emit].
  rewrite count_emit. cbn [is_write].
  destruct (file_write E (count is_write s)); reflexivity.
Qed.

Lemma frames_commit (E : env) report_id report_content final_report :
  frames bookkeeping
    (ReportService.commit E report_id report_content final_report).
Proof.
  intros s out s' H. rewrite commit_run in H.
  destruct (file_write E (count is_write s)) as [e | ].
  { inversion H; subst. split; [ apply extends_emit; reflexivity | discriminate ]. }
  cbv zeta in H.
  destruct (ReportService.overall_risk report_content) as [risk | e].
  2:{ inversion H; subst. split; [ apply extends_emit; reflexivity | discriminate ]. }
  destruct (add_report E) as [e | ].
  { inversion H; subst. split; [ apply extends_emit; reflexivity | discriminate ]. }
  inversion H; subst. split; [ | discriminate ].
  exists (pdf_events E report_id
          ++ [AddReport report_id report_content risk;
              WriteReport (ReportService.report_path E report_id)
                (JObj final_report)]).
  split.
  - unfold pdf_events. destruct (generate_pdf E), (add_pdf E); reflexivity.
  - cbn. rewrite <- app_assoc. reflexivity.
Qed.

Lemma frames_on_failure (E : env) report_id company_profile e :
  frames bookkeeping (ReportService.on_failure E report_id company_profile e).
Proof.
  intros s out s' H. rewrite on_failure_run in H. cbv zeta in H.
  destruct (file_write E (count is_write s)); inversion H; subst;
    (split; [ | discriminate ]);
    (eapply extends_trans; apply extends_emit; reflexivity).
Qed.

(** Whatever the agents and the outside answer, lines 73-240 leave the
    variables bounded and do not run out of fuel; what they return is the
    report of lines 142-154 with the PDF keys, built from the variables as
    they are at the end, and that report was saved. *)
Lemma stages_bounded (E : env) company_profile out s' :
  (0 <= MAX_VALIDATION_ITERATIONS E)%Z ->
  ReportService.stages E (uuid4 E) company_profile initial_store = (out, s') ->
  bounded E s' /\ out <> OutOfFuel /\
  (forall d, out = Returned d ->
     exists fr,
       d = [ ("success", JBool true);
             ("report", JObj (with_pdf E (uuid4 E) fr)) ] /\
       Dict.lookup "status" fr = Some (JStr "approved") /\
       Dict.lookup "iteration_count" fr = Some (JInt (iteration_count s')) /\
       Dict.lookup "validation_history" fr
         = Some (JArr (validation_history s')) /\
       persisted (log s') = Some (JObj fr)).
Proof.
  intros Hmax. unfold ReportService.stages.
  pose proof (boundary_initial E Hmax) as H0.
  unfold bind at 1.
  destruct (ReportService.search_phase E company_profile initial_store)
    as [[sr | e | ] s0] eqn:Hsearch;
    destruct (frames_search_phase E company_profile _ _ _ Hsearch) as [Hext Hfuel];
    [ | | contradiction ];
    pose proof (bookkeeping_keeps_boundary E _ _
                  (extends_weaken _ _ _ _ search_is_bookkeeping Hext) H0) as Hb0.
  2:{ intros H; inversion H; subst.
      split; [ apply bounded_of_boundary, Hb0 | ]. split; intros; discriminate. }
  destruct (sr_success sr); cbn [negb].
  2:{ intros H; inversion H; subst.
      split; [ apply bounded_of_boundary, Hb0 | ]. split; intros; discriminate. }
  destruct (add_search_results E) as [e | ]; cbn [may_raise].
  { intros H; inversion H; subst.
    split; [ apply bounded_of_boundary, Hb0 | ]. split; intros; discriminate. }
  unfold bind at 1. unfold ret at 1. unfold bind at 1. unfold tell at 1.
  assert (Hb1 : boundary E (emit (AddSearchResults (uuid4 E)) s0)).
  { apply (bookkeeping_keeps_boundary E s0); [ | exact Hb0 ].
    apply extends_emit. reflexivity. }
  unfold bind at 1.
  destruct (ReportService.validation_loop E _ company_profile _ JNull JNull
              (emit (AddSearchResults (uuid4 E)) s0))
    as [[content | e | ] s2] eqn:Hloop.
  - destruct (loop_bounded E _ _ _ _ _ _ _ _ Hb1 Hloop) as (Hbd & _ & Hbound).
    specialize (Hbound content eq_refl).
    unfold bind at 1. unfold get_store at 1.
    unfold bind at 1. unfold now at 1.
    unfold bind at 1. unfold get_store at 1.
    unfold bind at 1. unfold tell at 1. unfold ret at 1.
    rewrite commit_run.
    assert (Hb3 : bounded E (emit Utcnow s2)).
    { apply (bookkeeping_keeps_bounded E s2); [ | exact Hbd ].
      apply extends_emit. reflexivity. }
    destruct (file_write E _) as [e | ].
    { intros H; inversion H; subst. split.
      - apply (bookkeeping_keeps_bounded E (emit Utcnow s2)); [ | exact Hb3 ].
        apply extends_emit. reflexivity.
      - split; intros; discriminate. }
    cbv zeta.
    assert (Hb4 : bounded E (emit (WriteReport
                     (ReportService.report_path E (uuid4 E))
                     (JObj (ReportService.final_report (uuid4 E) company_profile
                              content (utcnow E (count is_utcnow s2))
                              (validation_history s2) (iteration_count s2)
                              (sr_search_results sr) sr))) (emit Utcnow s2))).
    { apply (bookkeeping_keeps_bounded E (emit Utcnow s2)); [ | exact Hb3 ].
      apply extends_emit. reflexivity. }
    destruct (ReportService.overall_risk content) as [risk | e].
    2:{ intros H; inversion H; subst.
        split; [ exact Hb4 | ]. split; intros; discriminate. }
    destruct (add_report E) as [e | ].
    { intros H; inversion H; subst.
      split; [ exact Hb4 | ]. split; intros; discriminate. }
    intros H; inversion H; subst. split.
    { eapply bookkeeping_keeps_bounded; [ | exact Hbd ].
      exists (pdf_events E (uuid4 E)
              ++ [AddReport (uuid4 E) content risk;
                  WriteReport (ReportService.report_path E (uuid4 E))
                    (JObj (ReportService.final_report (uuid4 E) company_profile
                             content (utcnow E (count is_utcnow s2))
                             (validation_history s2) (iteration_count s2)
                             (sr_search_results sr) sr));
                  Utcnow]).
      split.
      - unfold pdf_events. destruct (generate_pdf E), (add_pdf E); reflexivity.
      - cbn. rewrite <- app_assoc. reflexivity. }
    split; [ discriminate | ].
    intros d Hd; inversion Hd; subst. eexists. split; [ reflexivity | ].
    cbn [iteration_count validation_history log emit].
    repeat split.
    unfold pdf_events. destruct (generate_pdf E), (add_pdf E); reflexivity.
  - destruct (loop_bounded E _ _ _ _ _ _ _ _ Hb1 Hloop) as (Hbd & _ & _).
    intros H; inversion H; subst.
    split; [ exact Hbd | ]. split; intros; discriminate.
  - exfalso.
    apply (loop_has_fuel E company_profile (sr_search_results sr)
             (Z.to_nat (MAX_VALIDATION_ITERATIONS E)) JNull JNull
             (emit (AddSearchResults (uuid4 E)) s0)).
    + destruct Hb1 as ((Hic0 & _) & _). lia.
    + rewrite Hloop. reflexivity.
Qed.


(* ------------------------------------------------------------------ *)
(** ** Reading the returned report *)

Lemma lookup_set (k k' : string) (v : json) (d : pydict) :
  Dict.lookup k (Dict.set k' v d) =
  if String.eqb k k' then Some v else Dict.lookup k d.
Proof.
  induction d as [ | [k0 v0] d IH]; cbn.
  - rewrite String.eqb_sym. destruct (String.eqb k' k); reflexivity.
  - destruct (String.eqb k' k0) eqn:Hk'; cbn.
    + apply String.eqb_eq in Hk' as ->.
      destruct (String.eqb k k0); reflexivity.
    + rewrite IH. destruct (String.eqb k k0) eqn:Hk; [ | reflexivity ].
      apply String.eqb_eq in Hk as ->. rewrite String.eqb_sym, Hk'.
      reflexivity.
Qed.

Lemma with_pdf_lookup (E : env) report_id (k : string) (r : pydict) :
  String.eqb k "pdf_path" = false -> String.eqb k "has_pdf" = false ->
  Dict.lookup k (with_pdf E report_id r) = Dict.lookup k r.
Proof.
  intros H1 H2. unfold with_pdf.
  destruct (generate_pdf E), (add_pdf E); rewrite !lookup_set, H1, H2;
    reflexivity.
Qed.

Lemma lookup_update_absent (k : string) (d2 : pydict) :
  forall d1,
    Dict.lookup k d2 = None ->
    Dict.lookup k (Dict.update d1 d2) = Dict.lookup k d1.
Proof.
  unfold Dict.update.
  induction d2 as [ | [k0 v0] d2 IH]; intros d1 H; cbn in *; [ reflexivity | ].
  destruct (String.eqb k k0) eqn:Hk; [ discriminate | ].
  rewrite IH by assumption. rewrite lookup_set, Hk. reflexivity.
Qed.

Lemma lookup_setdefault_other (k k' : string) (v : json) (d : pydict) :
  String.eqb k k' = false ->
  Dict.lookup k (Dict.setdefault k' v d) = Dict.lookup k d.
Proof.
  intros Hk. unfold Dict.setdefault.
  destruct (Dict.lookup k' d); [ reflexivity | ].
  rewrite lookup_set, Hk. reflexivity.
Qed.

Lemma entry_rejected (E : env) (i : nat) :
  ValidatorAgent.approved (verdict E i) = false ->
  exists fields,
    entry E i = JObj fields /\
    Dict.lookup "iteration" fields = Some (JInt (Z.of_nat (S i))) /\
    truthy (Dict.get "is_approved" (JBool false) fields) = false.
Proof.
  intros H. eexists. split; [ reflexivity | ]. split; [ reflexivity | ].
  exact H.
Qed.

Lemma entry_fields (E : env) (k : nat) :
  exists fields,
    entry E k = JObj fields /\
    Dict.lookup "is_approved" fields
      = Some (Dict.get "is_approved" (JBool false) (verdict E k)) /\
    Dict.lookup "quality_score" fields
      = Some (Dict.get "quality_score" (JInt 0) (verdict E k)) /\
    Dict.lookup "feedback" fields
      = Some (Dict.get "feedback" (JStr "") (verdict E k)).
Proof. eexists. split; [ reflexivity | ]. repeat split. Qed.

(* ------------------------------------------------------------------ *)
(** ** The construction of the agents *)

(** Lines 68 and 70 pass [api_key] to constructors that declare no such
    parameter (search_agent.py line 16, report_agent.py line 15): whatever
    the settings and the key, constructing the agents raises. *)
Lemma create_agents_raises (E : env) :
  exists e,
    ReportService.create_agents E = Some e /\
    (ReportService.use_mcp E = false ->
     e = "SearchAgent.__init__() got an unexpected keyword argument 'api_key'").
Proof.
  unfold ReportService.create_agents.
  destruct (ReportService.use_mcp E).
  - destruct (MCPSearchAgent.init E ["api_key"] (api_key E)) as [e | ].
    + exists e. split; [ reflexivity | discriminate ].
    + eexists. split; [ reflexivity | discriminate ].
  - eexists. split; reflexivity.
Qed.

(** A call whose construction of the agents raises runs the handler
    only. *)
Lemma run_stops_at_construction (E : env) company_profile e :
  ReportService.create_agents E = Some e ->
  ReportService.run E company_profile =
  let failed :=
    ReportService.failed_report (uuid4 E) company_profile e (utcnow E 0) 0 [] in
  match file_write E 0 with
  | None =>
      (Returned [ ("success", JBool false); ("error", JStr e);
                  ("report", JObj failed) ],
       {| log := [ WriteReport (ReportService.report_path E (uuid4 E))
                     (JObj failed);
                   Utcnow ];
          iteration_count := 0;
          validation_history := [] |})
  | Some e' =>
      (Raised e',
       {| log := [ WriteFailed (ReportService.report_path E (uuid4 E)); Utcnow ];
          iteration_count := 0;
          validation_history := [] |})
  end.
Proof.
  intros He.
  unfold ReportService.run, ReportService.generate_report, try_except,
    ReportService.pipeline.
  rewrite He. cbn [may_raise]. unfold bind at 1. unfold raise at 1.
  cbv beta iota. rewrite on_failure_run. cbv zeta.
  change (count is_write initial_store) with 0%nat.
  change (count is_utcnow initial_store) with 0%nat.
  destruct (file_write E 0); reflexivity.
Qed.


(* ------------------------------------------------------------------ *)
(** ** The generate/validate loop *)

(** C1, the code at the failing input.  Lines 68 and 70 call [SearchAgent]
    and [ReportGeneratorAgent] with the keyword [api_key], which their
    constructors do not declare, so the call raises [TypeError] inside the
    [try], before the search: in every world and for every profile
    [generate_report] runs the handler only, writes a failed record and
    returns it (or raises, when that record cannot be written).  With the
    verdicts [false, false, true] and a limit of three, where the claim has
    three rounds and an approved report with [iteration_count = 3], it
    returns [success = False] and a record with status ["failed"],
    [iteration_count = 0] and an empty history, and calls neither the
    Generator nor the Validator. *)
Theorem approval_is_never_reached :
  (forall (E : env) company_profile,
     exists e,
       ReportService.create_agents E = Some e /\
       ReportService.run E company_profile =
       let failed :=
         ReportService.failed_report (uuid4 E) company_profile e
           (utcnow E 0) 0 [] in
       match file_write E 0 with
       | None =>
           (Returned [ ("success", JBool false); ("error", JStr e);
                       ("report", JObj failed) ],
            {| log := [ WriteReport (ReportService.report_path E (uuid4 E))
                          (JObj failed);
                        Utcnow ];
               iteration_count := 0;
               validation_history := [] |})
       | Some e' =>
           (Raised e',
            {| log := [ WriteFailed (ReportService.report_path E (uuid4 E));
                        Utcnow ];
               iteration_count := 0;
               validation_history := [] |})
       end) /\
  (exists d report s',
     ReportService.run Example.third_time Example.company_profile
       = (Returned d, s') /\
     returns_report d false report /\
     Dict.lookup "status" report = Some (JStr "failed") /\
     Dict.lookup "error" report
       = Some (JStr "SearchAgent.__init__() got an unexpected keyword argument 'api_key'") /\
     Dict.lookup "iteration_count" report = Some (JInt 0) /\
     Dict.lookup "validation_history" report = Some (JArr []) /\
     count is_generate s' = 0%nat /\
     count is_validate s' = 0%nat).
Proof.
  split.
  - intros E company_profile.
    destruct (create_agents_raises E) as (e & He & _).
    exists e. split; [ exact He | ].
    apply run_stops_at_construction, He.
  - vm_compute. do 3 eexists. repeat split; reflexivity.
Qed.

(** C2, the code at the failing input.  With a Validator that rejects
    every draft and a limit of three, where the claim has three rounds and
    the last draft accepted with status ["approved"] and three history
    entries, [generate_report] returns [success = False] and a record with
    status ["failed"], no content, [iteration_count = 0] and an empty
    history: the [TypeError] of line 68 ends the call before the first
    round. *)
Theorem exhaustion_is_never_reached :
  exists d report s',
    ReportService.run Example.never_approved Example.company_profile
      = (Returned d, s') /\
    returns_report d false report /\
    Dict.lookup "status" report = Some (JStr "failed") /\
    Dict.lookup "error" report
      = Some (JStr "SearchAgent.__init__() got an unexpected keyword argument 'api_key'") /\
    Dict.lookup "content" report = None /\
    Dict.lookup "iteration_count" report = Some (JInt 0) /\
    Dict.lookup "validation_history" report = Some (JArr []) /\
    MAX_VALIDATION_ITERATIONS Example.never_approved = 3%Z /\
    count is_generate s' = 0%nat /\
    count is_validate s' = 0%nat /\
    persisted (log s') = Some (JObj report).
Proof.
  vm_compute. do 3 eexists. repeat split; reflexivity.
Qed.



(* ------------------------------------------------------------------ *)
(** ** The Validator *)






(** Where the normal path of the Validator does return ["success": True]:
    whenever the judge's object has no key ["success"] of its own. *)
Lemma validator_reports_success (E : env) (reply : llm_reply) :
  (forall text content fields,
     reply = LlmText text ->
     strip_code_fence (PyStr.strip text) = inl content ->
     json_loads E content = Loaded (JObj fields) ->
     Dict.lookup "success" fields = None) ->
  Dict.lookup "success" (ValidatorAgent.verdict_of E reply) = Some (JBool true).
Proof.
  intros Hkey. unfold ValidatorAgent.verdict_of.
  destruct reply as [text | e]; [ | reflexivity ].
  specialize (Hkey text).
  unfold ValidatorAgent.decode_verdict.
  destruct (strip_code_fence (PyStr.strip text)) as [content | e];
    [ | reflexivity ].
  specialize (Hkey content).
  destruct (json_loads E content) as [v | msg | e]; try reflexivity.
  destruct v; try reflexivity.
  specialize (Hkey fields eq_refl eq_refl eq_refl).
  unfold ValidatorAgent.report_verdict.
  destruct (Dict.lookup "is_approved" _) as [flag | ]; [ | reflexivity ].
  assert (Hs : Dict.lookup "success"
                 (Dict.update [("success", JBool true)]
                    (Dict.setdefault "issues" (JArr [])
                       (Dict.setdefault "feedback" (JStr "Validation incomplete")
                          (Dict.setdefault "quality_score" (JInt 0)
                             (Dict.setdefault "is_approved" (JBool false)
                                fields)))))
               = Some (JBool true)).
  { rewrite lookup_update_absent; [ reflexivity | ].
    rewrite !lookup_setdefault_other by reflexivity. exact Hkey. }
  destruct (truthy flag); [ exact Hs | ].
  destruct (Dict.lookup "feedback" _) as [feedback | ]; [ | reflexivity ].
  destruct (ValidatorAgent.sliceable feedback); [ exact Hs | reflexivity ].
Qed.

(** C10, the code at the failing input.  The judge's object is spread
    over ["success": True] (line 67-70), so a key ["success"] in the judge's
    own JSON replaces it: [execute] returns ["success": False]. *)
Theorem judge_success_key_overrides :
  exists d,
    ValidatorAgent.execute Example.judge_success_key
      (draft Example.judge_success_key 0) Example.company_profile []
      initial_store
    = (Returned d,
       emit (ValidateLlm (draft Example.judge_success_key 0)) initial_store) /\
    Dict.lookup "success" d = Some (JBool false) /\
    Dict.lookup "is_approved" d = Some (JBool true).
Proof.
  eexists. split; [ vm_compute; reflexivity | ]. split; reflexivity.
Qed.

(* ------------------------------------------------------------------ *)
(** ** The Generator *)

Lemma split_aux_nonempty (sep : string) (s : string) :
  forall skip cur, PyStr.split_aux sep skip cur s <> [].
Proof.
  induction s as [ | c s IH]; intros skip cur; cbn [PyStr.split_aux];
    [ discriminate | ].
  destruct skip; [ | apply IH ].
  destruct (String.prefix sep (String c s)); [ discriminate | apply IH ].
Qed.

(** Line 144/215 never raises: a text that starts with a fence splits into
    at least two pieces. *)
Lemma strip_code_fence_returns (content : string) :
  exists inner, strip_code_fence content = inl inner.
Proof.
  unfold strip_code_fence, PyStr.startswith.
  destruct (String.prefix "```" content) eqn:Hp; [ | eauto ].
  unfold PyStr.split.
  destruct content as [ | c rest]; [ cbn in Hp; discriminate | ].
  cbn [PyStr.split_aux]. rewrite Hp. cbn [nth_error].
  pose proof (split_aux_nonempty "```" rest (String.length "```" - 1) []) as Hne.
  destruct (PyStr.split_aux "```" (String.length "```" - 1) [] rest);
    [ contradiction | ].
  cbn [nth_error]. eauto.
Qed.

(** C6, as the code has it.  A response of the model that [json.loads]
    rejects makes [_generate_report] return the minimal report, which has
    the four sections and valid risk levels; a response that [json.loads]
    accepts is returned as decoded, whatever it holds. *)
Theorem unparseable_report_falls_back (E : env) company_profile search_results
  previous_feedback s text content :
  report_llm E (count is_generate s) = LlmText text ->
  strip_code_fence (PyStr.strip text) = inl content ->
  (forall msg,
     json_loads E content = JSONDecodeError msg ->
     ReportGeneratorAgent._generate_report E company_profile search_results
       previous_feedback s
     = (Returned ReportGeneratorAgent.minimal_report,
        emit (GenerateLlm (ReportGeneratorAgent.feedback_section previous_feedback)) s) /\
     minimum_schema ReportGeneratorAgent.minimal_report = true) /\
  (forall report,
     json_loads E content = Loaded report ->
     ReportGeneratorAgent._generate_report E company_profile search_results
       previous_feedback s
     = (Returned report,
        emit (GenerateLlm (ReportGeneratorAgent.feedback_section previous_feedback)) s)).
Proof.
  intros Hreply Hfence.
  unfold ReportGeneratorAgent._generate_report, llm_call, bind, get_store, tell.
  rewrite Hreply. unfold ret. cbv beta iota.
  split; [ intros msg Hloads | intros report Hloads ].
  - assert (Hd : ReportGeneratorAgent.decode_report E text
                 = inl ReportGeneratorAgent.minimal_report).
    { unfold ReportGeneratorAgent.decode_report. rewrite Hfence, Hloads.
      reflexivity. }
    rewrite Hd. split; reflexivity.
  - assert (Hd : ReportGeneratorAgent.decode_report E text = inl report).
    { unfold ReportGeneratorAgent.decode_report. rewrite Hfence, Hloads.
      reflexivity. }
    rewrite Hd. reflexivity.
Qed.

(** The model answers in prose. *)
Lemma unparseable_report_falls_back_witness :
  ReportGeneratorAgent._generate_report Example.generator_prose
    Example.company_profile [] JNull initial_store
  = (Returned ReportGeneratorAgent.minimal_report,
     emit (GenerateLlm JNull) initial_store) /\
  minimum_schema ReportGeneratorAgent.minimal_report = true.
Proof.
  eapply (unparseable_report_falls_back Example.generator_prose
            Example.company_profile [] JNull initial_store).
  - reflexivity.
  - reflexivity.
  - vm_compute. reflexivity.
Defined.

(** C6 as stated fails: the response [{}] lacks every section, and
    [_generate_report] returns it as it is. *)
Lemma empty_object_is_not_repaired :
  ReportGeneratorAgent._generate_report Example.generator_empty_object
    Example.company_profile [] JNull initial_store
  = (Returned (JObj []), emit (GenerateLlm JNull) initial_store) /\
  minimum_schema (JObj []) = false.
Proof. split; vm_compute; reflexivity. Qed.






(* ------------------------------------------------------------------ *)
(** ** The commit steps *)




(* ------------------------------------------------------------------ *)
(** ** The Gatherer *)

Lemma run_queries_issues_all (E : env) queries :
  forall all_results s,
    exists results s',
      SearchAgent.run_queries E queries all_results s = (Returned results, s') /\
      count is_web s' = (count is_web s + List.length queries)%nat.
Proof.
  induction queries as [ | q rest IH]; intros all_results s;
    cbn [SearchAgent.run_queries List.length].
  - exists all_results, s. split; [ reflexivity | lia ].
  - unfold bind at 1. unfold get_store at 1.
    unfold bind at 1. unfold tell at 1.
    destruct (search_web E (count is_web s)) as [hits | e].
    + destruct (IH (all_results ++ hits) (emit (WebSearch q) s))
        as (results & s' & Hrun & Hcount).
      exists results, s'. split; [ exact Hrun | ].
      rewrite Hcount, count_emit. cbn. lia.
    + destruct (IH all_results (emit (WebSearch q) s))
        as (results & s' & Hrun & Hcount).
      exists results, s'. split; [ exact Hrun | ].
      rewrite Hcount, count_emit. cbn. lia.
Qed.

Lemma filter_results_returns (E : env) search_results company_profile s :
  exists filtered s',
    SearchAgent._filter_results E search_results company_profile s
      = (Returned filtered, s') /\
    count is_web s' = count is_web s.
Proof.
  unfold SearchAgent._filter_results.
  destruct (_ <=? _)%nat; [ exists search_results, s; split; reflexivity | ].
  unfold try_except, llm_call, bind, get_store, tell.
  destruct (search_llm E (count is_search_llm s)) as [text | e]; cbn.
  - destruct (SearchAgent.decode_ranking E search_results text); cbn;
      eexists _, _; split; reflexivity.
  - eexists _, _; split; reflexivity.
Qed.

(** C8, as the code has it.  When the text of the query model is not JSON,
    or is JSON but not a list, the Gatherer takes the three fixed queries
    and issues a web search for each of them; when the call of the query
    model raises, [execute] returns [success = False] with no result, and
    no search was issued. *)
Theorem queries_fall_back_on_unusable_text (E : env) company_profile s text :
  search_llm E (count is_search_llm s) = LlmText text ->
  unusable_queries E text ->
  SearchAgent._generate_search_queries E company_profile s
  = (Returned
       [ JStr ("logistics regulations "
               ++ str E (Dict.get "company_name" JNull company_profile)
               ++ " 2024");
         JStr "EU transport law changes 2024";
         JStr "cross-border cargo requirements Europe" ],
     emit QueryLlm s) /\
  (exists r s',
     SearchAgent.execute E company_profile s = (Returned r, s') /\
     count is_web s' = (count is_web s + 3)%nat) /\
  (forall E' s0 e,
     search_llm E' (count is_search_llm s0) = LlmRaises e ->
     SearchAgent.execute E' company_profile s0
     = (Returned {| sr_success := false; sr_error := Some e;
                    sr_search_results := []; sr_queries_used := None |},
        emit QueryLlm s0)).
Proof.
  intros Hreply Hbad.
  assert (Hq : SearchAgent._generate_search_queries E company_profile s
               = (Returned (SearchAgent.fallback_queries E company_profile),
                  emit QueryLlm s)).
  { unfold SearchAgent._generate_search_queries, llm_call, bind, get_store, tell,
      SearchAgent.decode_queries.
    rewrite Hreply. unfold ret. cbv beta iota.
    unfold unusable_queries in Hbad.
    destruct (json_loads E (PyStr.strip text)) as [v | msg | e];
      [ destruct v | | ]; try contradiction; reflexivity. }
  split; [ exact Hq | ]. split.
  - unfold SearchAgent.execute, try_except.
    unfold bind at 1. rewrite Hq.
    unfold bind at 1. unfold SearchAgent._execute_searches. unfold bind at 1.
    destruct (run_queries_issues_all E
                (SearchAgent.fallback_queries E company_profile) []
                (emit QueryLlm s))
      as (results & s1 & Hrun & Hcount).
    rewrite Hrun. rewrite count_emit in Hcount. cbn in Hcount.
    destruct (SearchAgent.deduplicate [] results) as [unique | e]; cbn.
    + destruct (filter_results_returns E unique company_profile s1)
        as (filtered & s2 & Hf & Hc2).
      unfold bind at 1. rewrite Hf. cbn.
      eexists _, _. split; [ reflexivity | ]. lia.
    + eexists _, _. split; [ reflexivity | ]. lia.
  - intros E' s0 e He.
    unfold SearchAgent.execute, try_except,
      SearchAgent._generate_search_queries, llm_call, bind, get_store, tell.
    rewrite He. reflexivity.
Qed.

(** The query model answers in prose. *)
Lemma queries_fall_back_on_unusable_text_witness :
  SearchAgent._generate_search_queries Example.queries_prose
    Example.company_profile initial_store
  = (Returned
       [ JStr "logistics regulations Acme Freight 2024";
         JStr "EU transport law changes 2024";
         JStr "cross-border cargo requirements Europe" ],
     emit QueryLlm initial_store) /\
  (exists r s',
     SearchAgent.execute Example.queries_prose Example.company_profile
       initial_store = (Returned r, s') /\
     count is_web s' = 3%nat).
Proof.
  destruct (queries_fall_back_on_unusable_text Example.queries_prose
              Example.company_profile initial_store "Here are some queries.")
    as (Hq & Hrun & _).
  - reflexivity.
  - vm_compute. exact I.
  - split; [ exact Hq | exact Hrun ].
Defined.

(** C8 as stated fails: when the call of the query model raises, and when
    the model answers with an empty list, no fallback query is taken and no
    search is issued. *)
Lemma no_fallback_on_failure_or_empty_list :
  (exists r s',
     SearchAgent.execute Example.queries_down Example.company_profile
       initial_store = (Returned r, s') /\
     sr_success r = false /\ sr_queries_used r = None /\
     count is_web s' = 0%nat) /\
  (exists r s',
     SearchAgent.execute Example.queries_empty Example.company_profile
       initial_store = (Returned r, s') /\
     sr_success r = true /\ sr_queries_used r = Some [] /\
     count is_web s' = 0%nat).
Proof.
  split; eexists _, _; (split; [ vm_compute; reflexivity | ]);
    repeat split; reflexivity.
Qed.

(** Lines 131-136 keep one hit per URL, none of them seen before. *)
Lemma deduplicate_nodup (all_results : list hit) :
  forall seen_urls unique_results,
    SearchAgent.deduplicate seen_urls all_results = inl unique_results ->
    NoDup (urls unique_results) /\
    (forall u, In u seen_urls -> ~ In (Some u) (urls unique_results)).
Proof.
  induction all_results as [ | result rest IH]; intros seen out H; cbn in H.
  - inversion H; subst. split; [ constructor | intros u _ [] ].
  - destruct (hit_get "url" result) as [u | ] eqn:Hu; [ | discriminate ].
    destruct (existsb (String.eqb u) seen) eqn:Hseen.
    + apply IH, H.
    + destruct (SearchAgent.deduplicate (u :: seen) rest) as [out' | e] eqn:Hrest;
        [ | discriminate ].
      inversion H; subst. destruct (IH _ _ Hrest) as [Hnodup Hfresh].
      unfold urls in *. cbn [map]. rewrite Hu. split.
      * constructor; [ | exact Hnodup ]. apply Hfresh. left. reflexivity.
      * intros u' Hin [Heq | Hin'].
        -- inversion Heq; subst.
           assert (existsb (String.eqb u') seen = true).
           { apply existsb_exists. exists u'. split;
               [ exact Hin | apply String.eqb_refl ]. }
           congruence.
        -- apply (Hfresh u'); [ right; exact Hin | exact Hin' ].
Qed.

(** Without the ranking pass the Gatherer's results have no URL twice. *)
Lemma execute_searches_nodup (E : env) queries s unique_results s' :
  SearchAgent._execute_searches E queries s = (Returned unique_results, s') ->
  NoDup (urls unique_results).
Proof.
  unfold SearchAgent._execute_searches. intros H.
  apply bind_inv in H as [(rs & s1 & _ & H) | [(e & _ & H) | (_ & H)]];
    try discriminate.
  destruct (SearchAgent.deduplicate [] rs) as [out | e] eqn:Hd; cbn in H;
    inversion H; subst.
  apply (deduplicate_nodup _ _ _ Hd).
Qed.

(** C5, the code at the failing input.  Four queries bring twenty hits
    with twenty URLs, so the ranking pass is taken; the ranking model names
    one URL twice, and lines 175-177 append its hit once per mention:
    [execute] returns two hits with the same URL. *)
Theorem ranking_repeats_a_url :
  exists r s',
    SearchAgent.execute Example.ranking_repeats Example.company_profile
      initial_store = (Returned r, s') /\
    sr_success r = true /\
    sr_search_results r
    = [ Example.page "https://example.com/0";
        Example.page "https://example.com/0" ] /\
    ~ NoDup (urls (sr_search_results r)).
Proof.
  eexists _, _. split; [ vm_compute; reflexivity | ].
  split; [ reflexivity | ]. split; [ reflexivity | ].
  cbn. intros H. inversion H as [ | x l Hin _]; subst. apply Hin. left. reflexivity.
Qed.

(* ------------------------------------------------------------------ *)
(** ** More on the Gatherer *)

Import Searches.

Lemma run_queries_gathers (E : env) queries :
  forall all_results s,
    SearchAgent.run_queries E queries all_results s
    = (Returned (all_results ++ gathered E (count is_web s) (List.length queries)),
       searched queries s).
Proof.
  induction queries as [ | q rest IH]; intros all_results s;
    cbn [SearchAgent.run_queries List.length gathered].
  - unfold ret, searched. cbn. rewrite app_nil_r. destruct s; reflexivity.
  - unfold bind at 1. unfold get_store at 1.
    unfold bind at 1. unfold tell at 1.
    assert (Hs : searched rest (emit (WebSearch q) s) = searched (q :: rest) s).
    { unfold searched, emit. cbn. rewrite <- app_assoc. reflexivity. }
    assert (Hc : count is_web (emit (WebSearch q) s) = S (count is_web s)).
    { rewrite count_emit. reflexivity. }
    destruct (search_web E (count is_web s)) as [hits | e];
      rewrite IH, Hs, Hc; cbn [hits_of].
    + rewrite <- app_assoc. reflexivity.
    + reflexivity.
Qed.

(** X1.  [_execute_searches] issues one search per query, in the order of
    the queries; a search that raises adds nothing and stops nothing; the
    hits of the others are joined in order and deduplicated. *)
Theorem searches_skip_failures (E : env) queries s :
  SearchAgent._execute_searches E queries s
  = (match SearchAgent.deduplicate []
             (gathered E (count is_web s) (List.length queries)) with
     | inl unique_results => Returned unique_results
     | inr e => Raised e
     end,
     searched queries s).
Proof.
  unfold SearchAgent._execute_searches. unfold bind.
  rewrite run_queries_gathers. cbn [app].
  destruct (SearchAgent.deduplicate [] _); reflexivity.
Qed.

Lemma deduplicate_subsequence (all_results : list hit) :
  forall seen unique_results,
    SearchAgent.deduplicate seen all_results = inl unique_results ->
    subsequence unique_results all_results.
Proof.
  induction all_results as [ | r rest IH]; intros seen out H; cbn in H.
  - inversion H. constructor.
  - destruct (hit_get "url" r) as [u | ]; [ | discriminate ].
    destruct (existsb (String.eqb u) seen).
    + constructor. eapply IH. exact H.
    + destruct (SearchAgent.deduplicate (u :: seen) rest) as [out' | e] eqn:Hrest;
        [ | discriminate ].
      inversion H; subst. constructor. eapply IH. exact Hrest.
Qed.

Lemma existsb_eqb_in (u : string) (l : list string) :
  existsb (String.eqb u) l = true <-> In u l.
Proof.
  rewrite existsb_exists. split.
  - intros (x & Hin & Heq). apply String.eqb_eq in Heq. subst. exact Hin.
  - intros Hin. exists u. split; [ exact Hin | apply String.eqb_refl ].
Qed.

Lemma deduplicate_complete (all_results : list hit) :
  forall seen unique_results,
    SearchAgent.deduplicate seen all_results = inl unique_results ->
    forall u, In (Some u) (urls all_results) ->
              In u seen \/ In (Some u) (urls unique_results).
Proof.
  induction all_results as [ | r rest IH]; intros seen out H u Hin; cbn in H.
  - destruct Hin.
  - destruct (hit_get "url" r) as [u0 | ] eqn:Hu; [ | discriminate ].
    unfold urls in Hin. cbn [map] in Hin. rewrite Hu in Hin.
    destruct (existsb (String.eqb u0) seen) eqn:Hseen.
    + destruct Hin as [Heq | Hin].
      * inversion Heq; subst. left. apply existsb_eqb_in. exact Hseen.
      * eapply IH; eassumption.
    + destruct (SearchAgent.deduplicate (u0 :: seen) rest) as [out' | e] eqn:Hrest;
        [ | discriminate ].
      inversion H; subst. unfold urls. cbn [map]. rewrite Hu.
      destruct Hin as [Heq | Hin].
      * inversion Heq; subst. right. left. reflexivity.
      * destruct (IH _ _ Hrest u Hin) as [[Heq | Hs] | Hout].
        -- subst. right. left. reflexivity.
        -- left. exact Hs.
        -- right. right. exact Hout.
Qed.

Lemma deduplicate_first (all_results : list hit) :
  forall seen unique_results,
    SearchAgent.deduplicate seen all_results = inl unique_results ->
    forall r u,
      In r unique_results -> hit_get "url" r = Some u ->
      find (has_url u) all_results = Some r.
Proof.
  induction all_results as [ | r0 rest IH]; intros seen out H r u Hin Hr; cbn in H.
  - inversion H; subst. destruct Hin.
  - destruct (hit_get "url" r0) as [u0 | ] eqn:Hu0; [ | discriminate ].
    cbn [find]. unfold has_url at 1. rewrite Hu0.
    destruct (existsb (String.eqb u0) seen) eqn:Hseen.
    + destruct (String.eqb u u0) eqn:Heq.
      * apply String.eqb_eq in Heq. subst u0.
        destruct (deduplicate_nodup _ _ _ H) as [_ Hfresh].
        exfalso. apply (Hfresh u).
        -- apply existsb_eqb_in. exact Hseen.
        -- unfold urls. rewrite <- Hr. apply in_map. exact Hin.
      * eapply IH; eassumption.
    + destruct (SearchAgent.deduplicate (u0 :: seen) rest) as [out' | e] eqn:Hrest;
        [ | discriminate ].
      inversion H; subst. destruct Hin as [Heq | Hin].
      * subst r0. rewrite Hr in Hu0. inversion Hu0; subst.
        rewrite String.eqb_refl. reflexivity.
      * destruct (String.eqb u u0) eqn:Heq.
        -- apply String.eqb_eq in Heq. subst u0.
           destruct (deduplicate_nodup _ _ _ Hrest) as [_ Hfresh].
           exfalso. apply (Hfresh u); [ left; reflexivity | ].
           unfold urls. rewrite <- Hr. apply in_map. exact Hin.
        -- eapply IH; eassumption.
Qed.

(** X2.  The deduplication of lines 131-136 keeps, for every URL that
    arrived, exactly the first hit that carried it, in the order of arrival:
    the result has no URL twice, every arriving URL is in it, each of its hits
    is the first arriving hit with its URL, and it is the arriving list with
    some hits left out. *)
Theorem deduplicate_keeps_first_hit_per_url (all_results unique_results : list hit) :
  SearchAgent.deduplicate [] all_results = inl unique_results ->
  NoDup (urls unique_results) /\
  (forall u, In (Some u) (urls all_results) <-> In (Some u) (urls unique_results)) /\
  (forall r u, In r unique_results -> hit_get "url" r = Some u ->
               find (has_url u) all_results = Some r) /\
  subsequence unique_results all_results.
Proof.
  intros H. split; [ apply (deduplicate_nodup _ _ _ H) | ].
  split; [ | split; [ eapply deduplicate_first; exact H
                    | eapply deduplicate_subsequence; exact H ] ].
  intros u. split.
  - intros Hin. destruct (deduplicate_complete _ _ _ H u Hin) as [[] | Hout].
    exact Hout.
  - intros Hin. unfold urls in *. apply in_map_iff in Hin as (r & Hr & Hin).
    pose proof (deduplicate_first _ _ _ H r u Hin Hr) as Hfind.
    apply find_some in Hfind as [Hin' Hurl].
    unfold has_url in Hurl. apply in_map_iff. exists r. split; [ exact Hr | exact Hin' ].
Qed.

(** Two queries bring the same three pages. *)
Lemma deduplicate_keeps_first_hit_per_url_witness :
  NoDup (urls [ Example.page "https://example.com/a";
                Example.page "https://example.com/b";
                Example.page "https://example.com/c" ]).
Proof.
  apply (deduplicate_keeps_first_hit_per_url
           (gathered (Example.quiet 3 (fun _ => LlmRaises "") (fun _ => LlmRaises ""))
              0 2)).
  vm_compute. reflexivity.
Defined.

(** *** Hits without a URL *)

Lemma deduplicate_raises_key_error (all_results : list hit) :
  forall seen e,
    SearchAgent.deduplicate seen all_results = inr e -> e = "'url'".
Proof.
  induction all_results as [ | r rest IH]; intros seen e H; cbn in H.
  - discriminate.
  - destruct (hit_get "url" r) as [u | ]; [ | inversion H; reflexivity ].
    destruct (existsb (String.eqb u) seen); [ eapply IH; exact H | ].
    destruct (SearchAgent.deduplicate (u :: seen) rest) as [out | e'] eqn:Hrest;
      [ discriminate | ].
    inversion H; subst. eapply IH. exact Hrest.
Qed.

Lemma deduplicate_needs_urls (all_results : list hit) :
  forall seen unique_results,
    SearchAgent.deduplicate seen all_results = inl unique_results ->
    forall r, In r all_results -> hit_get "url" r <> None.
Proof.
  induction all_results as [ | r0 rest IH]; intros seen out H r Hin; cbn in H.
  - destruct Hin.
  - destruct (hit_get "url" r0) as [u | ] eqn:Hu; [ | discriminate ].
    destruct Hin as [Heq | Hin]; [ subst; congruence | ].
    destruct (existsb (String.eqb u) seen); [ eapply IH; eassumption | ].
    destruct (SearchAgent.deduplicate (u :: seen) rest) as [out' | e] eqn:Hrest;
      [ | discriminate ].
    eapply IH; eassumption.
Qed.

(** X3.  One hit without a [url] key among the hits of all searches makes
    [_execute_searches] raise [KeyError: 'url'] after every search was
    issued, and [execute] then reports the whole search as failed, with no
    result at all. *)
Theorem hit_without_url_fails_the_search
  (E : env) company_profile s text queries r :
  search_llm E (count is_search_llm s) = LlmText text ->
  SearchAgent.decode_queries E company_profile text = inl queries ->
  In r (gathered E (count is_web s) (List.length queries)) ->
  hit_get "url" r = None ->
  SearchAgent._execute_searches E queries (emit QueryLlm s)
  = (Raised "'url'", searched queries (emit QueryLlm s)) /\
  SearchAgent.execute E company_profile s
  = (Returned {| sr_success := false; sr_error := Some "'url'";
                 sr_search_results := []; sr_queries_used := None |},
     searched queries (emit QueryLlm s)).
Proof.
  intros Hreply Hqueries Hin Hurl.
  assert (Hsearch :
    SearchAgent._execute_searches E queries (emit QueryLlm s)
    = (Raised "'url'", searched queries (emit QueryLlm s))).
  { unfold SearchAgent._execute_searches. unfold bind.
    rewrite run_queries_gathers. cbn [app].
    rewrite count_emit. cbn [is_web Nat.add].
    destruct (SearchAgent.deduplicate [] _) as [out | e] eqn:Hd.
    - exfalso. exact (deduplicate_needs_urls _ _ _ Hd r Hin Hurl).
    - apply deduplicate_raises_key_error in Hd. subst. reflexivity. }
  split; [ exact Hsearch | ].
  unfold SearchAgent.execute, try_except.
  unfold bind at 1. unfold SearchAgent._generate_search_queries.
  unfold bind at 1. unfold llm_call. unfold bind at 1. unfold get_store at 1.
  unfold bind at 1. unfold tell at 1. rewrite Hreply.
  unfold ret at 1. cbv beta iota. rewrite Hqueries. unfold lift, ret at 1.
  cbv beta iota. unfold bind at 1. rewrite Hsearch. reflexivity.
Qed.

(** *** The selection *)

Lemma firstn_In {A : Type} (n : nat) (l : list A) (x : A) :
  In x (firstn n l) -> In x l.
Proof.
  revert n. induction l as [ | y l IH]; intros n Hin; destruct n; cbn in Hin;
    try contradiction.
  destruct Hin as [Heq | Hin]; [ left; exact Heq | right; eapply IH; exact Hin ].
Qed.

Lemma find_app_first {A : Type} (f : A -> bool) (l1 l2 : list A) :
  find f (l1 ++ l2)
  = match find f l1 with Some x => Some x | None => find f l2 end.
Proof.
  induction l1 as [ | x l1 IH]; cbn; [ reflexivity | ].
  destruct (f x); [ reflexivity | exact IH ].
Qed.

Lemma table_get_none (u : string) (table : list (string * hit)) :
  existsb (fun kv => String.eqb u (fst kv)) table = false <->
  SearchAgent.table_get u table = None.
Proof.
  induction table as [ | [k r] table IH]; cbn; [ tauto | ].
  destruct (String.eqb u k); cbn; [ split; discriminate | exact IH ].
Qed.

(** The dictionary of line 173 holds, under each URL, the last hit with it. *)
Lemma table_get_last (search_results : list hit) :
  forall table u,
    SearchAgent.url_to_result search_results = inl table ->
    SearchAgent.table_get u table = find (has_url u) (rev search_results).
Proof.
  induction search_results as [ | r rest IH]; intros table u H; cbn in H.
  - inversion H; subst. reflexivity.
  - destruct (hit_get "url" r) as [u0 | ] eqn:Hu0; [ | discriminate ].
    destruct (SearchAgent.url_to_result rest) as [table' | e]; [ | discriminate ].
    inversion H; subst; clear H.
    cbn [rev]. rewrite find_app_first, <- (IH table' u eq_refl).
    cbn [find]. unfold has_url. rewrite Hu0.
    destruct (existsb (fun kv => String.eqb u0 (fst kv)) table') eqn:Hin.
    + destruct (SearchAgent.table_get u table') as [r' | ] eqn:Hget;
        [ reflexivity | ].
      destruct (String.eqb u u0) eqn:Heq; [ | reflexivity ].
      apply String.eqb_eq in Heq. subst u0.
      apply table_get_none in Hget. congruence.
    + cbn [SearchAgent.table_get].
      destruct (String.eqb u u0) eqn:Heq.
      * apply String.eqb_eq in Heq. subst u0.
        apply table_get_none in Hin. rewrite Hin. reflexivity.
      * destruct (SearchAgent.table_get u table'); reflexivity.
Qed.

Lemma table_get_hit (search_results : list hit) table u r :
  SearchAgent.url_to_result search_results = inl table ->
  SearchAgent.table_get u table = Some r ->
  In r search_results /\ hit_get "url" r = Some u.
Proof.
  intros Htable Hget. rewrite (table_get_last _ _ u Htable) in Hget.
  apply find_some in Hget as [Hin Hurl]. split.
  - apply in_rev. exact Hin.
  - unfold has_url in Hurl. destruct (hit_get "url" r) as [u' | ];
      [ | discriminate ].
    apply String.eqb_eq in Hurl. subst. reflexivity.
Qed.

Lemma url_to_result_fails_without_url (search_results : list hit) r :
  In r search_results -> hit_get "url" r = None ->
  SearchAgent.url_to_result search_results = inr "'url'".
Proof.
  induction search_results as [ | r0 rest IH]; intros Hin Hurl; [ destruct Hin | ].
  cbn. destruct Hin as [Heq | Hin].
  - subst. rewrite Hurl. reflexivity.
  - rewrite (IH Hin Hurl). destruct (hit_get "url" r0); reflexivity.
Qed.

Lemma url_to_result_succeeds (search_results : list hit) :
  (forall r, In r search_results -> hit_get "url" r <> None) ->
  exists table, SearchAgent.url_to_result search_results = inl table.
Proof.
  induction search_results as [ | r rest IH]; intros Hall; cbn.
  - eexists; reflexivity.
  - destruct (hit_get "url" r) as [u | ] eqn:Hu.
    + destruct IH as [table Htable]; [ intros; apply Hall; right; assumption | ].
      rewrite Htable. eexists; reflexivity.
    + exfalso. apply (Hall r); [ left; reflexivity | exact Hu ].
Qed.

Lemma reorder_picks (table : list (string * hit)) (ranked : list json) :
  forall filtered,
    SearchAgent.reorder table ranked = inl filtered ->
    forall r, In r filtered ->
      exists u, In (JStr u) ranked /\ SearchAgent.table_get u table = Some r.
Proof.
  induction ranked as [ | url rest IH]; intros filtered H r Hin; cbn in H.
  - inversion H; subst. destruct Hin.
  - destruct url as [ | b | z | f | u | items | fields ];
      try (destruct (IH _ H r Hin) as (u' & Hu' & Hget);
           exists u'; split; [ right; exact Hu' | exact Hget ]);
      try discriminate.
    destruct (SearchAgent.reorder table rest) as [filtered' | e] eqn:Hrest;
      [ | discriminate ].
    inversion H; subst; clear H.
    destruct (SearchAgent.table_get u table) as [r0 | ] eqn:Hget.
    + destruct Hin as [Heq | Hin].
      * subst. exists u. split; [ left; reflexivity | exact Hget ].
      * destruct (IH _ eq_refl r Hin) as (u' & Hu' & Hget').
        exists u'. split; [ right; exact Hu' | exact Hget' ].
    + destruct (IH _ eq_refl r Hin) as (u' & Hu' & Hget').
      exists u'. split; [ right; exact Hu' | exact Hget' ].
Qed.

Lemma reorder_unhashable (table : list (string * hit)) (ranked : list json) :
  existsb unhashable ranked = true ->
  exists e, SearchAgent.reorder table ranked = inr e.
Proof.
  induction ranked as [ | url rest IH]; cbn; [ discriminate | ].
  intros H. destruct url; cbn in H; try (apply IH; exact H);
    try (eexists; reflexivity).
  destruct (IH H) as [e He]. rewrite He. eexists; reflexivity.
Qed.

Lemma reorder_strings (table : list (string * hit)) (us : list string) :
  SearchAgent.reorder table (map JStr us)
  = inl (flat_map (fun u => match SearchAgent.table_get u table with
                            | Some r => [r]
                            | None => []
                            end) us).
Proof.
  induction us as [ | u us IH]; cbn; [ reflexivity | ].
  rewrite IH. destruct (SearchAgent.table_get u table); reflexivity.
Qed.

Lemma reorder_nodup (search_results : list hit) table (ranked : list json) :
  SearchAgent.url_to_result search_results = inl table ->
  NoDup ranked ->
  forall filtered,
    SearchAgent.reorder table ranked = inl filtered ->
    NoDup (urls filtered).
Proof.
  intros Htable. induction ranked as [ | url rest IH]; intros Hnd filtered H;
    cbn in H.
  - inversion H; subst. constructor.
  - inversion Hnd as [ | ? ? Hnotin Hnd']; subst.
    destruct url as [ | b | z | f | u | items | fields ];
      try (apply (IH Hnd' _ H)); try discriminate.
    destruct (SearchAgent.reorder table rest) as [filtered' | e] eqn:Hrest;
      [ | discriminate ].
    inversion H; subst; clear H.
    destruct (SearchAgent.table_get u table) as [r0 | ] eqn:Hget;
      [ | apply (IH Hnd' _ eq_refl) ].
    unfold urls. cbn [map]. constructor; [ | apply (IH Hnd' _ eq_refl) ].
    destruct (table_get_hit _ _ _ _ Htable Hget) as [_ Hurl0]. rewrite Hurl0.
    intros Hin. apply in_map_iff in Hin as (r' & Hurl' & Hin').
    destruct (reorder_picks _ _ _ Hrest r' Hin') as (u' & Hu' & Hget').
    destruct (table_get_hit _ _ _ _ Htable Hget') as [_ Hurl''].
    rewrite Hurl' in Hurl''. inversion Hurl''; subst. contradiction.
Qed.

Lemma nodup_firstn {A : Type} (n : nat) (l : list A) :
  NoDup l -> NoDup (firstn n l).
Proof.
  revert n. induction l as [ | x l IH]; intros n Hnd; destruct n; cbn;
    try constructor.
  - inversion Hnd; subst. intros Hin. apply firstn_In in Hin. contradiction.
  - inversion Hnd; subst. apply IH. assumption.
Qed.

Lemma urls_firstn (n : nat) (hits : list hit) :
  urls (firstn n hits) = firstn n (urls hits).
Proof. unfold urls. symmetry. apply firstn_map. Qed.

Lemma filter_results_run (E : env) search_results company_profile s :
  (List.length search_results <=? 15)%nat = false ->
  SearchAgent._filter_results E search_results company_profile s
  = (Returned
       match search_llm E (count is_search_llm s) with
       | LlmText text =>
           match SearchAgent.decode_ranking E search_results text with
           | inl filtered => filtered
           | inr _ => firstn 15 search_results
           end
       | LlmRaises _ => firstn 15 search_results
       end,
     emit RankLlm s).
Proof.
  intros Hlen. unfold SearchAgent._filter_results. rewrite Hlen.
  unfold try_except, llm_call, bind, get_store, tell.
  destruct (search_llm E (count is_search_llm s)) as [text | e]; cbn.
  - destruct (SearchAgent.decode_ranking E search_results text); reflexivity.
  - reflexivity.
Qed.

Lemma decode_ranking_picks (E : env) search_results text filtered :
  SearchAgent.decode_ranking E search_results text = inl filtered ->
  (List.length filtered <= 15)%nat /\
  forall r, In r filtered -> In r search_results.
Proof.
  unfold SearchAgent.decode_ranking.
  destruct (json_loads E (PyStr.strip text)) as [v | msg | e]; try discriminate.
  destruct (SearchAgent.url_to_result search_results) as [table | e] eqn:Htable;
    [ | discriminate ].
  destruct (SearchAgent.iterate v) as [ranked | ]; [ | discriminate ].
  destruct (SearchAgent.reorder table ranked) as [out | e] eqn:Hout;
    [ | discriminate ].
  intros H. assert (Hf : filtered = firstn 15 out) by congruence.
  clear H. subst filtered. split; [ apply firstn_le_length | ].
  intros r Hin. apply firstn_In in Hin.
  destruct (reorder_picks _ _ _ Hout r Hin) as (u & _ & Hget).
  apply (table_get_hit _ _ _ _ Htable Hget).
Qed.

Lemma filter_results_selects_bounds (E : env) search_results company_profile s :
  exists filtered s',
    SearchAgent._filter_results E search_results company_profile s
    = (Returned filtered, s') /\
    (List.length filtered <= 15)%nat /\
    (s' = s \/ s' = emit RankLlm s).
Proof.
  destruct (List.length search_results <=? 15)%nat eqn:Hlen.
  - exists search_results, s. unfold SearchAgent._filter_results. rewrite Hlen.
    apply Nat.leb_le in Hlen. repeat split; [ exact Hlen | left; reflexivity ].
  - rewrite (filter_results_run _ _ _ _ Hlen). eexists _, _.
    split; [ reflexivity | ]. split; [ | right; reflexivity ].
    destruct (search_llm E (count is_search_llm s)) as [text | e];
      [ | apply firstn_le_length ].
    destruct (SearchAgent.decode_ranking E search_results text) eqn:Hd;
      [ apply (decode_ranking_picks _ _ _ _ Hd) | apply firstn_le_length ].
Qed.

(** X4.  [_filter_results] always returns, at most 15 hits and only hits it
    was given; up to 15 hits come back unchanged without a call of the
    model, and more than 15 cost exactly one call. *)
Theorem filter_results_selects_at_most_15 (E : env) search_results company_profile s :
  exists filtered s',
    SearchAgent._filter_results E search_results company_profile s
    = (Returned filtered, s') /\
    (List.length filtered <= 15)%nat /\
    (forall r, In r filtered -> In r search_results) /\
    ((List.length search_results <= 15)%nat ->
     filtered = search_results /\ s' = s) /\
    ((15 < List.length search_results)%nat -> s' = emit RankLlm s).
Proof.
  destruct (List.length search_results <=? 15)%nat eqn:Hlen.
  - apply Nat.leb_le in Hlen. exists search_results, s.
    unfold SearchAgent._filter_results.
    replace (List.length search_results <=? 15)%nat with true
      by (symmetry; apply Nat.leb_le; exact Hlen).
    repeat split; try assumption; try lia. intros r Hr; exact Hr.
  - rewrite (filter_results_run _ _ _ _ Hlen). apply Nat.leb_gt in Hlen.
    eexists _, _. split; [ reflexivity | ].
    assert (Hfirst : (List.length (firstn 15 search_results) <= 15)%nat /\
                     forall r, In r (firstn 15 search_results) ->
                               In r search_results).
    { split; [ apply firstn_le_length | intros r Hr; eapply firstn_In; exact Hr ]. }
    split; [ | split; [ | split; [ intros; lia | reflexivity ] ] ].
    + destruct (search_llm E (count is_search_llm s)) as [text | e];
        [ | apply Hfirst ].
      destruct (SearchAgent.decode_ranking E search_results text) eqn:Hd;
        [ apply (decode_ranking_picks _ _ _ _ Hd) | apply Hfirst ].
    + destruct (search_llm E (count is_search_llm s)) as [text | e];
        [ | apply Hfirst ].
      destruct (SearchAgent.decode_ranking E search_results text) eqn:Hd;
        [ apply (decode_ranking_picks _ _ _ _ Hd) | apply Hfirst ].
Qed.

(** X5.  With more than 15 hits, [_filter_results] returns the first 15 of
    them, in their order, whenever the ranking cannot be used: the call of
    the model raises, its text does not decode to something iterable, the
    decoded value names a list or a dictionary, or one of the hits has no
    [url] key. *)
Theorem filter_results_falls_back_to_first_15
  (E : env) search_results company_profile s :
  (15 < List.length search_results)%nat ->
  (exists e, search_llm E (count is_search_llm s) = LlmRaises e) \/
  (exists text, search_llm E (count is_search_llm s) = LlmText text /\
                ranking_unusable E text) \/
  (exists r, In r search_results /\ hit_get "url" r = None) ->
  SearchAgent._filter_results E search_results company_profile s
  = (Returned (firstn 15 search_results), emit RankLlm s).
Proof.
  intros Hlen Hcase. apply Nat.leb_gt in Hlen.
  rewrite (filter_results_run _ _ _ _ Hlen).
  destruct Hcase as [[e He] | [(text & Htext & Hbad) | (r & Hin & Hurl)]].
  - rewrite He. reflexivity.
  - rewrite Htext. unfold ranking_unusable in Hbad.
    unfold SearchAgent.decode_ranking.
    destruct (json_loads E (PyStr.strip text)) as [v | msg | e];
      try reflexivity.
    destruct (SearchAgent.url_to_result search_results) as [table | e];
      [ | reflexivity ].
    destruct (SearchAgent.iterate v) as [ranked | ]; [ | reflexivity ].
    destruct (reorder_unhashable table ranked Hbad) as [e He]. rewrite He.
    reflexivity.
  - destruct (search_llm E (count is_search_llm s)) as [text | e];
      [ | reflexivity ].
    unfold SearchAgent.decode_ranking.
    destruct (json_loads E (PyStr.strip text)) as [v | msg | e];
      try reflexivity.
    rewrite (url_to_result_fails_without_url _ _ Hin Hurl). reflexivity.
Qed.

(** Every search brings a page without a URL. *)
Lemma hit_without_url_fails_the_search_witness :
  SearchAgent.execute Scenario.hit_lacks_url Example.company_profile initial_store
  = (Returned {| sr_success := false; sr_error := Some "'url'";
                 sr_search_results := []; sr_queries_used := None |},
     searched [ JStr "EU mobility package 2024"; JStr "DE FR customs" ]
       (emit QueryLlm initial_store)).
Proof.
  apply (hit_without_url_fails_the_search Scenario.hit_lacks_url
           Example.company_profile initial_store Example.queries_text
           [ JStr "EU mobility package 2024"; JStr "DE FR customs" ]
           Scenario.page_without_url).
  - reflexivity.
  - vm_compute. reflexivity.
  - vm_compute. right. left. reflexivity.
  - reflexivity.
Defined.

(** Twenty hits, and the call of the ranking model raises. *)
Lemma filter_results_falls_back_to_first_15_witness :
  SearchAgent._filter_results Example.queries_down Scenario.twenty_pages
    Example.company_profile initial_store
  = (Returned (firstn 15 Scenario.twenty_pages), emit RankLlm initial_store).
Proof.
  apply (filter_results_falls_back_to_first_15 Example.queries_down
           Scenario.twenty_pages Example.company_profile initial_store).
  - vm_compute. lia.
  - left. exists "Connection error.". reflexivity.
Defined.

(** X6.  With more than 15 hits that all have a URL, and a ranking text that
    decodes to a list of strings, [_filter_results] returns the hits in the
    order of the ranking: for each named URL the last given hit that has it,
    URLs that no hit has skipped, the first 15 of these. *)
Theorem ranking_orders_the_hits
  (E : env) search_results company_profile s text v us :
  (15 < List.length search_results)%nat ->
  (forall r, In r search_results -> hit_get "url" r <> None) ->
  search_llm E (count is_search_llm s) = LlmText text ->
  json_loads E (PyStr.strip text) = Loaded v ->
  SearchAgent.iterate v = Some (map JStr us) ->
  SearchAgent._filter_results E search_results company_profile s
  = (Returned (firstn 15 (flat_map (last_with_url search_results) us)),
     emit RankLlm s).
Proof.
  intros Hlen Hurls Hreply Hloads Hiter. apply Nat.leb_gt in Hlen.
  rewrite (filter_results_run _ _ _ _ Hlen), Hreply.
  unfold SearchAgent.decode_ranking. rewrite Hloads.
  destruct (url_to_result_succeeds _ Hurls) as [table Htable].
  rewrite Htable, Hiter, reorder_strings.
  do 3 f_equal. apply flat_map_ext. intros u. unfold last_with_url.
  rewrite (table_get_last _ _ u Htable). reflexivity.
Qed.

(** Twenty hits; the ranking names the pages 7, 3, an unknown one and 12. *)
Lemma ranking_orders_the_hits_witness :
  SearchAgent._filter_results Scenario.ranking_in_order Scenario.twenty_pages
    Example.company_profile (emit QueryLlm initial_store)
  = (Returned [ Example.page "https://example.com/7";
                Example.page "https://example.com/3";
                Example.page "https://example.com/12" ],
     emit RankLlm (emit QueryLlm initial_store)).
Proof.
  apply (ranking_orders_the_hits Scenario.ranking_in_order Scenario.twenty_pages
           Example.company_profile (emit QueryLlm initial_store)
           Scenario.ranking_text
           (JArr [ JStr "https://example.com/7"; JStr "https://example.com/3";
                   JStr "https://example.com/none"; JStr "https://example.com/12" ])
           [ "https://example.com/7"; "https://example.com/3";
             "https://example.com/none"; "https://example.com/12" ]).
  - vm_compute. lia.
  - intros r Hin. vm_compute in Hin.
    repeat (destruct Hin as [<- | Hin]; [ discriminate | ]). destruct Hin.
  - reflexivity.
  - vm_compute. reflexivity.
  - reflexivity.
Defined.

(** X7.  When the hits given to [_filter_results] have no URL twice and the
    ranking names nothing twice, the hits it returns have no URL twice,
    whichever path it takes. *)
Theorem distinct_ranking_keeps_urls_unique
  (E : env) search_results company_profile s :
  NoDup (urls search_results) ->
  (forall text, search_llm E (count is_search_llm s) = LlmText text ->
                ranking_distinct E text) ->
  exists filtered s',
    SearchAgent._filter_results E search_results company_profile s
    = (Returned filtered, s') /\
    NoDup (urls filtered).
Proof.
  intros Hnd Hdistinct.
  destruct (List.length search_results <=? 15)%nat eqn:Hlen.
  - exists search_results, s. unfold SearchAgent._filter_results.
    rewrite Hlen. split; [ reflexivity | exact Hnd ].
  - rewrite (filter_results_run _ _ _ _ Hlen).
    eexists _, _. split; [ reflexivity | ].
    assert (Hfirst : NoDup (urls (firstn 15 search_results))).
    { rewrite urls_firstn. apply nodup_firstn. exact Hnd. }
    destruct (search_llm E (count is_search_llm s)) as [text | e];
      [ | exact Hfirst ].
    specialize (Hdistinct text eq_refl). unfold ranking_distinct in Hdistinct.
    unfold SearchAgent.decode_ranking.
    destruct (json_loads E (PyStr.strip text)) as [v | msg | e];
      try exact Hfirst.
    destruct (SearchAgent.url_to_result search_results) as [table | e] eqn:Htable;
      [ | exact Hfirst ].
    destruct (SearchAgent.iterate v) as [ranked | ]; [ | exact Hfirst ].
    destruct (SearchAgent.reorder table ranked) as [out | e] eqn:Hout;
      [ | exact Hfirst ].
    rewrite urls_firstn. apply nodup_firstn.
    apply (reorder_nodup _ _ _ Htable Hdistinct _ Hout).
Qed.

(** Twenty hits with twenty URLs, and a ranking of four different URLs. *)
Lemma distinct_ranking_keeps_urls_unique_witness :
  exists filtered s',
    SearchAgent._filter_results Scenario.ranking_in_order Scenario.twenty_pages
      Example.company_profile (emit QueryLlm initial_store)
    = (Returned filtered, s') /\
    NoDup (urls filtered).
Proof.
  apply (distinct_ranking_keeps_urls_unique Scenario.ranking_in_order
           Scenario.twenty_pages Example.company_profile
           (emit QueryLlm initial_store)).
  - vm_compute.
    repeat (constructor;
            [ intros Hin;
              repeat (destruct Hin as [Heq | Hin]; [ discriminate Heq | ]);
              destruct Hin | ]).
    constructor.
  - intros text Htext. vm_compute in Htext.
    injection Htext as <-. vm_compute.
    repeat (constructor;
            [ intros Hin;
              repeat (destruct Hin as [Heq | Hin]; [ discriminate Heq | ]);
              destruct Hin | ]).
    constructor.
Defined.

Lemma count_searched (p : event -> bool) queries s :
  count p (searched queries s)
  = (List.length (filter p (map WebSearch queries)) + count p s)%nat.
Proof.
  unfold count, searched. cbn [log].
  rewrite filter_app, length_app, filter_rev, length_rev. reflexivity.
Qed.

Lemma count_web_searched queries s :
  count is_web (searched queries s) = (List.length queries + count is_web s)%nat.
Proof.
  rewrite count_searched. f_equal.
  induction queries as [ | q rest IH]; cbn; [ reflexivity | ].
  rewrite IH. reflexivity.
Qed.

Lemma count_llm_searched queries s :
  count is_search_llm (searched queries s) = count is_search_llm s.
Proof.
  rewrite count_searched.
  replace (filter is_search_llm (map WebSearch queries)) with (@nil event);
    [ reflexivity | ].
  induction queries as [ | q rest IH]; cbn; [ reflexivity | exact IH ].
Qed.

Lemma decode_queries_at_most_10 (E : env) company_profile text queries :
  SearchAgent.decode_queries E company_profile text = inl queries ->
  (List.length queries <= 10)%nat.
Proof.
  unfold SearchAgent.decode_queries.
  destruct (json_loads E (PyStr.strip text)) as [v | msg | e];
    [ | | discriminate ].
  - destruct v as [ | b | z | f | str | items | fields ]; intros H;
      injection H as <-; try (cbn; lia).
    exact (firstn_le_length 10 items).
  - intros H. injection H as <-. cbn. lia.
Qed.

(** X8.  [SearchAgent.execute] never raises: it returns a result whatever
    the model and the searches do.  It calls the model at most twice and
    searches at most ten times, and leaves the counters of the run alone.
    A success carries at most 15 hits and the queries used, one search each;
    a failure carries the error and no hit. *)
Theorem search_execute_never_raises (E : env) company_profile s :
  exists r s',
    SearchAgent.execute E company_profile s = (Returned r, s') /\
    (count is_search_llm s' <= count is_search_llm s + 2)%nat /\
    (count is_web s' <= count is_web s + 10)%nat /\
    iteration_count s' = iteration_count s /\
    validation_history s' = validation_history s /\
    (sr_success r = true ->
     (List.length (sr_search_results r) <= 15)%nat /\
     sr_error r = None /\
     exists queries,
       sr_queries_used r = Some queries /\
       (List.length queries <= 10)%nat /\
       count is_web s' = (count is_web s + List.length queries)%nat) /\
    (sr_success r = false ->
     sr_search_results r = [] /\ sr_queries_used r = None /\
     sr_error r <> None).
Proof.
  unfold SearchAgent.execute, try_except.
  unfold bind at 1. unfold SearchAgent._generate_search_queries.
  unfold bind at 1. unfold llm_call. unfold bind at 1. unfold get_store at 1.
  unfold bind at 1. unfold tell at 1.
  assert (Hllm : count is_search_llm (emit QueryLlm s) = S (count is_search_llm s))
    by (rewrite count_emit; reflexivity).
  assert (Hweb : count is_web (emit QueryLlm s) = count is_web s)
    by (rewrite count_emit; reflexivity).
  destruct (search_llm E (count is_search_llm s)) as [text | e].
  2:{ unfold raise, ret. cbv beta iota. eexists _, _. split; [ reflexivity | ].
      rewrite Hllm, Hweb. cbn.
      repeat split; try lia; try discriminate. }
  unfold ret at 1. cbv beta iota.
  destruct (SearchAgent.decode_queries E company_profile text)
    as [queries | e] eqn:Hq.
  2:{ unfold lift, raise, ret. cbv beta iota. eexists _, _.
      split; [ reflexivity | ]. rewrite Hllm, Hweb. cbn.
      repeat split; try lia; try discriminate. }
  pose proof (decode_queries_at_most_10 _ _ _ _ Hq) as Hten.
  unfold lift, ret at 1. cbv beta iota.
  unfold bind at 1. unfold SearchAgent._execute_searches. unfold bind at 1.
  rewrite run_queries_gathers. cbn [app].
  set (s1 := searched queries (emit QueryLlm s)).
  assert (Hllm1 : count is_search_llm s1 = S (count is_search_llm s))
    by (unfold s1; rewrite count_llm_searched; exact Hllm).
  assert (Hweb1 : count is_web s1 = (count is_web s + List.length queries)%nat)
    by (unfold s1; rewrite count_web_searched, Hweb; lia).
  destruct (SearchAgent.deduplicate [] _) as [unique_results | e].
  2:{ unfold raise, ret. cbv beta iota. eexists _, _.
      split; [ reflexivity | ]. rewrite Hllm1, Hweb1. cbn.
      repeat split; try lia; try discriminate. }
  unfold ret at 1. cbv beta iota. unfold bind at 1.
  destruct (filter_results_selects_bounds E unique_results company_profile s1)
    as (filtered & s2 & Hrun & Hlen & Hs2).
  rewrite Hrun. unfold ret. cbv beta iota. eexists _, _.
  split; [ reflexivity | ]. cbn [sr_success sr_search_results sr_error
                                 sr_queries_used].
  assert (Hllm2 : (count is_search_llm s2 <= S (count is_search_llm s1))%nat).
  { destruct Hs2 as [-> | ->]; [ lia | rewrite count_emit; cbn; lia ]. }
  assert (Hweb2 : count is_web s2 = count is_web s1).
  { destruct Hs2 as [-> | ->]; [ reflexivity | rewrite count_emit; reflexivity ]. }
  assert (Hloc : iteration_count s2 = iteration_count s /\
                 validation_history s2 = validation_history s).
  { destruct Hs2 as [-> | ->]; split; reflexivity. }
  destruct Hloc as [Hic Hvh].
  split; [ lia | ]. split; [ lia | ]. split; [ exact Hic | ].
  split; [ exact Hvh | ]. split.
  - intros _. split; [ exact Hlen | ]. split; [ reflexivity | ].
    exists queries. split; [ reflexivity | ]. split; [ exact Hten | lia ].
  - discriminate.
Qed.


(* ------------------------------------------------------------------ *)
(** ** More on the Validator *)

Import Verdicts.

Lemma lookup_absent (k : string) (d : pydict) :
  ~ In k (map fst d) -> Dict.lookup k d = None.
Proof.
  induction d as [ | [k0 v0] d IH]; cbn; [ reflexivity | ].
  intros Hnotin. destruct (String.eqb k k0) eqn:Hk.
  - apply String.eqb_eq in Hk. subst. exfalso. apply Hnotin. left. reflexivity.
  - apply IH. intros Hin. apply Hnotin. right. exact Hin.
Qed.

Lemma lookup_present (k : string) (d : pydict) :
  In k (map fst d) -> exists v, Dict.lookup k d = Some v.
Proof.
  induction d as [ | [k0 v0] d IH]; cbn; [ intros [] | ].
  intros Hin. destruct (String.eqb k k0) eqn:Hk; [ eauto | ].
  destruct Hin as [Heq | Hin]; [ | apply IH, Hin ].
  subst. rewrite String.eqb_refl in Hk. discriminate.
Qed.

(** [{**d1, **d2}] holds the value of [d2] where [d2] has the key, and the
    value of [d1] elsewhere. *)
Lemma lookup_update (k : string) (d2 : pydict) :
  proper d2 ->
  forall d1,
    Dict.lookup k (Dict.update d1 d2)
    = match Dict.lookup k d2 with
      | Some v => Some v
      | None => Dict.lookup k d1
      end.
Proof.
  unfold Dict.update, proper.
  induction d2 as [ | [k0 v0] d2 IH]; intros Hnd d1; cbn in *; [ reflexivity | ].
  inversion Hnd as [ | ? ? Hnotin Hnd']; subst.
  rewrite (IH Hnd'), lookup_set.
  destruct (String.eqb k k0) eqn:Hk; [ | reflexivity ].
  apply String.eqb_eq in Hk. subst. rewrite (lookup_absent _ _ Hnotin).
  reflexivity.
Qed.

Lemma keys_set (k : string) (v : json) (d : pydict) :
  map fst (Dict.set k v d)
  = match Dict.lookup k d with
    | Some _ => map fst d
    | None => map fst d ++ [k]
    end.
Proof.
  induction d as [ | [k0 v0] d IH]; cbn; [ reflexivity | ].
  destruct (String.eqb k k0) eqn:Hk; cbn; [ reflexivity | ].
  rewrite IH. destruct (Dict.lookup k d); reflexivity.
Qed.

Lemma proper_setdefault (k : string) (v : json) (d : pydict) :
  proper d -> proper (Dict.setdefault k v d).
Proof.
  unfold proper, Dict.setdefault. intros Hnd.
  destruct (Dict.lookup k d) as [v0 | ] eqn:Hk; [ exact Hnd | ].
  rewrite keys_set, Hk.
  apply NoDup_rev in Hnd. rewrite <- (rev_involutive (map fst d ++ [k])).
  apply NoDup_rev. rewrite rev_app_distr. cbn. constructor; [ | exact Hnd ].
  intros Hin. apply in_rev in Hin.
  destruct (lookup_present _ _ Hin) as [v0 Hv0]. congruence.
Qed.

Lemma lookup_setdefault (k k' : string) (v : json) (d : pydict) :
  Dict.lookup k (Dict.setdefault k' v d)
  = match Dict.lookup k d with
    | Some v0 => Some v0
    | None => if String.eqb k k' then Some v else None
    end.
Proof.
  unfold Dict.setdefault.
  destruct (Dict.lookup k' d) as [v0 | ] eqn:Hk'.
  - destruct (Dict.lookup k d) eqn:Hk; [ reflexivity | ].
    destruct (String.eqb k k') eqn:Heq; [ | reflexivity ].
    apply String.eqb_eq in Heq. congruence.
  - rewrite lookup_set. destruct (String.eqb k k') eqn:Heq.
    + apply String.eqb_eq in Heq. subst. rewrite Hk'. reflexivity.
    + destruct (Dict.lookup k d); reflexivity.
Qed.

(** The object after lines 152-155. *)
Lemma lookup_completed (k : string) (validation : pydict) :
  Dict.lookup k
    (Dict.setdefault "issues" (JArr [])
       (Dict.setdefault "feedback" (JStr "Validation incomplete")
          (Dict.setdefault "quality_score" (JInt 0)
             (Dict.setdefault "is_approved" (JBool false) validation))))
  = match Dict.lookup k validation with
    | Some v => Some v
    | None => if String.eqb k "success" then None else Dict.lookup k defaults
    end.
Proof.
  rewrite !lookup_setdefault. unfold defaults. cbn [Dict.lookup].
  destruct (Dict.lookup k validation); [ reflexivity | ].
  destruct (String.eqb k "is_approved") eqn:H1.
  { apply String.eqb_eq in H1. subst. reflexivity. }
  destruct (String.eqb k "quality_score") eqn:H2.
  { apply String.eqb_eq in H2. subst. reflexivity. }
  destruct (String.eqb k "feedback") eqn:H3.
  { apply String.eqb_eq in H3. subst. reflexivity. }
  destruct (String.eqb k "issues") eqn:H4.
  { apply String.eqb_eq in H4. subst. reflexivity. }
  destruct (String.eqb k "success"); reflexivity.
Qed.

(** What [execute] returns on an object of the judge. *)
Lemma verdict_of_object (E : env) reply validation :
  judged E reply validation ->
  proper validation ->
  (rejection validation = true \/
   truthy (Dict.get "is_approved" (JBool false) validation) = true ->
   forall k,
     Dict.lookup k (ValidatorAgent.verdict_of E reply)
     = match Dict.lookup k validation with
       | Some v => Some v
       | None => Dict.lookup k defaults
       end) /\
  (rejection validation = false ->
   truthy (Dict.get "is_approved" (JBool false) validation) = false ->
   ValidatorAgent.verdict_of E reply = ValidatorAgent.error_verdict).
Proof.
  intros (text & content & -> & Hfence & Hloads) Hproper.
  unfold ValidatorAgent.verdict_of, ValidatorAgent.decode_verdict.
  rewrite Hfence, Hloads. unfold ValidatorAgent.report_verdict.
  set (completed := Dict.setdefault "issues" _ _).
  assert (Hc : forall k, Dict.lookup k completed
                         = match Dict.lookup k validation with
                           | Some v => Some v
                           | None => if String.eqb k "success" then None
                                     else Dict.lookup k defaults
                           end)
    by (intros k; apply lookup_completed).
  assert (Hpc : proper completed)
    by (unfold completed; repeat apply proper_setdefault; exact Hproper).
  assert (Hall : forall k,
            Dict.lookup k (Dict.update [("success", JBool true)] completed)
            = match Dict.lookup k validation with
              | Some v => Some v
              | None => Dict.lookup k defaults
              end).
  { intros k. rewrite (lookup_update _ _ Hpc), Hc.
    destruct (Dict.lookup k validation); [ reflexivity | ].
    destruct (String.eqb k "success") eqn:Hk.
    - apply String.eqb_eq in Hk. subst. reflexivity.
    - destruct (Dict.lookup k defaults) eqn:Hd; [ reflexivity | ].
      cbn [Dict.lookup]. rewrite Hk. reflexivity. }
  assert (Hflag : Dict.lookup "is_approved" completed
                  = Some (Dict.get "is_approved" (JBool false) validation)).
  { rewrite Hc. unfold Dict.get.
    destruct (Dict.lookup "is_approved" validation); reflexivity. }
  assert (Hfb : Dict.lookup "feedback" completed
                = Some (Dict.get "feedback" (JStr "Validation incomplete")
                          validation)).
  { rewrite Hc. unfold Dict.get.
    destruct (Dict.lookup "feedback" validation); reflexivity. }
  rewrite Hflag, Hfb. unfold rejection.
  destruct (truthy (Dict.get "is_approved" (JBool false) validation));
    cbn [negb andb].
  - split; [ intros _; exact Hall | discriminate ].
  - destruct (ValidatorAgent.sliceable _).
    + split; [ intros _; exact Hall | discriminate ].
    + split; [ intros [H | H]; discriminate | reflexivity ].
Qed.

Lemma approved_of_lookup (d : pydict) (v : json) :
  Dict.lookup "is_approved" d = Some v ->
  ValidatorAgent.approved d = truthy v.
Proof.
  intros H. unfold ValidatorAgent.approved, Dict.get. rewrite H. reflexivity.
Qed.

(** X9.  The Validator rejects a report in one case only: the judge's text
    decodes to an object whose [is_approved] is missing or falsy and whose
    [feedback] is missing, a string or a list.  Every other reply of the
    judge (a failed call, prose, JSON that is not an object, a rejection
    whose feedback cannot be sliced for the console) comes back approved. *)
Theorem validator_rejects_only_a_printable_rejection
  (E : env) report company_profile search_results s :
  (forall validation,
     judged E (validator_llm E (count is_validate s)) validation ->
     proper validation) ->
  exists d,
    ValidatorAgent.execute E report company_profile search_results s
    = (Returned d, emit (ValidateLlm report) s) /\
    (ValidatorAgent.approved d = false <->
     exists validation,
       judged E (validator_llm E (count is_validate s)) validation /\
       rejection validation = true).
Proof.
  intros Hproper. eexists. split; [ apply validator_execute | ].
  set (reply := validator_llm E (count is_validate s)) in *.
  split.
  - intros Hrej.
    destruct reply as [text | e] eqn:Hreply; [ | discriminate Hrej ].
    destruct (strip_code_fence (PyStr.strip text)) as [content | e] eqn:Hfence.
    2:{ unfold ValidatorAgent.verdict_of, ValidatorAgent.decode_verdict in Hrej.
        rewrite Hfence in Hrej. discriminate Hrej. }
    destruct (json_loads E content) as [v | msg | e] eqn:Hloads.
    2,3: unfold ValidatorAgent.verdict_of, ValidatorAgent.decode_verdict in Hrej;
         rewrite Hfence, Hloads in Hrej; discriminate Hrej.
    destruct v as [ | b | z | f | str | items | validation ];
      try (unfold ValidatorAgent.verdict_of, ValidatorAgent.decode_verdict in Hrej;
           rewrite Hfence, Hloads in Hrej; discriminate Hrej).
    assert (Hj : judged E (LlmText text) validation)
      by (exists text, content; repeat split; assumption).
    exists validation. split; [ exact Hj | ].
    destruct (verdict_of_object E _ _ Hj (Hproper _ Hj)) as [Hkeep Herr].
    destruct (rejection validation) eqn:Hr; [ reflexivity | exfalso ].
    destruct (truthy (Dict.get "is_approved" (JBool false) validation)) eqn:Ht.
    + specialize (Hkeep (or_intror eq_refl) "is_approved").
      unfold ValidatorAgent.approved, Dict.get in Hrej, Ht.
      rewrite Hkeep in Hrej.
      destruct (Dict.lookup "is_approved" validation); cbn in Hrej, Ht; congruence.
    + rewrite (Herr eq_refl eq_refl) in Hrej. discriminate Hrej.
  - intros (validation & Hj & Hr).
    destruct (verdict_of_object E _ _ Hj (Hproper _ Hj)) as [Hkeep _].
    specialize (Hkeep (or_introl Hr) "is_approved").
    unfold rejection in Hr. apply andb_true_iff in Hr as [Hflag _].
    apply negb_true_iff in Hflag.
    unfold ValidatorAgent.approved, Dict.get in *. rewrite Hkeep.
    destruct (Dict.lookup "is_approved" validation); exact Hflag.
Qed.

(** The judge rejects with a score of 30 and a feedback text. *)
Lemma validator_rejects_only_a_printable_rejection_witness :
  exists d,
    ValidatorAgent.execute Example.never_approved JNull Example.company_profile
      [] initial_store
    = (Returned d, emit (ValidateLlm JNull) initial_store) /\
    ValidatorAgent.approved d = false.
Proof.
  destruct (validator_rejects_only_a_printable_rejection Example.never_approved
              JNull Example.company_profile [] initial_store)
    as (d & Hrun & Hiff).
  - intros validation (text & content & Hreply & Hfence & Hloads).
    vm_compute in Hreply. injection Hreply as <-.
    vm_compute in Hfence. injection Hfence as <-.
    vm_compute in Hloads. injection Hloads as <-.
    unfold proper. cbn [map fst].
    repeat (constructor;
            [ intros Hin;
              repeat (destruct Hin as [Heq | Hin]; [ discriminate Heq | ]);
              destruct Hin | ]).
    constructor.
  - exists d. split; [ exact Hrun | ]. apply Hiff.
    eexists. split.
    + eexists _, _. split; [ reflexivity | ]. split.
      * vm_compute. reflexivity.
      * vm_compute. reflexivity.
    + vm_compute. reflexivity.
Defined.

(** X10.  When the judge's text decodes to an object that approves, or
    rejects with a feedback line 65 can print, [execute] returns that object
    with five defaults: every key of the judge keeps the judge's value,
    [success] included, and only the missing ones among [success],
    [is_approved], [quality_score], [feedback] and [issues] are filled in,
    with true, false, 0, ["Validation incomplete"] and the empty list. *)
Theorem verdict_is_the_judges_object_with_defaults
  (E : env) report company_profile search_results s validation :
  judged E (validator_llm E (count is_validate s)) validation ->
  proper validation ->
  rejection validation = true \/
  truthy (Dict.get "is_approved" (JBool false) validation) = true ->
  exists d,
    ValidatorAgent.execute E report company_profile search_results s
    = (Returned d, emit (ValidateLlm report) s) /\
    forall k,
      Dict.lookup k d
      = match Dict.lookup k validation with
        | Some v => Some v
        | None => Dict.lookup k defaults
        end.
Proof.
  intros Hj Hproper Hcase. eexists. split; [ apply validator_execute | ].
  apply (verdict_of_object E _ _ Hj Hproper). exact Hcase.
Qed.

(** The judge's object holds [success] and [is_approved] only. *)
Lemma verdict_is_the_judges_object_with_defaults_witness :
  exists d,
    ValidatorAgent.execute Example.judge_success_key JNull
      Example.company_profile [] initial_store
    = (Returned d, emit (ValidateLlm JNull) initial_store) /\
    Dict.lookup "success" d = Some (JBool false) /\
    Dict.lookup "is_approved" d = Some (JBool true) /\
    Dict.lookup "quality_score" d = Some (JInt 0) /\
    Dict.lookup "feedback" d = Some (JStr "Validation incomplete") /\
    Dict.lookup "issues" d = Some (JArr []) /\
    Dict.lookup "score" d = None.
Proof.
  destruct (verdict_is_the_judges_object_with_defaults Example.judge_success_key
              JNull Example.company_profile [] initial_store
              [ ("success", JBool false); ("is_approved", JBool true) ])
    as (d & Hrun & Hkeys).
  - eexists _, _. split; [ reflexivity | ]. split.
    + vm_compute. reflexivity.
    + vm_compute. reflexivity.
  - unfold proper. cbn [map fst].
    repeat (constructor;
            [ intros Hin;
              repeat (destruct Hin as [Heq | Hin]; [ discriminate Heq | ]);
              destruct Hin | ]).
    constructor.
  - right. reflexivity.
  - exists d. split; [ exact Hrun | ].
    rewrite !Hkeys. repeat split; reflexivity.
Defined.
(* ------------------------------------------------------------------ *)
(** ** More on the generate/validate loop *)

Import Rounds.

(** X11.  The loop of lines 92-139, entered with the counter at zero and an
    empty history: when the Generator succeeds on every attempt and the
    Validator approves for the first time on attempt [rejections + 1],
    within the limit, the loop makes exactly [rejections + 1] rounds and
    stops.  It returns the draft of the last round; [iteration_count] is
    [rejections + 1], each agent was called that many times, and the history
    holds one entry per round, in order, built from the verdict of that
    round. *)
Theorem loop_stops_at_first_approval
  (E : env) company_profile search_results (rejections : nat) content fb s :
  at_round E 0 s ->
  (Z.of_nat rejections < MAX_VALIDATION_ITERATIONS E)%Z ->
  (forall i, (i <= rejections)%nat -> generator_succeeds E i) ->
  (forall i, (i < rejections)%nat ->
             ValidatorAgent.approved (verdict E i) = false) ->
  ValidatorAgent.approved (verdict E rejections) = true ->
  exists s',
    ReportService.validation_loop E (Z.to_nat (MAX_VALIDATION_ITERATIONS E))
      company_profile search_results content fb s
    = (Returned (draft E rejections), s') /\
    iteration_count s' = Z.of_nat (S rejections) /\
    count is_generate s' = S rejections /\
    count is_validate s' = S rejections /\
    validation_history s'
    = map (fun i =>
             JObj [ ("iteration", JInt (Z.of_nat (S i)));
                    ("is_approved",
                     Dict.get "is_approved" (JBool false) (verdict E i));
                    ("quality_score",
                     Dict.get "quality_score" (JInt 0) (verdict E i));
                    ("feedback", Dict.get "feedback" (JStr "") (verdict E i));
                    ("issues", Dict.get "issues" (JArr []) (verdict E i));
                    ("validated_at", JStr (utcnow E i)) ])
        (seq 0 (S rejections)).
Proof.
  intros Hs Hlt Hgen Hrej Happ.
  destruct (loop_accepts E company_profile search_results rejections 0
              (Z.to_nat (MAX_VALIDATION_ITERATIONS E)) content fb s)
    as (s' & Hrun & (Hic & Hg & Hv & _ & Hh) & _).
  - exact Hs.
  - exact Hlt.
  - lia.
  - intros i Hi. apply Hgen. lia.
  - intros i Hi. apply Hrej. lia.
  - left. exact Happ.
  - exists s'. cbn [Nat.add] in *. repeat split; assumption.
Qed.

(** The verdicts [false, false, true] with a limit of three. *)
Lemma loop_stops_at_first_approval_witness :
  exists s',
    ReportService.validation_loop Example.third_time 3 Example.company_profile
      [] JNull JNull initial_store
    = (Returned (draft Example.third_time 2), s') /\
    iteration_count s' = 3%Z /\
    count is_generate s' = 3%nat /\
    count is_validate s' = 3%nat /\
    List.length (validation_history s') = 3%nat.
Proof.
  destruct (loop_stops_at_first_approval Example.third_time
              Example.company_profile [] 2 JNull JNull initial_store)
    as (s' & Hrun & Hic & Hg & Hv & Hh).
  - apply at_round_initial.
  - vm_compute. reflexivity.
  - intros i Hi.
    destruct i as [ | [ | [ | i ]]]; [ reflexivity | reflexivity | reflexivity | lia ].
  - intros i Hi.
    destruct i as [ | [ | i ]]; [ reflexivity | reflexivity | lia ].
  - reflexivity.
  - exists s'. split; [ exact Hrun | ].
    split; [ exact Hic | ]. split; [ exact Hg | ]. split; [ exact Hv | ].
    rewrite Hh, length_map, length_seq. reflexivity.
Defined.

(** X12.  The loop of lines 92-139, entered with the counter at zero and an
    empty history, under a limit of [n + 1]: when the Generator succeeds on
    every attempt and the Validator rejects every draft, the loop makes
    exactly [n + 1] rounds and accepts the last draft.  [iteration_count]
    is the limit, each agent was called [n + 1] times, and the history holds
    the [n + 1] rejections, in order: the entry of a round carries its
    number and the [is_approved], which is falsy, the [quality_score], the
    [feedback] and the [issues] of the verdict of that round. *)
Theorem loop_accepts_last_draft_at_the_limit
  (E : env) company_profile search_results (n : nat) content fb s :
  at_round E 0 s ->
  MAX_VALIDATION_ITERATIONS E = Z.of_nat (S n) ->
  (forall i, (i <= n)%nat -> generator_succeeds E i) ->
  (forall i, (i <= n)%nat -> ValidatorAgent.approved (verdict E i) = false) ->
  exists s',
    ReportService.validation_loop E (Z.to_nat (MAX_VALIDATION_ITERATIONS E))
      company_profile search_results content fb s
    = (Returned (draft E n), s') /\
    iteration_count s' = MAX_VALIDATION_ITERATIONS E /\
    count is_generate s' = S n /\
    count is_validate s' = S n /\
    validation_history s'
    = map (fun i =>
             JObj [ ("iteration", JInt (Z.of_nat (S i)));
                    ("is_approved",
                     Dict.get "is_approved" (JBool false) (verdict E i));
                    ("quality_score",
                     Dict.get "quality_score" (JInt 0) (verdict E i));
                    ("feedback", Dict.get "feedback" (JStr "") (verdict E i));
                    ("issues", Dict.get "issues" (JArr []) (verdict E i));
                    ("validated_at", JStr (utcnow E i)) ])
        (seq 0 (S n)) /\
    forall i,
      (i <= n)%nat ->
      truthy (Dict.get "is_approved" (JBool false) (verdict E i)) = false.
Proof.
  intros Hs Hmax Hgen Hrej.
  destruct (loop_accepts E company_profile search_results n 0
              (Z.to_nat (MAX_VALIDATION_ITERATIONS E)) content fb s)
    as (s' & Hrun & (Hic & Hg & Hv & _ & Hh) & _).
  - exact Hs.
  - rewrite Hmax. cbn [Nat.add]. lia.
  - rewrite Hmax. lia.
  - intros i Hi. apply Hgen. lia.
  - intros i Hi. apply Hrej. lia.
  - right. rewrite Hmax. reflexivity.
  - exists s'. cbn [Nat.add] in *.
    split; [ exact Hrun | ]. split; [ rewrite Hmax; exact Hic | ].
    split; [ exact Hg | ]. split; [ exact Hv | ]. split; [ exact Hh | ].
    intros i Hi. apply (Hrej i Hi).
Qed.

(** The judge never approves, with a limit of three. *)
Lemma loop_accepts_last_draft_at_the_limit_witness :
  exists s',
    ReportService.validation_loop Example.never_approved 3
      Example.company_profile [] JNull JNull initial_store
    = (Returned (draft Example.never_approved 2), s') /\
    iteration_count s' = 3%Z /\
    List.length (validation_history s') = 3%nat.
Proof.
  destruct (loop_accepts_last_draft_at_the_limit Example.never_approved
              Example.company_profile [] 2 JNull JNull initial_store)
    as (s' & Hrun & Hic & _ & _ & Hh & _).
  - apply at_round_initial.
  - reflexivity.
  - intros i Hi.
    destruct i as [ | [ | [ | i ]]]; [ reflexivity | reflexivity | reflexivity | lia ].
  - intros i Hi.
    destruct i as [ | [ | [ | i ]]]; [ reflexivity | reflexivity | reflexivity | lia ].
  - exists s'. split; [ exact Hrun | ]. split; [ exact Hic | ].
    rewrite Hh, length_map, length_seq. reflexivity.
Defined.

(** X13.  Lines 73-267, what [generate_report] goes on with once the agents
    exist, with a limit that is not negative and whatever the agents and
    the outside answer: the lines return or raise (the loop ends); at the
    end [iteration_count] is at most [MAX_VALIDATION_ITERATIONS], the
    history is no longer than [iteration_count] and has exactly one entry
    per call of the Validator; and what is returned, the approved report or
    the failed one, carries these two values as they are, as does the record
    last saved. *)
Theorem stages_keep_the_bounds (E : env) company_profile out s' :
  (0 <= MAX_VALIDATION_ITERATIONS E)%Z ->
  after_construction E company_profile initial_store = (out, s') ->
  out <> OutOfFuel /\
  (0 <= iteration_count s' <= MAX_VALIDATION_ITERATIONS E)%Z /\
  (Z.of_nat (List.length (validation_history s')) <= iteration_count s')%Z /\
  List.length (validation_history s') = count is_validate s' /\
  (forall d,
     out = Returned d ->
     exists success report record,
       returns_report d success report /\
       Dict.lookup "status" report
         = Some (JStr (if success then "approved" else "failed")) /\
       Dict.lookup "iteration_count" report = Some (JInt (iteration_count s')) /\
       Dict.lookup "validation_history" report
         = Some (JArr (validation_history s')) /\
       persisted (log s') = Some (JObj record) /\
       Dict.lookup "iteration_count" record = Some (JInt (iteration_count s')) /\
       Dict.lookup "validation_history" record
         = Some (JArr (validation_history s'))).
Proof.
  intros Hmax. unfold after_construction, try_except.
  destruct (ReportService.stages E (uuid4 E) company_profile initial_store)
    as [[d0 | e | ] s1] eqn:Hstages;
    destruct (stages_bounded E company_profile _ _ Hmax Hstages)
      as (Hbd & Hfuel & Hret); [ | | contradiction ].
  - intros H; inversion H; subst. split; [ discriminate | ].
    destruct Hbd as (H1 & H2 & H3). repeat split; try apply H1; try assumption.
    intros d Hd; inversion Hd; subst.
    destruct (Hret d eq_refl) as (fr & -> & Hst & Hic & Hh & Hp).
    exists true, (with_pdf E (uuid4 E) fr), fr.
    split; [ split; reflexivity | ].
    rewrite !with_pdf_lookup by reflexivity. repeat split; assumption.
  - rewrite on_failure_run. cbv zeta.
    destruct (file_write E (count is_write s1)) as [e' | ];
      intros H; inversion H; subst.
    + assert (Hbd' : bounded E
                       (emit (WriteFailed (ReportService.report_path E (uuid4 E)))
                          (emit Utcnow s1))).
      { eapply bookkeeping_keeps_bounded; [ | exact Hbd ].
        exists [WriteFailed (ReportService.report_path E (uuid4 E)); Utcnow].
        split; reflexivity. }
      split; [ discriminate | ].
      destruct Hbd' as (H1 & H2 & H3).
      repeat split; try apply H1; try assumption. intros; discriminate.
    + match goal with
      | |- context [emit (WriteReport ?path ?rep) (emit Utcnow s1)] =>
          assert (Hbd' : bounded E (emit (WriteReport path rep) (emit Utcnow s1)))
            by (eapply bookkeeping_keeps_bounded; [ | exact Hbd ];
                exists [WriteReport path rep; Utcnow]; split; reflexivity)
      end.
      split; [ discriminate | ].
      destruct Hbd' as (H1 & H2 & H3).
      repeat split; try apply H1; try assumption.
      intros d Hd; inversion Hd; subst.
      eexists false, _, _. split; [ split; reflexivity | ].
      repeat split.
Qed.

(** The verdicts [false, false, true] with a limit of three: three rounds,
    three entries. *)
Lemma stages_keep_the_bounds_witness :
  let s' := snd (after_construction Example.third_time Example.company_profile
                   initial_store) in
  (0 <= iteration_count s' <= 3)%Z /\
  (Z.of_nat (List.length (validation_history s')) <= iteration_count s')%Z /\
  List.length (validation_history s') = count is_validate s' /\
  iteration_count s' = 3%Z.
Proof.
  destruct (stages_keep_the_bounds Example.third_time Example.company_profile
              (fst (after_construction Example.third_time
                      Example.company_profile initial_store))
              (snd (after_construction Example.third_time
                      Example.company_profile initial_store)))
    as (_ & H1 & H2 & H3 & _).
  - vm_compute. discriminate.
  - apply surjective_pairing.
  - cbv zeta. split; [ exact H1 | ]. split; [ exact H2 | ].
    split; [ exact H3 | ]. vm_compute. reflexivity.
Defined.

(* ------------------------------------------------------------------ *)
(** ** More on the lines after the construction *)

(** The body of the [try] after the construction, step by step. *)
Lemma stages_run (E : env) company_profile s :
  ReportService.stages E (uuid4 E) company_profile s =
  match ReportService.search_phase E company_profile s with
  | (Returned sr, s0) =>
      if sr_success sr then
        match add_search_results E with
        | Some e => (Raised e, s0)
        | None =>
            match ReportService.validation_loop E
                    (Z.to_nat (MAX_VALIDATION_ITERATIONS E)) company_profile
                    (sr_search_results sr) JNull JNull
                    (emit (AddSearchResults (uuid4 E)) s0) with
            | (Returned report_content, s2) =>
                ReportService.commit E (uuid4 E) report_content
                  (ReportService.final_report (uuid4 E) company_profile
                     report_content (utcnow E (count is_utcnow s2))
                     (validation_history s2) (iteration_count s2)
                     (sr_search_results sr) sr)
                  (emit Utcnow s2)
            | (Raised e, s2) => (Raised e, s2)
            | (OutOfFuel, s2) => (OutOfFuel, s2)
            end
        end
      else
        (Raised ("Search failed: "
                 ++ ReportService.format_error (sr_error sr))%string, s0)
  | (Raised e, s0) => (Raised e, s0)
  | (OutOfFuel, s0) => (OutOfFuel, s0)
  end.
Proof.
  unfold ReportService.stages.
  unfold bind at 1.
  destruct (ReportService.search_phase E company_profile s)
    as [[sr | e | ] s0]; try reflexivity.
  destruct (sr_success sr); cbn [negb]; [ | reflexivity ].
  destruct (add_search_results E) as [e | ]; cbn [may_raise]; [ reflexivity | ].
  unfold bind at 1. unfold ret at 1. unfold bind at 1. unfold tell at 1.
  unfold bind at 1.
  destruct (ReportService.validation_loop E _ company_profile _ JNull JNull _)
    as [[content | e | ] s2]; reflexivity.
Qed.

Lemma extends_calls (s s' : store) :
  extends_by bookkeeping s s' -> calls s' = calls s.
Proof.
  intros (evs & Hevs & ->). unfold calls. cbn [log]. rewrite filter_app.
  replace (filter agent_event evs) with (@nil event); [ reflexivity | ].
  induction evs as [ | ev evs IH]; cbn in *; [ reflexivity | ].
  apply andb_prop in Hevs as [Hev Hevs]. unfold bookkeeping in Hev.
  apply negb_true_iff in Hev. unfold agent_event at 1. rewrite Hev.
  apply IH, Hevs.
Qed.

Lemma dialogue_counts (E : env) (n : nat) :
  List.length (filter is_generate (dialogue E n)) = n /\
  List.length (filter is_validate (dialogue E n)) = n.
Proof.
  induction n as [ | n [IHg IHv]]; cbn; [ split; reflexivity | ].
  rewrite IHg, IHv. split; reflexivity.
Qed.

Lemma filter_calls (p : event -> bool) (s : store) :
  (forall ev, p ev = true -> agent_event ev = true) ->
  filter p (calls s) = filter p (log s).
Proof.
  intros Hp. unfold calls. induction (log s) as [ | ev l IH]; cbn;
    [ reflexivity | ].
  destruct (agent_event ev) eqn:Ha; cbn; [ rewrite IH; reflexivity | ].
  destruct (p ev) eqn:Hpev; [ | exact IH ].
  rewrite (Hp ev Hpev) in Ha. discriminate.
Qed.

Lemma calls_count_generate (s : store) :
  count is_generate s = List.length (filter is_generate (calls s)).
Proof.
  unfold count. rewrite filter_calls; [ reflexivity | ].
  intros ev H. unfold agent_event. rewrite H. reflexivity.
Qed.

Lemma calls_count_validate (s : store) :
  count is_validate s = List.length (filter is_validate (calls s)).
Proof.
  unfold count. rewrite filter_calls; [ reflexivity | ].
  intros ev H. unfold agent_event. rewrite H. apply orb_true_r.
Qed.

(** The loop from a store that has seen [k] rounds: it ends after [n >= k]
    rounds, or in the attempt after them when its generation fails. *)
Lemma loop_dialogue (E : env) p r :
  forall fuel content k s out s',
    after_rounds E k s ->
    ReportService.validation_loop E fuel p r content (feedback_for E k) s
    = (out, s') ->
    exists n,
      (k <= n)%nat /\
      ((after_rounds E n s' /\ forall e, out <> Raised e) \/
       (after_failed_attempt E n s' /\ exists e, out = Raised e)).
Proof.
  induction fuel as [ | fuel IH]; intros content k s out s' Hs Hrun.
  - rewrite loop_no_fuel in Hrun. exists k. split; [ lia | left ].
    destruct (iteration_count s <? MAX_VALIDATION_ITERATIONS E)%Z;
      inversion Hrun; subst; (split; [ exact Hs | discriminate ]).
  - rewrite loop_round in Hrun.
    destruct (iteration_count s <? MAX_VALIDATION_ITERATIONS E)%Z eqn:Hlt.
    2:{ inversion Hrun; subst. exists k. split; [ lia | left ].
        split; [ exact Hs | discriminate ]. }
    apply Z.ltb_lt in Hlt. cbv zeta in Hrun.
    destruct Hs as (Hcalls & Hic & Hbound).
    assert (Hg : count is_generate s = k).
    { rewrite calls_count_generate, Hcalls. apply dialogue_counts. }
    assert (Hv : count is_validate s = k).
    { rewrite calls_count_validate, Hcalls. apply dialogue_counts. }
    rewrite Hg, Hv in Hrun.
    destruct (rr_success (ReportGeneratorAgent.result_of E (report_llm E k)))
      eqn:Hok; cbn [negb] in Hrun.
    2:{ injection Hrun as <- <-. exists k. split; [ lia | right ].
        split; [ | eexists; reflexivity ].
        unfold after_failed_attempt, after_failed_generation, calls.
        cbn [log iteration_count filter agent_event is_generate orb].
        fold (calls s). rewrite Hcalls, Hic.
        repeat split; try lia.
        unfold generator_succeeds. rewrite Hok. discriminate. }
    fold (draft E k) (verdict E k) in Hrun.
    assert (Hnext : after_rounds E (S k)
                      (after_round E (feedback_for E k) (draft E k)
                         (verdict E k) s)).
    { unfold after_rounds, after_round, calls.
      cbn [log iteration_count filter agent_event is_generate is_validate orb].
      fold (calls s). rewrite Hcalls, Hic.
      repeat split; lia. }
    destruct (ValidatorAgent.approved (verdict E k)).
    { injection Hrun as <- <-. exists (S k). split; [ lia | left ].
      split; [ exact Hnext | discriminate ]. }
    destruct (_ >=? _)%Z.
    { injection Hrun as <- <-. exists (S k). split; [ lia | left ].
      split; [ exact Hnext | discriminate ]. }
    change (Dict.get "feedback" (JStr "") (verdict E k))
      with (feedback_for E (S k)) in Hrun.
    destruct (IH _ _ _ _ _ Hnext Hrun) as (n & Hn & Hend).
    exists n. split; [ lia | exact Hend ].
Qed.

Lemma after_rounds_extends (E : env) n s s' :
  extends_by bookkeeping s s' -> after_rounds E n s -> after_rounds E n s'.
Proof.
  intros Hext (Hcalls & Hic & Hbound).
  destruct (extends_locals _ _ _ Hext) as [Hic' _].
  unfold after_rounds. rewrite (extends_calls _ _ Hext), Hic'.
  repeat split; assumption.
Qed.

Lemma after_failed_attempt_extends (E : env) n s s' :
  extends_by bookkeeping s s' ->
  after_failed_attempt E n s -> after_failed_attempt E n s'.
Proof.
  intros Hext (Hcalls & Hic & Hbound & Hgen).
  destruct (extends_locals _ _ _ Hext) as [Hic' _].
  unfold after_failed_attempt. rewrite (extends_calls _ _ Hext), Hic'.
  repeat split; assumption.
Qed.

Lemma after_rounds_initial (E : env) : after_rounds E 0 initial_store.
Proof. repeat split. left. reflexivity. Qed.

(** The body of the [try] after the construction ends after [n] rounds, or
    in the attempt after them. *)
Lemma stages_dialogue (E : env) company_profile out s' :
  ReportService.stages E (uuid4 E) company_profile initial_store = (out, s') ->
  exists n,
    after_rounds E n s' \/
    (after_failed_attempt E n s' /\ exists e, out = Raised e).
Proof.
  rewrite stages_run. pose proof (after_rounds_initial E) as H0.
  destruct (ReportService.search_phase E company_profile initial_store)
    as [[sr | e | ] s0] eqn:Hsearch;
    destruct (frames_search_phase E company_profile _ _ _ Hsearch) as [Hext _];
    pose proof (after_rounds_extends E 0 _ _
                  (extends_weaken _ _ _ _ search_is_bookkeeping Hext) H0) as H1.
  2,3: intros H; inversion H; subst; exists 0%nat; left; exact H1.
  destruct (sr_success sr).
  2:{ intros H; inversion H; subst. exists 0%nat. left. exact H1. }
  destruct (add_search_results E) as [e | ].
  { intros H; inversion H; subst. exists 0%nat. left. exact H1. }
  assert (H2 : after_rounds E 0 (emit (AddSearchResults (uuid4 E)) s0)).
  { apply (after_rounds_extends E 0 s0); [ | exact H1 ].
    apply extends_emit. reflexivity. }
  destruct (ReportService.validation_loop E _ company_profile _ JNull JNull _)
    as [[content | e | ] s2] eqn:Hloop;
    destruct (loop_dialogue E _ _ _ _ 0%nat _ _ _ H2 Hloop)
      as (n & _ & [[Hn Hout] | [Hn Hout]]).
  - intros Hcommit. exists n. left.
    destruct (frames_commit _ _ _ _ _ _ _ Hcommit) as [Hext' _].
    apply (after_rounds_extends E n (emit Utcnow s2)); [ exact Hext' | ].
    apply (after_rounds_extends E n s2); [ | exact Hn ].
    apply extends_emit. reflexivity.
  - destruct Hout as [e He]. discriminate He.
  - exfalso. apply (Hout e). reflexivity.
  - intros H; inversion H; subst. exists n. right. split; [ exact Hn | ].
    eexists; reflexivity.
  - intros H; inversion H; subst. exists n. left. exact Hn.
  - destruct Hout as [e He]. discriminate He.
Qed.

(** X14.  In lines 73-267 the Generator and the Validator are called in
    turn, the Generator first: on the first attempt the Generator gets no
    feedback, on every later attempt the feedback of the verdict just
    before; the Validator gets the draft generated just before.  The lines
    end after [n] such rounds with [iteration_count = n], or in a failed
    generation after them with [iteration_count = n + 1] and a result that
    says [success = False]; either count is within
    [MAX_VALIDATION_ITERATIONS] (or zero). *)
Theorem agents_are_called_in_turn (E : env) company_profile out s' :
  after_construction E company_profile initial_store = (out, s') ->
  exists n,
    (calls s' = dialogue E n /\
     iteration_count s' = Z.of_nat n /\
     (n = 0%nat \/ (Z.of_nat n <= MAX_VALIDATION_ITERATIONS E)%Z)) \/
    (calls s' = generation E n :: dialogue E n /\
     iteration_count s' = Z.of_nat (S n) /\
     (Z.of_nat (S n) <= MAX_VALIDATION_ITERATIONS E)%Z /\
     ~ generator_succeeds E n /\
     forall d, out = Returned d -> Dict.lookup "success" d = Some (JBool false)).
Proof.
  unfold after_construction. intros Hrun.
  apply try_except_inv in Hrun as [(e & s1 & Hbody & Hfail) | (Hbody & Hout)].
  - destruct (stages_dialogue E _ _ _ Hbody) as (n & [Hn | [Hn _]]);
      destruct (frames_on_failure _ _ _ _ _ _ _ Hfail) as [Hext _];
      exists n.
    + left. apply (after_rounds_extends E n s1 s' Hext Hn).
    + right.
      destruct (after_failed_attempt_extends E n s1 s' Hext Hn)
        as (H1 & H2 & H3 & H4).
      repeat split; try assumption.
      intros d Hd. subst out. rewrite on_failure_run in Hfail. cbv zeta in Hfail.
      destruct (file_write E (count is_write s1)); inversion Hfail; subst.
      reflexivity.
  - destruct (stages_dialogue E _ _ _ Hbody) as (n & [Hn | [_ [e He]]]).
    + exists n. left. exact Hn.
    + exfalso. apply (Hout e). exact He.
Qed.

(** The verdicts [false, false, true]: three rounds, and the second and
    third generations carry the judge's feedback. *)
Lemma agents_are_called_in_turn_witness :
  let s' := snd (after_construction Example.third_time Example.company_profile
                   initial_store) in
  calls s' = dialogue Example.third_time 3 /\
  nth_error (calls s') 1
    = Some (GenerateLlm (JStr "Add deadlines to the actions")).
Proof.
  destruct (agents_are_called_in_turn Example.third_time Example.company_profile
              (fst (after_construction Example.third_time
                      Example.company_profile initial_store))
              (snd (after_construction Example.third_time
                      Example.company_profile initial_store)))
    as (n & [(Hcalls & Hic & _) | (_ & Hic & _ & Hgen & _)]).
  - apply surjective_pairing.
  - cbv zeta.
    assert (Hn : n = 3%nat).
    { apply Nat2Z.inj. rewrite <- Hic. vm_compute. reflexivity. }
    subst n. split; [ exact Hcalls | ].
    rewrite Hcalls. vm_compute. reflexivity.
  - exfalso.
    assert (Hn : Z.of_nat (S n) = 3%Z) by (rewrite <- Hic; vm_compute; reflexivity).
    assert (n = 2%nat) by lia. subst n.
    apply Hgen. reflexivity.
Defined.

(* ------------------------------------------------------------------ *)
(** ** The key check of the constructors *)


Lemma strip_empty : PyStr.strip "" = "".
Proof. reflexivity. Qed.



(* ------------------------------------------------------------------ *)
(** ** A limit of zero *)


